(** * roarmms2: command protocol, mission engine and scheduler

    A shallow embedding of the core of the RoArm-M2 multi-robot controller
    ([robot_control_frame.py], [scheduler.py]) and the properties of its
    specification.

    Conventions of the embedding.
    - A Python dict with string keys (a command frame, a mission step, a
      file header) is a [gmap string value]; the values are the JSON
      scalars.  A parsed JSON document is a [json]: an object or a scalar.
      The dict [missions] is keyed by the mission name, which is whatever
      value the header of a loaded file gives; keys compare structurally.
    - Python numbers ([int], [float]) are exact: an [int] is a [Z], a
      [float] is a rational [Q].  Rounding, infinities and NaN are outside
      the model.
    - The pose [current_position] always has the four keys x, y, z, t and is
      a record of four values.
    - A method of [RobotControlFrame] is a computation in the monad [M]:
      it threads the object's state and may raise a Python exception; the
      effects it has on the outside (frames sent, sleeps, lock operations,
      queued GUI updates, threads started) are appended to [effects].
      Logging is left out.
    - What other threads and the outside world decide is a parameter: the
      answers of [mission_execution_stop_event.is_set()] to a run, the
      answers of [datetime.now()] to a monitor, the files, the answers of
      the dialogs.
    - [json.dumps]/[json.loads], [datetime.strptime] and [os.path.basename]
      are library code: they are parameters, [json] with its contract. *)

From Stdlib Require Import QArith Qabs Qround Ascii String Lqa.
From Stdlib Require Import DecimalString DecimalPos.
From stdpp Require Import gmap strings list fin_maps countable.

Local Open Scope string_scope.
Local Open Scope list_scope.
Local Open Scope Z_scope.

(** ** Values *)

Inductive value : Type :=
  | VNone
  | VBool (b : bool)
  | VInt (z : Z)
  | VFloat (q : Q)
  | VStr (s : string).

Abbreviation dict := (gmap string value).

Inductive json : Type :=
  | JObj (d : dict)
  | JVal (v : value).

Global Instance Q_eq_dec : EqDecision Q.
Proof. solve_decision. Defined.

Global Instance value_eq_dec : EqDecision value.
Proof. solve_decision. Defined.

Definition value_to_sum (v : value) : unit + bool + Z + (Z * positive) + string :=
  match v with
  | VNone => inl (inl (inl (inl tt)))
  | VBool b => inl (inl (inl (inr b)))
  | VInt z => inl (inl (inr z))
  | VFloat q => inl (inr (Qnum q, Qden q))
  | VStr s => inr s
  end.

Definition value_of_sum (x : unit + bool + Z + (Z * positive) + string) : value :=
  match x with
  | inl (inl (inl (inl _))) => VNone
  | inl (inl (inl (inr b))) => VBool b
  | inl (inl (inr z)) => VInt z
  | inl (inr (n, d)) => VFloat (Qmake n d)
  | inr s => VStr s
  end.

Global Instance value_countable : Countable value.
Proof.
  apply (inj_countable' value_to_sum value_of_sum).
  intros [| b | z | [n d] | s]; reflexivity.
Defined.

(** The number a value stands for in arithmetic; [bool] is a subclass of
    [int], everything else raises [TypeError]. *)
Definition to_num (v : value) : option Q :=
  match v with
  | VInt z => Some (inject_Z z)
  | VFloat q => Some q
  | VBool b => Some (inject_Z (if b then 1 else 0))
  | VNone | VStr _ => None
  end.

(** [v == n] for an integer literal [n]; [None] is an absent key, as
    returned by [dict.get]. *)
Definition py_eq_int (v : option value) (n : Z) : bool :=
  match v with
  | Some w =>
      match to_num w with
      | Some q => Qeq_bool q (inject_Z n)
      | None => false
      end
  | None => false
  end.

(** Truth value of a Python object. *)
Definition truthy (v : value) : bool :=
  match v with
  | VNone => false
  | VBool b => b
  | VInt z => negb (z =? 0)
  | VFloat q => negb (Qeq_bool q 0)
  | VStr s => negb (String.eqb s "")
  end.

Definition Qltb (a b : Q) : bool := negb (Qle_bool b a).

(** [max(a, b, c)]: the first of the largest arguments. *)
Definition py_max3 (a b c : Q) : Q :=
  let m := if Qltb a b then b else a in
  if Qltb m c then c else m.

(** [min(a, b)]. *)
Definition py_min (a b : Q) : Q := if Qltb b a then b else a.

(** ** Step classification *)

Definition has_key (k : string) (d : dict) : bool := bool_decide (is_Some (d !! k)).

Definition get_step_type (step : dict) : string :=
  let t_value := step !! "T" in
  if py_eq_int t_value 104 then "movement"
  else if py_eq_int t_value 113 then
    if has_key "pwm_a" step && has_key "pwm_b" step then "suction" else "relay"
  else if py_eq_int t_value 111 then "delay"
  else if py_eq_int t_value 114 then "led"
  else if py_eq_int t_value 210 then "torque"
  else if py_eq_int t_value 112 then "dynamic_adaptation"
  else "other".

(** The variants of a mission step and the names [get_step_type] gives
    them. *)
Inductive step_kind : Type :=
  | Movement | Suction | Relay | Delay | LED | Torque | DynamicAdaptation | Other.

Definition kind_name (k : step_kind) : string :=
  match k with
  | Movement => "movement"
  | Suction => "suction"
  | Relay => "relay"
  | Delay => "delay"
  | LED => "led"
  | Torque => "torque"
  | DynamicAdaptation => "dynamic_adaptation"
  | Other => "other"
  end.

(** The message-type code of a step: the integer its ["T"] field is equal
    to, if there is one. *)
Definition message_type_code (step : dict) : option Z :=
  v ← step !! "T";
  q ← to_num v;
  if Qeq_bool q (inject_Z (Qfloor q)) then Some (Qfloor q) else None.

(** The classification table of the specification. *)
Definition classify (code : option Z) (pwm_a pwm_b : bool) : step_kind :=
  match code with
  | Some 104 => Movement
  | Some 113 => if pwm_a && pwm_b then Suction else Relay
  | Some 111 => Delay
  | Some 114 => LED
  | Some 210 => Torque
  | Some 112 => DynamicAdaptation
  | _ => Other
  end.

(** ** The state of a [RobotControlFrame] *)

Record pose : Type := Pose { px : value; py : value; pz : value; pt : value }.

Definition startup_position : pose :=
  Pose (VFloat 235) (VFloat 0) (VFloat 234) (VFloat (314 # 100)).

Definition pose_get (axis : string) (p : pose) : option value :=
  if String.eqb axis "x" then Some (px p)
  else if String.eqb axis "y" then Some (py p)
  else if String.eqb axis "z" then Some (pz p)
  else if String.eqb axis "t" then Some (pt p)
  else None.

Record mission : Type := Mission {
  m_name : value;
  m_intro : value;
  m_steps : list json
}.

(** Python exceptions the modelled code can raise. *)
Inductive exn : Type :=
  | KeyError (k : string)
  | TypeError
  | AttributeError
  | IndexError
  | ZeroDivisionError
  | ValueError
  | JSONDecodeError
  | FileNotFoundError.

(** The status messages.  A message carries what its text is built from
    when the update is queued; what the text reads from the object only
    when the GUI shows it (the pose, the selected mission) is not part of
    the message. *)
Inductive status_msg : Type :=
  | MsgMovementExecuted
  | MsgPositionUpdatedTo
  | MsgPositionUpdated
  | MsgExecutingDelay (ms : value)
  | MsgDelayCompleted (ms : value)
  | MsgCommandExecuted
  | MsgUnknownStepType (step : json)
  | MsgMissionStopped
  | MsgMissionCompleted
  | MsgMissionFailed (e : exn)
  | MsgPlaying (times : Z)
  | MsgSaved (path : string)
  | MsgSaveFailed (e : exn)
  | MsgLoaded (name : value) (path : string)
  | MsgLoadFailed (e : exn)
  | MsgStepMoved (from to : nat)
  | MsgMoveFailed (e : exn)
  | MsgDragDropCompleted.

Inductive error_msg : Type :=
  | ErrNoMissionSelected
  | ErrMissionExecutionFailed (e : exn)
  | ErrSaveFailed (e : exn)
  | ErrLoadFailed (e : exn)
  | ErrMoveFailed (e : exn).

(** What is put on [gui_queue]. *)
Inductive gui_update : Type :=
  | GStatus (m : status_msg)
  | GProgress (p : Q)
  | GError (m : error_msg).

(** A started [run_mission] thread. *)
Record run_handle : Type := RunHandle { run_id : nat; run_times : Z }.

Inductive event : Type :=
  | ESend (cmd : json)
  | ESleep (secs : Q)
  | EAcquire
  | ERelease
  | EPoseWrite (axis : string) (v : value)
  | EGui (u : gui_update)
  | EStartRun (h : run_handle).

Record robot : Type := Robot {
  robot_name : string;
  current_position : pose;
  default_spd : value;
  default_acc : value;
  missions : gmap value mission;
  selected_mission : option value;
  mission_execution_thread : option run_handle;
  mission_execution_stop_event : bool;
  active_runs : list run_handle;
  threads_started : nat;
  dragging_item : option nat;
  dragging_start_index : option nat;
  speed_scale : Q;
  distance_scale : Q;
  base_delay : Q;
  max_delay : Q;
  effects : list event
}.

Definition set_effects (es : list event) (r : robot) : robot :=
  Robot (robot_name r) (current_position r) (default_spd r) (default_acc r)
    (missions r) (selected_mission r) (mission_execution_thread r)
    (mission_execution_stop_event r) (active_runs r) (threads_started r)
    (dragging_item r)
    (dragging_start_index r) (speed_scale r) (distance_scale r) (base_delay r)
    (max_delay r) es.

Definition set_current_position (p : pose) (r : robot) : robot :=
  Robot (robot_name r) p (default_spd r) (default_acc r)
    (missions r) (selected_mission r) (mission_execution_thread r)
    (mission_execution_stop_event r) (active_runs r) (threads_started r)
    (dragging_item r)
    (dragging_start_index r) (speed_scale r) (distance_scale r) (base_delay r)
    (max_delay r) (effects r).

Definition set_missions (ms : gmap value mission) (r : robot) : robot :=
  Robot (robot_name r) (current_position r) (default_spd r) (default_acc r)
    ms (selected_mission r) (mission_execution_thread r)
    (mission_execution_stop_event r) (active_runs r) (threads_started r)
    (dragging_item r)
    (dragging_start_index r) (speed_scale r) (distance_scale r) (base_delay r)
    (max_delay r) (effects r).

Definition set_selected_mission (sel : option value) (r : robot) : robot :=
  Robot (robot_name r) (current_position r) (default_spd r) (default_acc r)
    (missions r) sel (mission_execution_thread r)
    (mission_execution_stop_event r) (active_runs r) (threads_started r)
    (dragging_item r)
    (dragging_start_index r) (speed_scale r) (distance_scale r) (base_delay r)
    (max_delay r) (effects r).

Definition set_mission_execution (th : option run_handle) (stop : bool)
    (runs : list run_handle) (started : nat) (r : robot) : robot :=
  Robot (robot_name r) (current_position r) (default_spd r) (default_acc r)
    (missions r) (selected_mission r) th stop runs started (dragging_item r)
    (dragging_start_index r) (speed_scale r) (distance_scale r) (base_delay r)
    (max_delay r) (effects r).

Definition set_dragging (item start : option nat) (r : robot) : robot :=
  Robot (robot_name r) (current_position r) (default_spd r) (default_acc r)
    (missions r) (selected_mission r) (mission_execution_thread r)
    (mission_execution_stop_event r) (active_runs r) (threads_started r)
    item start
    (speed_scale r) (distance_scale r) (base_delay r) (max_delay r) (effects r).

(** [RobotControlFrame.__init__], without the widgets and the serial port. *)
Definition init_robot_frame (name : string) : robot :=
  Robot name startup_position (VFloat (25 # 10)) (VInt 10) ∅ None None false []
    0 None None 1 100 (1 # 2) 2 [].

(** ** The monad of methods: state and exceptions *)

Inductive result (A : Type) : Type :=
  | Ok (a : A)
  | Raise (e : exn).
Arguments Ok {A} a.
Arguments Raise {A} e.

Definition M (A : Type) : Type := robot → robot * result A.

Definition ret {A} (a : A) : M A := λ r, (r, Ok a).

Definition bind {A B} (c : M A) (k : A → M B) : M B :=
  λ r, match c r with
       | (r', Ok a) => k a r'
       | (r', Raise e) => (r', Raise e)
       end.

Definition raise {A} (e : exn) : M A := λ r, (r, Raise e).

Definition get_self : M robot := λ r, (r, Ok r).

Definition modify (f : robot → robot) : M unit := λ r, (f r, Ok tt).

(** [try: c except Exception as e: h e] *)
Definition try_except {A} (c : M A) (h : exn → M A) : M A :=
  λ r, match c r with
       | (r', Ok a) => (r', Ok a)
       | (r', Raise e) => h e r'
       end.

(** An optional value or the exception its absence raises. *)
Definition lift_or {A} (e : exn) (o : option A) : M A :=
  match o with
  | Some a => ret a
  | None => raise e
  end.

Declare Scope method_scope.
Delimit Scope method_scope with method.
Notation "x <- c ;; k" := (bind c (λ x, k))
  (at level 100, c at next level, right associativity) : method_scope.
Notation "c ;;; k" := (bind c (λ _, k))
  (at level 100, right associativity) : method_scope.
Local Open Scope method_scope.

Definition emit (e : event) : M unit :=
  modify (λ r, set_effects (effects r ++ [e]) r).

Definition queue_gui_update (u : gui_update) : M unit := emit (EGui u).
Definition update_status_bar (m : status_msg) : M unit := queue_gui_update (GStatus m).
Definition update_progress_bar (p : Q) : M unit := queue_gui_update (GProgress p).
Definition show_error (m : error_msg) : M unit := queue_gui_update (GError m).
Definition send_command_in_thread (cmd : json) : M unit := emit (ESend cmd).

(** [time.sleep(secs)]; a negative length raises [ValueError]. *)
Definition sleep (secs : Q) : M unit :=
  if Qltb secs 0 then raise ValueError else emit (ESleep secs).

(** [step[k]] and [step.get(k, default)] on a parsed step. *)
Definition subscript (step : json) (k : string) : M value :=
  match step with
  | JObj d => lift_or (KeyError k) (d !! k)
  | JVal _ => raise TypeError
  end.

Definition get_default (step : json) (k : string) (dflt : value) : M value :=
  match step with
  | JObj d => ret (default dflt (d !! k))
  | JVal _ => raise AttributeError
  end.

Definition number (v : value) : M Q := lift_or TypeError (to_num v).

(** [a / b] on numbers. *)
Definition py_div (a b : Q) : M Q :=
  if Qeq_bool b 0 then raise ZeroDivisionError else ret (a / b)%Q.

Definition write_axis (axis : string) (v : value) : M unit :=
  modify (λ r,
    let p := current_position r in
    let p' :=
      if String.eqb axis "x" then Pose v (py p) (pz p) (pt p)
      else if String.eqb axis "y" then Pose (px p) v (pz p) (pt p)
      else if String.eqb axis "z" then Pose (px p) (py p) v (pt p)
      else if String.eqb axis "t" then Pose (px p) (py p) (pz p) v
      else p in
    set_effects (effects r ++ [EPoseWrite axis v]) (set_current_position p' r)).

(** [with self.movement_lock: c] *)
Definition with_movement_lock {A} (c : M A) : M A :=
  emit EAcquire ;;;
  try_except (a <- c ;; emit ERelease ;;; ret a)
             (λ e, emit ERelease ;;; raise e).

(** ** Device link: inbound frames *)

Definition handle_serial_data (data : json) : M unit :=
  d <- match data with
       | JObj d => ret d
       | JVal _ => raise AttributeError
       end ;;
  let t_value := d !! "T" in
  if py_eq_int t_value 1051 then
    with_movement_lock (
      r <- get_self ;;
      write_axis "x" (default (px (current_position r)) (d !! "x")) ;;;
      r <- get_self ;;
      write_axis "y" (default (py (current_position r)) (d !! "y")) ;;;
      r <- get_self ;;
      write_axis "z" (default (pz (current_position r)) (d !! "z")) ;;;
      r <- get_self ;;
      write_axis "t" (default (pt (current_position r)) (d !! "t")) ;;;
      update_status_bar MsgPositionUpdated)
  else if py_eq_int t_value 105 then ret tt  (* acknowledgment: logged only *)
  else ret tt.                               (* unknown type: logged only *)

(** ** Mission execution engine *)

(** The settle time of a movement step, as [execute_step] computes it. *)
Definition movement_tc (step : json) : M Q :=
  r <- get_self ;;
  sx <- subscript step "x" ;;
  cx <- number (px (current_position r)) ;;
  tx <- number sx ;;
  let dx := Qabs (cx - tx) in
  sy <- subscript step "y" ;;
  cy <- number (py (current_position r)) ;;
  ty <- number sy ;;
  let dy := Qabs (cy - ty) in
  sz <- subscript step "z" ;;
  cz <- number (pz (current_position r)) ;;
  tz <- number sz ;;
  let dz := Qabs (cz - tz) in
  let mx := py_max3 dx dy dz in
  vspd <- get_default step "spd" (default_spd r) ;;
  a <- py_div mx (distance_scale r) ;;
  spd <- number vspd ;;
  b <- py_div (speed_scale r) spd ;;
  let tc := (a * b + base_delay r)%Q in
  ret (py_min tc (max_delay r)).

Definition execute_step (step : json) : M unit :=
  vT <- subscript step "T" ;;
  if py_eq_int (Some vT) 104 then
    tc <- movement_tc step ;;
    send_command_in_thread step ;;;
    update_status_bar MsgMovementExecuted ;;;
    sleep tc ;;;
    with_movement_lock (
      x <- subscript step "x" ;;
      y <- subscript step "y" ;;
      z <- subscript step "z" ;;
      t <- subscript step "t" ;;
      write_axis "x" x ;;;
      write_axis "y" y ;;;
      write_axis "z" z ;;;
      write_axis "t" t ;;;
      update_status_bar MsgPositionUpdatedTo)
  else if py_eq_int (Some vT) 111 then
    delay_ms <- get_default step "cmd" (VInt 1000) ;;
    update_status_bar (MsgExecutingDelay delay_ms) ;;;
    ms <- number delay_ms ;;
    sleep (ms / 1000)%Q ;;;
    update_status_bar (MsgDelayCompleted delay_ms)
  else if py_eq_int (Some vT) 113 || py_eq_int (Some vT) 114
          || py_eq_int (Some vT) 210 || py_eq_int (Some vT) 112 then
    send_command_in_thread step ;;;
    update_status_bar MsgCommandExecuted
  else
    update_status_bar (MsgUnknownStepType step).

(** [not self.selected_mission] *)
Definition no_mission_selected (r : robot) : bool :=
  match selected_mission r with
  | None => true
  | Some v => negb (truthy v)
  end.

(** [self.missions[self.selected_mission]["steps"]] *)
Definition selected_steps : M (list json) :=
  r <- get_self ;;
  match selected_mission r with
  | None => raise (KeyError "None")
  | Some name =>
      match missions r !! name with
      | Some m => ret (m_steps m)
      | None => raise (KeyError "selected_mission")
      end
  end.

Inductive loop_exit : Type := LoopDone | LoopStopped.

Section RunMission.

(** [stop_at k] is what [mission_execution_stop_event.is_set()] answers
    at the check that precedes step number [k] of the run (counted from
    0 over all repetitions): the flag belongs to other threads. *)
Variable stop_at : nat → bool.

(** Total number of steps, for the progress percentage. *)
Variable total_steps : Z.

(** [for stp in steps: ...], with the steps executed so far. *)
Fixpoint run_steps (steps : list json) (executed_steps : nat)
    : M (nat * loop_exit) :=
  match steps with
  | [] => ret (executed_steps, LoopDone)
  | stp :: rest =>
      if stop_at executed_steps then
        update_status_bar MsgMissionStopped ;;;
        ret (executed_steps, LoopStopped)
      else
        execute_step stp ;;;
        let executed_steps := S executed_steps in
        let prog := (inject_Z (Z.of_nat executed_steps) / inject_Z total_steps * 100)%Q in
        update_progress_bar prog ;;;
        run_steps rest executed_steps
  end.

(** [for _ in range(times): ...] *)
Fixpoint run_repetitions (times : nat) (executed_steps : nat)
    : M (nat * loop_exit) :=
  match times with
  | O => ret (executed_steps, LoopDone)
  | S times' =>
      steps <- selected_steps ;;
      res <- run_steps steps executed_steps ;;
      match res with
      | (n, LoopStopped) => ret (n, LoopStopped)
      | (n, LoopDone) => run_repetitions times' n
      end
  end.

End RunMission.

(** How a run ended, with the final [executed_steps] where the run still
    has it. *)
Inductive run_outcome : Type :=
  | RunCompleted (executed_steps : nat)
  | RunCancelled (executed_steps : nat)
  | RunFailed (e : exn).

(** The body of the thread started by [play_mission_specific]. *)
Definition run_mission (stop_at : nat → bool) (times : Z) : M run_outcome :=
  try_except (
    steps <- selected_steps ;;
    let total_steps := Z.of_nat (length steps) * times in
    res <- run_repetitions stop_at total_steps (Z.to_nat times) 0 ;;
    match res with
    | (n, LoopStopped) => ret (RunCancelled n)
    | (n, LoopDone) =>
        update_progress_bar 100 ;;;
        update_status_bar MsgMissionCompleted ;;;
        ret (RunCompleted n)
    end)
  (λ e,
    show_error (ErrMissionExecutionFailed e) ;;;
    update_status_bar (MsgMissionFailed e) ;;;
    ret (RunFailed e)).

Definition play_mission_specific (times : Z) : M unit :=
  r <- get_self ;;
  if no_mission_selected r then
    show_error ErrNoMissionSelected
  else
    update_progress_bar 0 ;;;
    r <- get_self ;;
    let h := RunHandle (threads_started r) times in
    modify (set_mission_execution (Some h) false (active_runs r ++ [h])
              (S (threads_started r))) ;;;
    emit (EStartRun h) ;;;
    update_status_bar (MsgPlaying times).

(** The run thread [h] returns: it is no longer alive. *)
Definition run_finished (h : run_handle) (r : robot) : robot :=
  set_mission_execution (mission_execution_thread r)
    (mission_execution_stop_event r)
    (filter (λ h', run_id h' ≠ run_id h) (active_runs r))
    (threads_started r) r.

(** ** Mission model: reordering *)

(** [l.pop(i)] and [l.insert(i, x)] for an index [i >= 0]. *)
Definition py_pop {A} (i : nat) (l : list A) : option (A * list A) :=
  match l !! i with
  | Some x => Some (x, delete i l)
  | None => None
  end.

Definition py_insert {A} (i : nat) (x : A) (l : list A) : list A :=
  take i l ++ x :: drop i l.

Definition set_selected_steps (steps : list json) : M unit :=
  r <- get_self ;;
  match selected_mission r with
  | None => raise (KeyError "None")
  | Some name =>
      match missions r !! name with
      | Some m =>
          modify (set_missions (<[name := Mission (m_name m) (m_intro m) steps]> (missions r)))
      | None => raise (KeyError "selected_mission")
      end
  end.

(** [on_treeview_drop]: [drop_item] is the index of the row under the
    pointer, if there is one. *)
Definition on_treeview_drop (drop_item : option nat) : M unit :=
  r <- get_self ;;
  match dragging_item r with
  | None => ret tt
  | Some _ =>
      try_except (
        drop_index <- match drop_item with
                      | None => steps <- selected_steps ;; ret (length steps)
                      | Some i => ret i
                      end ;;
        start_index <- lift_or TypeError (dragging_start_index r) ;;
        let drop_index :=
          if (start_index <? drop_index)%nat then (drop_index - 1)%nat
          else drop_index in
        steps <- selected_steps ;;
        popped <- lift_or IndexError (py_pop start_index steps) ;;
        set_selected_steps (py_insert drop_index (fst popped) (snd popped)) ;;;
        update_status_bar (MsgStepMoved (start_index + 1) (drop_index + 1)))
      (λ e,
        show_error (ErrMoveFailed e) ;;;
        update_status_bar (MsgMoveFailed e)) ;;;
      modify (set_dragging None None) ;;;
      update_status_bar MsgDragDropCompleted
  end.

(** ** Text files *)

Definition LF : ascii := "010"%char.
Definition CR : ascii := "013"%char.

(** [str.isspace] on the code points below 256. *)
Definition is_space (c : ascii) : bool :=
  let n := nat_of_ascii c in
  ((9 <=? n) && (n <=? 13) || (28 <=? n) && (n <=? 32) || (n =? 133) || (n =? 160))%nat.

Fixpoint lstrip (s : string) : string :=
  match s with
  | EmptyString => EmptyString
  | String c s' => if is_space c then lstrip s' else s
  end.

Fixpoint rstrip (s : string) : string :=
  match s with
  | EmptyString => EmptyString
  | String c s' =>
      match rstrip s' with
      | EmptyString => if is_space c then EmptyString else String c EmptyString
      | r => String c r
      end
  end.

(** [s.strip()] *)
Definition strip (s : string) : string := lstrip (rstrip s).

(** Reading in text mode translates the line ends CR LF and CR to LF. *)
Fixpoint universal_newlines (s : string) : string :=
  match s with
  | EmptyString => EmptyString
  | String c s' =>
      if Ascii.eqb c CR then
        match s' with
        | String c' s'' =>
            if Ascii.eqb c' LF then String LF (universal_newlines s'')
            else String LF (universal_newlines s')
        | EmptyString => String LF EmptyString
        end
      else String c (universal_newlines s')
  end.

(** Splitting into lines, each with its line end. *)
Fixpoint split_lines (s : string) : list string :=
  match s with
  | EmptyString => []
  | String c s' =>
      if Ascii.eqb c LF then String LF EmptyString :: split_lines s'
      else match split_lines s' with
           | [] => [String c EmptyString]
           | l :: ls => String c l :: ls
           end
  end.

(** [f.readlines()] on a file opened with mode ['r']. *)
Definition readlines (content : string) : list string :=
  split_lines (universal_newlines content).

Definition no_line_end (s : string) : Prop :=
  Forall (λ c, c ≠ LF ∧ c ≠ CR) (list_ascii_of_string s).

(** The file system: path to content. *)
Abbreviation files := (gmap string string).

(** ** The [json] library *)

(** [json.dumps(v, separators=(',', ':'))] and [json.loads], with the
    part of their contract that the mission file format relies on: a
    document is read back as it was written, and is written on one line
    without surrounding white space. *)
Class JsonCodec : Type := {
  dumps : json → string;
  loads : string → option json;
  loads_dumps : ∀ j, loads (dumps j) = Some j;
  dumps_one_line : ∀ j, no_line_end (dumps j);
  dumps_stripped : ∀ j, strip (dumps j) = dumps j
}.

Section MissionFiles.

Context `{JsonCodec}.

Definition json_loads (s : string) : M json := lift_or JSONDecodeError (loads s).

(** The header that [save_mission] writes. *)
Definition saved_header (data : mission) : json :=
  JObj {[ "name" := m_name data; "intro" := VStr "Mission" ]}.

Definition write_line (j : json) : string := dumps j +:+ String LF EmptyString.

(** What [save_mission] writes to the file. *)
Definition mission_file_content (data : mission) : string :=
  write_line (saved_header data)
  +:+ foldr (λ s rest, write_line s +:+ rest) EmptyString (m_steps data).

(** [save_mission]: [file_path] is the answer of the file dialog, empty
    when it was cancelled; the result is the file system afterwards. *)
Definition save_mission (file_path : string) (fs : files) : M files :=
  r <- get_self ;;
  if no_mission_selected r then
    show_error ErrNoMissionSelected ;;; ret fs
  else if String.eqb file_path "" then ret fs
  else
    try_except (
      data <- match selected_mission r with
              | Some name => lift_or (KeyError "selected_mission") (missions r !! name)
              | None => raise (KeyError "None")
              end ;;
      let fs' := <[file_path := mission_file_content data]> fs in
      send_command_in_thread
        (JObj {[ "T" := VInt 221; "name" := default VNone (selected_mission r) ]}) ;;;
      update_status_bar (MsgSaved file_path) ;;;
      ret fs')
    (λ e,
      show_error (ErrSaveFailed e) ;;;
      update_status_bar (MsgSaveFailed e) ;;;
      ret fs).

(** [[json.loads(l.strip()) for l in lines]] *)
Fixpoint load_steps (lines : list string) : M (list json) :=
  match lines with
  | [] => ret []
  | l :: rest =>
      j <- json_loads (strip l) ;;
      js <- load_steps rest ;;
      ret (j :: js)
  end.

(** [load_mission]: [file_path] is the answer of the file dialog and
    [overwrite] the answer to the question asked when the name is
    already taken. *)
Definition load_mission (file_path : string) (overwrite : bool) (fs : files)
    : M unit :=
  if String.eqb file_path "" then ret tt
  else
    try_except (
      content <- lift_or FileNotFoundError (fs !! file_path) ;;
      let lines := readlines content in
      line0 <- lift_or IndexError (head lines) ;;
      header <- json_loads (strip line0) ;;
      name <- get_default header "name" (VStr "unnamed_mission") ;;
      steps <- load_steps (tail lines) ;;
      r <- get_self ;;
      if bool_decide (is_Some (missions r !! name)) && negb overwrite then ret tt
      else
        intro <- get_default header "intro" (VStr "Mission") ;;
        modify (set_missions (<[name := Mission name intro steps]> (missions r))) ;;;
        modify (set_selected_mission (Some name)) ;;;
        update_status_bar (MsgLoaded name file_path))
    (λ e,
      show_error (ErrLoadFailed e) ;;;
      update_status_bar (MsgLoadFailed e)).

End MissionFiles.

(** ** Scheduler *)

(** A scheduled task, as [add_to_schedule] builds it. *)
Record task : Type := Task {
  t_robot : string;
  t_mission_file : string;
  t_scheduled_time : string;
  t_recurrence : string;
  t_status : string
}.

(** A row of [tasks_tree]: the columns Robot, Mission File, Scheduled Time,
    Recurrence and Status. *)
Record row : Type := Row {
  row_robot : string;
  row_file : string;
  row_time : string;
  row_recurrence : string;
  row_status : string
}.

(** [datetime.time] and [datetime.datetime]: a day number and the
    microseconds since midnight. *)
Record time : Type := Time { hour : Z; minute : Z; second : Z }.
Record datetime : Type := DateTime { dt_date : Z; dt_micros : Z }.

Definition time_micros (t : time) : Z :=
  ((hour t * 60 + minute t) * 60 + second t) * 1000000.

Definition combine (d : Z) (t : time) : datetime := DateTime d (time_micros t).

Definition dt_ltb (a b : datetime) : bool :=
  (dt_date a <? dt_date b) || ((dt_date a =? dt_date b) && (dt_micros a <? dt_micros b)).

Definition add_days (n : Z) (a : datetime) : datetime :=
  DateTime (dt_date a + n) (dt_micros a).

(** [(a - b).total_seconds()] *)
Definition total_seconds (a b : datetime) : Q :=
  (inject_Z ((dt_date a - dt_date b) * 86400000000 + (dt_micros a - dt_micros b))
   / 1000000)%Q.

Inductive sched_event : Type :=
  | SSleep (secs : Q)
  | SOpen (path : string)
  | SPlay (robot_id : string).

Record scheduler : Type := Scheduler {
  tasks_tree : list row;
  robot1 : robot;
  robot2 : robot;
  sched_effects : list sched_event
}.

Inductive monitor_exit : Type :=
  | MonitorReturned
  | MonitorLooping.

Section Monitor.

Context `{JsonCodec}.

(** [datetime.strptime(s, "%I:%M:%S %p").time()]; [None] is [ValueError]. *)
Variable strptime : string → option time.

(** [os.path.basename] *)
Variable basename : string → string.

(** [clock n] is what the [n]-th call of [datetime.now()] in the monitor
    returns. *)
Variable clock : nat → datetime.

Variable fs : files.

Definition row_matches (t : task) (values : row) : bool :=
  String.eqb (row_robot values) (t_robot t)
  && String.eqb (row_file values) (basename (t_mission_file t))
  && String.eqb (row_time values) (t_scheduled_time t)
  && String.eqb (row_recurrence values) (t_recurrence t).

Fixpoint set_first_status (t : task) (status : string) (rows : list row)
    : list row :=
  match rows with
  | [] => []
  | values :: rest =>
      if row_matches t values then
        Row (row_robot values) (row_file values) (row_time values)
            (row_recurrence values) status :: rest
      else values :: set_first_status t status rest
  end.

Definition update_task_status (t : task) (status : string) (st : scheduler)
    : scheduler :=
  Scheduler (set_first_status t status (tasks_tree st)) (robot1 st) (robot2 st)
    (sched_effects st).

Definition sched_emit (e : sched_event) (st : scheduler) : scheduler :=
  Scheduler (tasks_tree st) (robot1 st) (robot2 st) (sched_effects st ++ [e]).

(** The [try] block that reads the name in the header of the mission
    file; [None] when it raises. *)
Definition read_mission_name (path : string) : option value :=
  content ← fs !! path;
  line0 ← head (readlines content);
  header ← loads (strip line0);
  match header with
  | JObj d => Some (default (VStr "Unnamed Mission") (d !! "name"))
  | JVal _ => None
  end.

Definition play_robot1 (st : scheduler) : scheduler :=
  Scheduler (tasks_tree st) (fst (play_mission_specific 1 (robot1 st)))
    (robot2 st) (sched_effects st ++ [SPlay "Robot 1"]).

Definition play_robot2 (st : scheduler) : scheduler :=
  Scheduler (tasks_tree st) (robot1 st)
    (fst (play_mission_specific 1 (robot2 st)))
    (sched_effects st ++ [SPlay "Robot 2"]).

(** The moment the monitor waits for: today at the scheduled time, or,
    when that is already past, a day or a week later for a daily or a
    weekly task, and none for any other task. *)
Definition next_trigger (now : datetime) (scheduled_time : time)
    (recurrence : string) : option datetime :=
  let scheduled_datetime := combine (dt_date now) scheduled_time in
  if dt_ltb scheduled_datetime now then
    if String.eqb recurrence "Daily" then Some (add_days 1 scheduled_datetime)
    else if String.eqb recurrence "Weekly" then Some (add_days 7 scheduled_datetime)
    else None
  else Some scheduled_datetime.

(** [if time_to_wait > 0: time.sleep(time_to_wait)] *)
Definition wait_until (scheduled_datetime now : datetime) (st : scheduler)
    : scheduler :=
  let time_to_wait := total_seconds scheduled_datetime now in
  if Qltb 0 time_to_wait then sched_emit (SSleep time_to_wait) st else st.

(** The call of [play_mission_specific(1)] on the robot of the task, if
    it is one of the two. *)
Definition play_on (robot_id : string) (st : scheduler) : option scheduler :=
  if String.eqb robot_id "Robot 1" then Some (play_robot1 st)
  else if String.eqb robot_id "Robot 2" then Some (play_robot2 st)
  else None.

(** [monitor_task]: [fuel] bounds the passes through [while True] that
    are followed, [iteration] counts them. *)
Fixpoint monitor_task (fuel : nat) (iteration : nat) (t : task)
    (st : scheduler) : scheduler * monitor_exit :=
  match fuel with
  | O => (st, MonitorLooping)
  | S fuel' =>
      let now := clock iteration in
      match strptime (t_scheduled_time t) with
      | None => (update_task_status t "Invalid Time Format" st, MonitorReturned)
      | Some scheduled_time =>
          match next_trigger now scheduled_time (t_recurrence t) with
          | None => (update_task_status t "Time Passed" st, MonitorReturned)
          | Some scheduled_datetime =>
              let st := wait_until scheduled_datetime now st in
              let st := update_task_status t "Running" st in
              let st := sched_emit (SOpen (t_mission_file t)) st in
              match read_mission_name (t_mission_file t) with
              | None => (update_task_status t "Failed to Load" st, MonitorReturned)
              | Some mission_name =>
                  match play_on (t_robot t) st with
                  | None => (update_task_status t "Unknown Robot" st, MonitorReturned)
                  | Some st =>
                      let st := update_task_status t "Completed" st in
                      if String.eqb (t_recurrence t) "Once" then (st, MonitorReturned)
                      else
                        let st :=
                          if String.eqb (t_recurrence t) "Daily"
                             || String.eqb (t_recurrence t) "Weekly"
                          then update_task_status t "Pending" st
                          else st in
                        monitor_task fuel' (S iteration) t st
                  end
              end
          end
      end
  end.

(** The Status column of the first row that shows the task. *)
Definition shown_status (t : task) (st : scheduler) : option string :=
  row_status <$> head (filter (λ values, row_matches t values = true) (tasks_tree st)).

End Monitor.

(** ** Lock discipline *)

(** Every write to the pose in a trace happens while [movement_lock] is
    held; [held] tells whether it is held where the trace starts. *)
Fixpoint writes_guarded (held : bool) (es : list event) : bool :=
  match es with
  | [] => true
  | EAcquire :: es' => writes_guarded true es'
  | ERelease :: es' => writes_guarded false es'
  | EPoseWrite _ _ :: es' => held && writes_guarded held es'
  | _ :: es' => writes_guarded held es'
  end.

(** The pose after a telemetry frame: each axis from the frame if the
    frame has it. *)
Definition telemetry_pose (d : dict) (p : pose) : pose :=
  Pose (default (px p) (d !! "x")) (default (py p) (d !! "y"))
       (default (pz p) (d !! "z")) (default (pt p) (d !! "t")).

(** ** Sample data *)

Definition sample_move_fields : dict :=
  {[ "T" := VInt 104; "x" := VFloat 0; "y" := VFloat 0; "z" := VFloat 0;
     "t" := VFloat 0; "spd" := VFloat (25 # 10); "acc" := VInt 10 ]}.

Definition sample_move : json := JObj sample_move_fields.

Definition sample_delay : json := JObj {[ "T" := VInt 111; "cmd" := VInt 500 ]}.

Definition sample_suction : json :=
  JObj {[ "T" := VInt 113; "pwm_a" := VInt 0; "pwm_b" := VInt 255 ]}.

Definition sample_mission : mission :=
  Mission (VStr "demo") (VStr "Mission") [sample_move; sample_delay; sample_suction].

(** A robot on which the mission "demo" was created and selected. *)
Definition sample_robot : robot :=
  set_selected_mission (Some (VStr "demo"))
    (set_missions {[ VStr "demo" := sample_mission ]} (init_robot_frame "Robot 1")).

Definition is_error (e : event) : bool :=
  match e with
  | EGui (GError _) => true
  | _ => false
  end.

(** ** Movement timing *)

(** [abs(c - s)] for a pose axis and the step's target. *)
Definition axis_delta (c s : value) : option Q :=
  cq ← to_num c; sq ← to_num s; Some (Qabs (cq - sq)).

(** [maxAxisDelta]: the largest of the distances along x, y and z between
    the pose and the target of a movement step. *)
Definition max_axis_delta (p : pose) (d : dict) : option Q :=
  sx ← d !! "x"; dx ← axis_delta (px p) sx;
  sy ← d !! "y"; dy ← axis_delta (py p) sy;
  sz ← d !! "z"; dz ← axis_delta (pz p) sz;
  Some (py_max3 dx dy dz).

(** The speed of a movement step: its ["spd"], or the default speed. *)
Definition step_spd (r : robot) (d : dict) : option Q :=
  to_num (default (default_spd r) (d !! "spd")).



(** ** Reordering, as the specification words it *)

(** [move(fromIndex, toIndex)]: the step is removed and inserted again,
    at the destination index less one when the drop point lies after the
    removal point. *)
Definition move_spec {A} (from_index to_index : nat) (l : list A)
    : option (list A) :=
  match l !! from_index with
  | Some x =>
      let removed := delete from_index l in
      if (from_index <? to_index)%nat
      then Some (py_insert (to_index - 1) x removed)
      else Some (py_insert to_index x removed)
  | None => None
  end.

(** The drop index of a drop on the row [drop_item], or below all rows. *)
Definition drop_index_of {A} (steps : list A) (drop_item : option nat) : nat :=
  default (length steps) drop_item.

(** Four steps to reorder, told apart by their delay. *)
Definition sample_steps4 : list json :=
  [JObj {[ "T" := VInt 111; "cmd" := VInt 0 ]};
   JObj {[ "T" := VInt 111; "cmd" := VInt 1 ]};
   JObj {[ "T" := VInt 111; "cmd" := VInt 2 ]};
   JObj {[ "T" := VInt 111; "cmd" := VInt 3 ]}].

(** A robot whose selected mission has these steps, during a drag that
    started on the first row. *)
Definition sample_dragging_robot : robot :=
  set_dragging (Some 0%nat) (Some 0%nat)
    (set_selected_mission (Some (VStr "demo"))
       (set_missions
          {[ VStr "demo" := Mission (VStr "demo") (VStr "Mission") sample_steps4 ]}
          (init_robot_frame "Robot 1"))).

(** ** A cancelled run, by its prefix *)

(** The steps of a list executed one after the other with their progress
    notifications, without a look at the stop flag. *)
Fixpoint exec_steps (total_steps : Z) (steps : list json) (executed_steps : nat)
    : M nat :=
  match steps with
  | [] => ret executed_steps
  | stp :: rest =>
      execute_step stp ;;;
      let executed_steps := S executed_steps in
      let prog := (inject_Z (Z.of_nat executed_steps) / inject_Z total_steps * 100)%Q in
      update_progress_bar prog ;;;
      exec_steps total_steps rest executed_steps
  end.

(** A run that executes [prefix] and then reports that it was stopped. *)
Definition run_prefix_then_stop (total_steps : Z) (prefix : list json)
    : M run_outcome :=
  try_except (
    n <- exec_steps total_steps prefix 0 ;;
    update_status_bar MsgMissionStopped ;;;
    ret (RunCancelled n))
  (λ e,
    show_error (ErrMissionExecutionFailed e) ;;;
    update_status_bar (MsgMissionFailed e) ;;;
    ret (RunFailed e)).

(** All the steps of a run of [times] repetitions, in order. *)
Definition all_steps (times : Z) (steps : list json) : list json :=
  concat (replicate (Z.to_nat times) steps).

Definition is_send (e : event) : bool :=
  match e with
  | ESend _ => true
  | _ => false
  end.

(** ** The text of a mission file *)

Section FileText.

Context `{JsonCodec}.

(** The text of a file with one document per line. *)
Definition file_text (js : list json) : string :=
  foldr (λ s rest, write_line s +:+ rest) EmptyString js.

End FileText.

(** ** A model of the [json] contract *)

Global Instance json_eq_dec : EqDecision json.
Proof. solve_decision. Defined.

Global Instance json_countable : Countable json.
Proof.
  apply (inj_countable'
           (λ j, match j with JObj d => inl d | JVal v => inr v end)
           (λ s, match s with inl d => JObj d | inr v => JVal v end)).
  intros [d|v]; reflexivity.
Defined.

(** A document written as the decimal numeral of its code, and read back
    from it: a codec that meets the contract. *)
Definition numeral_dumps (j : json) : string :=
  NilEmpty.string_of_uint (Pos.to_uint (encode j)).

Definition numeral_loads (s : string) : option json :=
  match NilEmpty.uint_of_string s with
  | Some d =>
      match Pos.of_uint d with
      | Npos p => decode p
      | N0 => None
      end
  | None => None
  end.

(** ** Sample files *)

(** A file whose first line is not JSON. *)
Definition broken_files : files :=
  {[ "demo.mission" := "{name: demo" +:+ String LF EmptyString ]}.

(** The sample mission under another introduction text, as a mission
    loaded from a file with that header has it. *)
Definition described_mission : mission :=
  Mission (VStr "demo") (VStr "Pick and place") (m_steps sample_mission).

Definition described_robot : robot :=
  set_selected_mission (Some (VStr "demo"))
    (set_missions {[ VStr "demo" := described_mission ]} (init_robot_frame "Robot 1")).

(** ** Sample schedule *)

Definition digit_value (c : ascii) : option Z :=
  let n := Z.of_nat (nat_of_ascii c) in
  if (48 <=? n) && (n <=? 57) then Some (n - 48) else None.

Definition two_digits (a b : ascii) : option Z :=
  x ← digit_value a; y ← digit_value b; Some (10 * x + y).

(** A reading of the time strings that [add_to_schedule] builds, two
    digits for the hour, the minute and the second and AM or PM, as
    [strptime] with the format "%I:%M:%S %p" reads them. *)
Definition strptime_12h (s : string) : option time :=
  match s with
  | String h1 (String h2 (String c1 (String m1 (String m2 (String c2
      (String s1 (String s2 (String sp (String p (String mm EmptyString)))))))))) =>
      h ← two_digits h1 h2;
      m ← two_digits m1 m2;
      sec ← two_digits s1 s2;
      if Ascii.eqb c1 ":" && Ascii.eqb c2 ":" && Ascii.eqb sp " "
         && Ascii.eqb mm "M" && (1 <=? h) && (h <=? 12) && (m <=? 59) && (sec <=? 59)
      then
        if Ascii.eqb p "A" then Some (Time (h mod 12) m sec)
        else if Ascii.eqb p "P" then Some (Time (h mod 12 + 12) m sec)
        else None
      else None
  | _ => None
  end.

(** It is ten in the morning of day 0, whenever the monitor asks. *)
Definition ten_o_clock (n : nat) : datetime := DateTime 0 36000000000.

Definition sample_scheduler (t : task) : scheduler :=
  Scheduler
    [Row (t_robot t) (t_mission_file t) (t_scheduled_time t) (t_recurrence t)
       (t_status t)]
    (init_robot_frame "Robot 1") (init_robot_frame "Robot 2") [].

(** A task for nine in the morning, to be run once. *)
Definition past_once_task : task :=
  Task "Robot 1" "demo.mission" "09:00:00 AM" "Once" "Pending".

(** A task for eleven in the morning on a robot that does not exist, with
    a mission file that does not exist either. *)
Definition stray_task : task :=
  Task "Robot 3" "missing.mission" "11:00:00 AM" "Once" "Pending".

(** The same task with the saved sample mission as its file. *)
Definition stray_task_with_file : task :=
  Task "Robot 3" "demo.mission" "11:00:00 AM" "Once" "Pending".

Definition is_play (e : sched_event) : bool :=
  match e with
  | SPlay _ => true
  | _ => false
  end.

(** ** Notions used in the proofs *)

(** A method only adds to the trace of effects. *)
Definition appends {A} (c : M A) : Prop :=
  ∀ r, ∃ es, effects (fst (c r)) = effects r ++ es.

(** A method leaves the missions and the selection alone. *)
Definition keeps_missions {A} (c : M A) : Prop :=
  ∀ r, missions (fst (c r)) = missions r
       ∧ selected_mission (fst (c r)) = selected_mission r.

(** What the inner loop does when it sees the flag. *)
Definition stop_report (n : nat) : M (nat * loop_exit) :=
  update_status_bar MsgMissionStopped ;;; ret (n, LoopStopped).

(** The characters of a numeral are digits. *)
Definition is_digit (c : ascii) : Prop :=
  ((48 <=? nat_of_ascii c) && (nat_of_ascii c <=? 57))%nat = true.

(** The flag goes up while the second repetition of the three-step sample
    mission runs: it is seen at the check before step number 4. *)
Definition stop_from_4 (k : nat) : bool := (4 <=? k)%nat.

(** ** The lock along a trace *)

(** Whether [movement_lock] is held after a trace, [held] telling whether
    it is held where the trace starts. *)
Fixpoint lock_after (held : bool) (es : list event) : bool :=
  match es with
  | [] => held
  | EAcquire :: es' => lock_after true es'
  | ERelease :: es' => lock_after false es'
  | _ :: es' => lock_after held es'
  end.

(** An event that neither takes nor releases the lock. *)
Definition no_lock_event (e : event) : Prop :=
  match e with
  | EAcquire | ERelease => False
  | _ => True
  end.

(** An event that neither touches the lock nor writes the pose. *)
Definition plain_event (e : event) : Prop :=
  match e with
  | EAcquire | ERelease | EPoseWrite _ _ => False
  | _ => True
  end.

(** A method adds to the trace only events that satisfy [P]. *)
Definition emits {A} (P : event → Prop) (c : M A) : Prop :=
  ∀ r, ∃ es, effects (fst (c r)) = effects r ++ es ∧ Forall P es.

(** A method writes the pose only while it holds the lock, and does not
    hold the lock when it ends, by return or by exception. *)
Definition disciplined {A} (c : M A) : Prop :=
  ∀ r, ∃ es, effects (fst (c r)) = effects r ++ es
             ∧ writes_guarded false es = true
             ∧ lock_after false es = false.

(** ** A run to its end *)

(** A run that executes all of [steps] and reports completion. *)
Definition run_to_completion (total_steps : Z) (steps : list json)
    : M run_outcome :=
  try_except (
    n <- exec_steps total_steps steps 0 ;;
    update_progress_bar 100 ;;;
    update_status_bar MsgMissionCompleted ;;;
    ret (RunCompleted n))
  (λ e,
    show_error (ErrMissionExecutionFailed e) ;;;
    update_status_bar (MsgMissionFailed e) ;;;
    ret (RunFailed e)).

(** The flag is never up. *)
Definition never_stop (k : nat) : bool := false.


(** A movement step at speed zero. *)
Definition sample_move_zero_speed : dict :=
  {[ "T" := VInt 104; "x" := VFloat 0; "y" := VFloat 0; "z" := VFloat 0;
     "t" := VFloat 0; "spd" := VInt 0; "acc" := VInt 10 ]}.



(** ** What a method leaves alone *)



(** The file of the sample mission, whose name the sample robot already
    has. *)
Definition demo_file `{JsonCodec} : files :=
  {[ "demo.mission" := mission_file_content sample_mission ]}.

(** ** The scheduler's form, its task list and its monitors *)

(** The entries of the form above the schedule. *)
Record schedule_form : Type := ScheduleForm {
  robot_var : string;
  mission_path_var : string;
  hour_var : string;
  minute_var : string;
  second_var : string;
  am_pm_var : string;
  recurrence_var : string
}.

Inductive message_box : Type :=
  | ShowError (message : string)
  | ShowInfo (message : string).

(** A [SchedulerFrame] with what the monitors do not use: the form, the
    list [scheduled_tasks], the monitor threads that were started, each
    with its task, and the message boxes that were shown. *)
Record scheduler_frame : Type := SchedulerFrame {
  sched : scheduler;
  sched_form : schedule_form;
  scheduled_tasks : list task;
  monitor_threads : list task;
  message_boxes : list message_box
}.

Definition show_message (b : message_box) (sf : scheduler_frame)
    : scheduler_frame :=
  SchedulerFrame (sched sf) (sched_form sf) (scheduled_tasks sf)
    (monitor_threads sf) (message_boxes sf ++ [b]).

(** [l.remove(x)] for the first [x] that the loop finds. *)
Fixpoint remove_first {A} (p : A → bool) (l : list A) : list A :=
  match l with
  | [] => []
  | x :: rest => if p x then rest else x :: remove_first p rest
  end.

Section Schedule.

Variable strptime : string → option time.
Variable basename : string → string.
Variable fs : files.

(** [os.path.isfile] *)
Definition isfile (path : string) : bool := bool_decide (is_Some (fs !! path)).

(** [add_to_schedule] *)
Definition add_to_schedule (sf : scheduler_frame) : scheduler_frame :=
  let robot := robot_var (sched_form sf) in
  let mission_file := mission_path_var (sched_form sf) in
  let hour := hour_var (sched_form sf) in
  let minute := minute_var (sched_form sf) in
  let second := second_var (sched_form sf) in
  let am_pm := am_pm_var (sched_form sf) in
  let recurrence := recurrence_var (sched_form sf) in
  if String.eqb mission_file "" || negb (isfile mission_file) then
    show_message (ShowError "Please select a valid mission file.") sf
  else
    let scheduled_time_str :=
      hour +:+ ":" +:+ minute +:+ ":" +:+ second +:+ " " +:+ am_pm in
    match strptime scheduled_time_str with
    | None => show_message (ShowError "Please enter a valid time.") sf
    | Some _ =>
        let task := Task robot mission_file scheduled_time_str recurrence "Pending" in
        let st := sched sf in
        SchedulerFrame
          (Scheduler
             (tasks_tree st
              ++ [Row robot (basename mission_file) scheduled_time_str recurrence
                    "Pending"])
             (robot1 st) (robot2 st) (sched_effects st))
          (ScheduleForm robot "" "12" "00" "00" "AM" "Once")
          (scheduled_tasks sf ++ [task])
          (monitor_threads sf ++ [task])
          (message_boxes sf)
    end.

(** The comparison of a task with the values of a row in
    [delete_selected_task]. *)
Definition task_of_row (values : row) (t : task) : bool :=
  String.eqb (t_robot t) (row_robot values)
  && String.eqb (basename (t_mission_file t)) (row_file values)
  && String.eqb (t_scheduled_time t) (row_time values)
  && String.eqb (t_recurrence t) (row_recurrence values).

(** [delete_selected_task]: [selected_item] is the index of the selected
    row, if one is selected; a selection is a row of the tree. *)
Definition delete_selected_task (selected_item : option nat)
    (sf : scheduler_frame) : scheduler_frame :=
  match selected_item with
  | None => show_message (ShowError "No task selected.") sf
  | Some i =>
      match tasks_tree (sched sf) !! i with
      | None => sf
      | Some values =>
          if String.eqb (row_status values) "Running" then
            show_message (ShowError "Cannot delete a running task.") sf
          else
            let st := sched sf in
            SchedulerFrame
              (Scheduler (delete i (tasks_tree st)) (robot1 st) (robot2 st)
                 (sched_effects st))
              (sched_form sf)
              (remove_first (task_of_row values) (scheduled_tasks sf))
              (monitor_threads sf)
              (message_boxes sf)
      end
  end.

End Schedule.



(** Two schedulers that differ at most in the rows of the tree. *)
Definition same_but_rows (a b : scheduler) : Prop :=
  robot1 a = robot1 b ∧ robot2 a = robot2 b ∧ sched_effects a = sched_effects b.

Definition plays (st : scheduler) : nat :=
  length (filter (λ e, is_play e = true) (sched_effects st)).

(** A task for eleven in the morning on the first robot, once and daily. *)
Definition morning_task : task :=
  Task "Robot 1" "demo.mission" "11:00:00 AM" "Once" "Pending".

Definition daily_task : task :=
  Task "Robot 1" "demo.mission" "11:00:00 AM" "Daily" "Pending".

(** The form filled in for [morning_task]. *)
Definition morning_form : schedule_form :=
  ScheduleForm "Robot 1" "demo.mission" "11" "00" "00" "AM" "Once".

Definition sample_scheduler_frame : scheduler_frame :=
  SchedulerFrame
    (Scheduler [] (init_robot_frame "Robot 1") (init_robot_frame "Robot 2") [])
    morning_form [] [] [].

(** ** Frames and steps for the device link *)

(** The steps of the selected mission, if there is one. *)
Definition steps_of (r : robot) : option (list json) :=
  name ← selected_mission r; m_steps <$> missions r !! name.

(** A telemetry frame without a reading for x. *)
Definition sample_null_frame : dict := {[ "T" := VInt 1051; "x" := VNone ]}.

(** ** The steps viewer *)

Definition first_missing (keys : list string) (d : dict) : option string :=
  head (filter (λ k, has_key k d = false) keys).

(** [v > 0] *)
Definition py_gt_zero (v : value) : result bool :=
  match to_num v with
  | Some q => Ok (Qltb 0 q)
  | None => Raise TypeError
  end.

(** Building the row of a step in [update_mission_steps_viewer]; the text
    is left out, what is kept is whether building it raises. *)
Definition step_details (s : json) : result unit :=
  match s with
  | JVal _ => Raise AttributeError
  | JObj d =>
      let stype := get_step_type d in
      if String.eqb stype "movement" then
        match first_missing ["x"; "y"; "z"; "t"; "spd"; "acc"] d with
        | Some k => Raise (KeyError k)
        | None => Ok tt
        end
      else if String.eqb stype "suction" then
        match py_gt_zero (default (VInt 0) (d !! "pwm_b")) with
        | Ok _ => Ok tt
        | Raise e => Raise e
        end
      else if String.eqb stype "relay" then Ok tt
      else if String.eqb stype "delay" then
        match first_missing ["cmd"] d with
        | Some k => Raise (KeyError k)
        | None => Ok tt
        end
      else if String.eqb stype "led" then
        match py_gt_zero (default (VInt 0) (d !! "led")) with
        | Ok _ => Ok tt
        | Raise e => Raise e
        end
      else Ok tt
  end.

Fixpoint show_steps (steps : list json) : result unit :=
  match steps with
  | [] => Ok tt
  | s :: rest =>
      match step_details s with
      | Ok _ => show_steps rest
      | Raise e => Raise e
      end
  end.

(** [update_mission_steps_viewer]: the rows of the tree are rebuilt from
    the steps of the selected mission.  [load_mission] and
    [on_treeview_drop] also call it, inside their [try] and after they
    have written the missions; their embeddings above keep what they
    write and leave the refresh out, so what is stated of the two when
    they succeed is about the missions, the selection and the drag. *)
Definition update_mission_steps_viewer : M unit :=
  λ r, match steps_of r with
       | Some steps => (r, show_steps steps)
       | None => (r, Ok tt)
       end.

(** ** The panel: device buttons and mission editing *)

(** The status lines and the error boxes of the panel's methods. *)
Inductive notice : Type :=
  | StatusSuctionOn
  | StatusSuctionOff
  | StatusRelayOff
  | StatusTorqueEnabled
  | StatusTorqueDisabled
  | StatusDynamicAdaptationEnabled
  | StatusDynamicAdaptationDisabled
  | StatusStepAdded
  | StatusStepUpdated (number : nat)
  | StatusStepDeleted (number : nat)
  | StatusSpeedSet
  | StatusDelayAdded (delay : Z)
  | StatusStepDuplicated (number copy : nat)
  | StatusMissionCreated (name : string)
  | StatusRobotInitialized
  | StatusMoving (axis : string) (delta : Q)
  | ErrorNoStepSelected
  | ErrorSpeedNotPositive
  | ErrorAccelerationNotPositive
  | ErrorDelayNegative
  | ErrorMissionExists (name : string)
  | ErrorSerial
  | ErrorListener (e : exn).

(** A frame with the GUI updates that its panel has queued besides those
    of [gui_update], in the order of queuing. *)
Record panel : Type := Panel {
  frame : robot;
  notices : list notice
}.

(** A method of the panel: it may raise, and what it did before is
    kept. *)
Definition P (A : Type) : Type := panel → panel * result A.

Definition pret {A} (a : A) : P A := λ s, (s, Ok a).

Definition pbind {A B} (c : P A) (k : A → P B) : P B :=
  λ s, match c s with
       | (s', Ok a) => k a s'
       | (s', Raise e) => (s', Raise e)
       end.

(** A method of the frame, run on the frame of the panel. *)
Definition on_frame {A} (c : M A) : P A :=
  λ s, (Panel (fst (c (frame s))) (notices s), snd (c (frame s))).

Definition notify (n : notice) : P unit :=
  λ s, (Panel (frame s) (notices s ++ [n]), Ok tt).

Definition set_default_spd (v : value) (r : robot) : robot :=
  Robot (robot_name r) (current_position r) v (default_acc r)
    (missions r) (selected_mission r) (mission_execution_thread r)
    (mission_execution_stop_event r) (active_runs r) (threads_started r)
    (dragging_item r)
    (dragging_start_index r) (speed_scale r) (distance_scale r) (base_delay r)
    (max_delay r) (effects r).

(** The frame [{"T": 104, ...}] of the current pose with the default
    speed and acceleration. *)
Definition pose_fields (r : robot) : dict :=
  {[ "T" := VInt 104;
     "x" := px (current_position r); "y" := py (current_position r);
     "z" := pz (current_position r); "t" := pt (current_position r);
     "spd" := default_spd r; "acc" := default_acc r ]}.

Definition pose_command (r : robot) : json := JObj (pose_fields r).

(** [self.missions[self.selected_mission]["steps"].append(cmd)] *)
Definition append_step (cmd : json) : M unit :=
  steps <- selected_steps ;;
  set_selected_steps (steps ++ [cmd]).

(** [steps[index]] *)
Definition step_at (index : nat) : M json :=
  steps <- selected_steps ;;
  lift_or IndexError (steps !! index).

Definition suction_on_cmd : json :=
  JObj {[ "T" := VInt 113; "pwm_a" := VInt 0; "pwm_b" := VInt 255 ]}.
Definition suction_off_cmd : json :=
  JObj {[ "T" := VInt 113; "pwm_a" := VInt 255; "pwm_b" := VInt 0 ]}.
Definition relay_off_cmd : json :=
  JObj {[ "T" := VInt 113; "pwm_a" := VInt 0; "pwm_b" := VInt 0 ]}.
Definition enable_torque_cmd : json := JObj {[ "T" := VInt 210; "cmd" := VInt 1 ]}.
Definition disable_torque_cmd : json := JObj {[ "T" := VInt 210; "cmd" := VInt 0 ]}.
Definition enable_dynamic_adaptation_cmd : json :=
  JObj {[ "T" := VInt 112; "mode" := VInt 1; "b" := VInt 60; "s" := VInt 110;
          "e" := VInt 50; "h" := VInt 50 ]}.
Definition disable_dynamic_adaptation_cmd : json :=
  JObj {[ "T" := VInt 112; "mode" := VInt 0; "b" := VInt 1000; "s" := VInt 1000;
          "e" := VInt 1000; "h" := VInt 1000 ]}.

(** [step.copy()] *)
Definition py_copy (step : json) : M json :=
  match step with
  | JObj d => ret (JObj d)
  | JVal _ => raise AttributeError
  end.

(** [steps[index] = new_step] *)
Definition replace_step (index : nat) (new_step : json) : M unit :=
  steps <- selected_steps ;;
  lift_or IndexError (steps !! index) ;;;
  set_selected_steps (<[index := new_step]> steps).

Section Panel.

Local Notation "x <- c ;; k" := (pbind c (λ x, k))
  (at level 100, c at next level, right associativity).
Local Notation "c ;;; k" := (pbind c (λ _, k))
  (at level 100, right associativity).

(** The body that the seven device buttons share: the command is sent,
    the status queued, and with a mission selected the command is
    appended to its steps. *)
Definition send_and_record (cmd : json) (status : notice) : P unit :=
  on_frame (send_command_in_thread cmd) ;;;
  notify status ;;;
  r <- on_frame get_self ;;
  if no_mission_selected r then pret tt
  else
    on_frame (append_step cmd) ;;;
    on_frame update_mission_steps_viewer.

Definition suction_on : P unit := send_and_record suction_on_cmd StatusSuctionOn.
Definition suction_off : P unit := send_and_record suction_off_cmd StatusSuctionOff.
Definition relay_off : P unit := send_and_record relay_off_cmd StatusRelayOff.
Definition enable_torque : P unit :=
  send_and_record enable_torque_cmd StatusTorqueEnabled.
Definition disable_torque : P unit :=
  send_and_record disable_torque_cmd StatusTorqueDisabled.
Definition enable_dynamic_adaptation : P unit :=
  send_and_record enable_dynamic_adaptation_cmd StatusDynamicAdaptationEnabled.
Definition disable_dynamic_adaptation : P unit :=
  send_and_record disable_dynamic_adaptation_cmd StatusDynamicAdaptationDisabled.





(** The methods that work on the selected row of the tree:
    [selected_item] is its index, if a row is selected. *)

Definition delete_step (selected_item : option nat) : P unit :=
  match selected_item with
  | None => notify ErrorNoStepSelected
  | Some index =>
      steps <- on_frame selected_steps ;;
      on_frame (lift_or IndexError (steps !! index)) ;;;
      on_frame (set_selected_steps (delete index steps)) ;;;
      on_frame update_mission_steps_viewer ;;;
      notify (StatusStepDeleted (index + 1))
  end.

Definition duplicate_step (selected_item : option nat) : P unit :=
  match selected_item with
  | None => notify ErrorNoStepSelected
  | Some index =>
      step_to_dup <- on_frame (step_at index) ;;
      dup_step <- on_frame (py_copy step_to_dup) ;;
      steps <- on_frame selected_steps ;;
      on_frame (set_selected_steps (py_insert (index + 1) dup_step steps)) ;;;
      on_frame update_mission_steps_viewer ;;;
      notify (StatusStepDuplicated (index + 1) (index + 2))
  end.

(** [edit_step]: the answers of the six dialogs, [None] for a cancelled
    one; a dialog that is not reached is not asked. *)
Definition edit_step (selected_item : option nat)
    (x y z t spd acc : option Q) : P unit :=
  match selected_item with
  | None => notify ErrorNoStepSelected
  | Some index =>
      step <- on_frame (step_at index) ;;
      r <- on_frame get_self ;;
      on_frame (get_default step "x" (px (current_position r))) ;;;
      match x with
      | None => pret tt
      | Some x =>
      on_frame (get_default step "y" (py (current_position r))) ;;;
      match y with
      | None => pret tt
      | Some y =>
      on_frame (get_default step "z" (pz (current_position r))) ;;;
      match z with
      | None => pret tt
      | Some z =>
      on_frame (get_default step "t" (pt (current_position r))) ;;;
      match t with
      | None => pret tt
      | Some t =>
      on_frame (get_default step "spd" (default_spd r)) ;;;
      match spd with
      | None => notify ErrorSpeedNotPositive
      | Some spd =>
      if Qeq_bool spd 0 || Qle_bool spd 0 then notify ErrorSpeedNotPositive
      else
      on_frame (get_default step "acc" (default_acc r)) ;;;
      match acc with
      | None => notify ErrorAccelerationNotPositive
      | Some acc =>
      if Qeq_bool acc 0 || Qle_bool acc 0 then notify ErrorAccelerationNotPositive
      else
        let new_step :=
          JObj {[ "T" := VInt 104; "x" := VFloat x; "y" := VFloat y;
                  "z" := VFloat z; "t" := VFloat t; "spd" := VFloat spd;
                  "acc" := VFloat acc ]} in
        on_frame (replace_step index new_step) ;;;
        on_frame update_mission_steps_viewer ;;;
        notify (StatusStepUpdated (index + 1))
      end end end end end end
  end.

(** [create_mission]: [name] is the answer of the dialog. *)
Definition create_mission (name : option string) : P unit :=
  match name with
  | None => pret tt
  | Some name =>
      if String.eqb name "" then pret tt
      else
        r <- on_frame get_self ;;
        if bool_decide (is_Some (missions r !! VStr name)) then
          notify (ErrorMissionExists name)
        else
          on_frame (modify (set_missions
            (<[VStr name := Mission (VStr name) (VStr "Mission") []]> (missions r)))) ;;;
          on_frame (modify (set_selected_mission (Some (VStr name)))) ;;;
          on_frame update_mission_steps_viewer ;;;
          notify (StatusMissionCreated name)
  end.

(** [init_robot]: the pose is assigned as a whole, which is written here
    as the writes of its four axes; the lock is not taken. *)
Definition init_robot : P unit :=
  on_frame (write_axis "x" (px startup_position)) ;;;
  on_frame (write_axis "y" (py startup_position)) ;;;
  on_frame (write_axis "z" (pz startup_position)) ;;;
  on_frame (write_axis "t" (pt startup_position)) ;;;
  r <- on_frame get_self ;;
  let cmd := pose_command r in
  on_frame (send_command_in_thread cmd) ;;;
  notify StatusRobotInitialized ;;;
  if no_mission_selected r then pret tt
  else
    on_frame (append_step cmd) ;;;
    on_frame update_mission_steps_viewer.

End Panel.

(** The seven device buttons, each with the command it builds and the
    status it queues. *)
Definition device_buttons : list (P unit * json * notice) :=
  [ (suction_on, suction_on_cmd, StatusSuctionOn);
    (suction_off, suction_off_cmd, StatusSuctionOff);
    (relay_off, relay_off_cmd, StatusRelayOff);
    (enable_torque, enable_torque_cmd, StatusTorqueEnabled);
    (disable_torque, disable_torque_cmd, StatusTorqueDisabled);
    (enable_dynamic_adaptation, enable_dynamic_adaptation_cmd,
     StatusDynamicAdaptationEnabled);
    (disable_dynamic_adaptation, disable_dynamic_adaptation_cmd,
     StatusDynamicAdaptationDisabled) ].

(** A step is one that the viewer can show. *)
Definition displayable (s : json) : Prop := step_details s = Ok tt.

(** The panel of the sample robot, with nothing queued. *)
Definition sample_panel : panel := Panel sample_robot [].

(** ** Jogging *)





Section Jog.

Local Notation "x <- c ;; k" := (pbind c (λ x, k))
  (at level 100, c at next level, right associativity).
Local Notation "c ;;; k" := (pbind c (λ _, k))
  (at level 100, right associativity).



End Jog.



(** ** The serial listener *)

(** What [self.ser.readline().decode('utf-8')] gives at one pass of the
    listener: a line, empty when the read timed out, or one of the two
    ways in which it raises; or the port is not open. *)
Inductive read : Type :=
  | ReadLine (line : string)
  | ReadSerialException
  | ReadUndecodable
  | PortNotOpen.

Inductive listener_exit : Type :=
  | ListenerStopped
  | ListenerBroke
  | ListenerListening.

Section Listener.

Context `{JsonCodec}.

(** [stop_at n] is what [serial_listener_stop_event.is_set()] answers at
    the [n]-th check. *)
Variable stop_at : nat → bool.

Local Notation "c ;;; k" := (pbind c (λ _, k))
  (at level 100, right associativity).

(** [serial_listener], followed through the reads that are given; an
    undecodable line raises [UnicodeDecodeError], a [ValueError]. *)
Fixpoint serial_listener (reads : list read) (n : nat) : P listener_exit :=
  if stop_at n then pret ListenerStopped
  else
    match reads with
    | [] => pret ListenerListening
    | PortNotOpen :: rest => on_frame (sleep 1) ;;; serial_listener rest (S n)
    | ReadSerialException :: rest => notify ErrorSerial ;;; pret ListenerBroke
    | ReadUndecodable :: rest =>
        notify (ErrorListener ValueError) ;;; pret ListenerBroke
    | ReadLine raw :: rest =>
        let line := strip raw in
        if String.eqb line "" then serial_listener rest (S n)
        else
          match loads line with
          | None => serial_listener rest (S n)
          | Some data =>
              λ s, match on_frame (handle_serial_data data) s with
                   | (s', Ok _) => serial_listener rest (S n) s'
                   | (s', Raise JSONDecodeError) => serial_listener rest (S n) s'
                   | (s', Raise e) =>
                       (notify (ErrorListener e) ;;; pret ListenerBroke) s'
                   end
          end
    end.

(** A read that the listener gets over: a closed port, an empty line, a
    line that is not JSON, or an object. *)
Definition passes_listener (rd : read) : Prop :=
  match rd with
  | ReadLine raw =>
      strip raw = "" ∨ loads (strip raw) = None
      ∨ ∃ d, loads (strip raw) = Some (JObj d)
  | PortNotOpen => True
  | ReadSerialException | ReadUndecodable => False
  end.

(** A line that carries nothing: empty or not JSON. *)
Definition no_frame (rd : read) : Prop :=
  match rd with
  | ReadLine raw => strip raw = "" ∨ loads (strip raw) = None
  | _ => False
  end.

End Listener.
(** * Properties *)

(** ** Step classification *)

Lemma py_eq_int_code (step : dict) (n : Z) :
  py_eq_int (step !! "T") n = bool_decide (message_type_code step = Some n).
Proof.
  unfold py_eq_int, message_type_code.
  destruct (step !! "T") as [v|]; simpl; [|reflexivity].
  destruct (to_num v) as [q|]; simpl; [|reflexivity].
  destruct (Qeq_bool q (inject_Z n)) eqn:E.
  - apply Qeq_bool_eq in E.
    assert (Hf : Qfloor q = n) by (rewrite E; apply Qfloor_Z).
    rewrite Hf.
    assert (Qeq_bool q (inject_Z n) = true) as -> by (apply Qeq_eq_bool, E).
    symmetry. apply bool_decide_eq_true. reflexivity.
  - symmetry. apply bool_decide_eq_false.
    destruct (Qeq_bool q (inject_Z (Qfloor q))) eqn:E'; [|discriminate].
    intros [= Hn]. rewrite Hn in E'. congruence.
Qed.

(** C2. Classification is a function of the message-type code and of the
    presence of the two pwm fields, and that function is the table of the
    specification: 104 is a movement, 113 a suction step when both pwm_a
    and pwm_b are present and a relay step otherwise, 111 a delay, 114 an
    LED step, 210 a torque step, 112 a dynamic-adaptation step, and every
    other code (or none) is "other". *)
Theorem get_step_type_classify (step : dict) :
  get_step_type step =
  kind_name (classify (message_type_code step)
               (has_key "pwm_a" step) (has_key "pwm_b" step)).
Proof.
  unfold get_step_type. rewrite !py_eq_int_code.
  destruct (message_type_code step) as [z|]; [|reflexivity].
  repeat match goal with
  | |- context [bool_decide (Some z = Some ?n)] =>
      destruct (decide (z = n)) as [->|?];
      [first [reflexivity
             | destruct (has_key "pwm_a" step), (has_key "pwm_b" step); reflexivity]
      | rewrite (bool_decide_eq_false_2 (Some z = Some n)) by congruence]
  end.
  unfold classify.
  destruct z as [|p|p]; try reflexivity.
  do 8 (try (destruct p as [p|p|]; try reflexivity)); congruence.
Qed.

(** ** Inbound telemetry *)

(** C10. A frame with message type 1051 sets each pose axis to the frame's
    value when the frame has that field and leaves it as it was when it
    has not; the four writes happen between the acquisition and the
    release of the pose guard.  A frame with any other code leaves the
    pose, and the whole state, unchanged. *)
Theorem handle_serial_data_pose (d : dict) (r : robot) :
  let r' := fst (handle_serial_data (JObj d) r) in
  let p' := telemetry_pose d (current_position r) in
  if py_eq_int (d !! "T") 1051 then
    current_position r' = p'
    ∧ effects r' =
        effects r ++
        [EAcquire; EPoseWrite "x" (px p'); EPoseWrite "y" (py p');
         EPoseWrite "z" (pz p'); EPoseWrite "t" (pt p');
         EGui (GStatus MsgPositionUpdated); ERelease]
    ∧ (∃ es, effects r' = effects r ++ es ∧ writes_guarded false es = true)
  else r' = r.
Proof.
  intros r' p'. subst r' p'. unfold handle_serial_data.
  destruct (py_eq_int (d !! "T") 1051) eqn:E.
  - cbn. rewrite E. cbn. rewrite <- !app_assoc. cbn.
    split; [reflexivity|]. split; [reflexivity|].
    eexists. split; reflexivity.
  - cbn. rewrite E. destruct (py_eq_int (d !! "T") 105); reflexivity.
Qed.

(** ** Starting a run *)

(** The claim that a second [play_mission_specific] is rejected while a run
    is active fails: on a robot whose first run is still alive, the second
    call starts a second run next to it and reports no error. *)
Lemma play_while_active_starts_second_run :
  let r1 := fst (play_mission_specific 1 sample_robot) in
  let r2 := fst (play_mission_specific 1 r1) in
  active_runs r1 = [RunHandle 0 1]
  ∧ active_runs r2 = [RunHandle 0 1; RunHandle 1 1]
  ∧ snd (play_mission_specific 1 r1) = Ok tt
  ∧ filter (λ e, is_error e = true) (effects r2) = [].
Proof. vm_compute. repeat split. Qed.

(** C1, as the code has it. [play_mission_specific] never looks at the runs
    that are alive: when a mission is selected it clears the stop flag and
    starts one more run thread beside all the active ones, which it leaves
    alone, and reports no error; the only call it rejects is the one made
    with no mission selected, which starts nothing. *)
Theorem play_mission_specific_starts_run (times : Z) (r : robot) :
  let r' := fst (play_mission_specific times r) in
  let h := RunHandle (threads_started r) times in
  snd (play_mission_specific times r) = Ok tt
  ∧ if no_mission_selected r then
      r' = set_effects (effects r ++ [EGui (GError ErrNoMissionSelected)]) r
    else
      active_runs r' = active_runs r ++ [h]
      ∧ mission_execution_thread r' = Some h
      ∧ mission_execution_stop_event r' = false
      ∧ effects r' =
          effects r ++
          [EGui (GProgress 0); EStartRun h;
           EGui (GStatus (MsgPlaying times))].
Proof.
  unfold play_mission_specific. cbn.
  destruct (no_mission_selected r) eqn:E; cbn.
  - split; reflexivity.
  - rewrite <- !app_assoc. repeat split.
Qed.

(** ** Movement timing *)




(** One more [x ← o; ...] of a definedness hypothesis: [o] is some value. *)
Ltac option_step H :=
  match type of H with
  | mbind _ ?o = Some _ =>
      let E := fresh "E" in
      destruct o eqn:E; cbn [mbind option_bind] in H; [|discriminate H]
  end.

(** [Some a = Some b] gives [a = b], without looking into [a]. *)
Ltac some_eq H :=
  match type of H with
  | Some ?a = Some ?b =>
      let E := fresh "E" in
      assert (E : a = b) by congruence; clear H; try subst b
  end.










Lemma py_div_ok (a b : Q) (r : robot) :
  ¬ (b == 0)%Q → py_div a b r = (r, Ok (a / b)%Q).
Proof.
  intros Hb. unfold py_div.
  destruct (Qeq_bool b 0) eqn:E; [|reflexivity].
  apply Qeq_bool_eq in E. contradiction.
Qed.

(** Run a method on the lookups and conversions that are known to
    succeed. *)
Ltac run_known :=
  repeat (progress (
    repeat match goal with
    | H : ?o = Some _ |- context [?o] => rewrite H
    end;
    cbv beta iota)).



(** *** Running a bind *)

Lemma bind_ok {A B} (c : M A) (k : A → M B) (r r' : robot) (a : A) :
  c r = (r', Ok a) → bind c k r = k a r'.
Proof. intros Hc. unfold bind. rewrite Hc. reflexivity. Qed.

Lemma bind_raise {A B} (c : M A) (k : A → M B) (r r' : robot) (e : exn) :
  c r = (r', Raise e) → bind c k r = (r', Raise e).
Proof. intros Hc. unfold bind. rewrite Hc. reflexivity. Qed.

(** *** Methods only add to the trace *)

Lemma appends_ret {A} (a : A) : appends (ret a).
Proof. intros r. exists []. cbn. by rewrite app_nil_r. Qed.

Lemma appends_raise {A} (e : exn) : appends (@raise A e).
Proof. intros r. exists []. cbn. by rewrite app_nil_r. Qed.

Lemma appends_get_self : appends get_self.
Proof. intros r. exists []. cbn. by rewrite app_nil_r. Qed.

Lemma appends_emit (e : event) : appends (emit e).
Proof. intros r. exists [e]. reflexivity. Qed.



Lemma appends_lift_or {A} (e : exn) (o : option A) : appends (lift_or e o).
Proof. destruct o; [apply appends_ret | apply appends_raise]. Qed.

Lemma appends_write_axis (axis : string) (v : value) : appends (write_axis axis v).
Proof. intros r. exists [EPoseWrite axis v]. reflexivity. Qed.

Lemma appends_sleep (secs : Q) : appends (sleep secs).
Proof.
  unfold sleep. destruct (Qltb secs 0); [apply appends_raise | apply appends_emit].
Qed.

Lemma appends_subscript (step : json) (k : string) : appends (subscript step k).
Proof. destruct step; [apply appends_lift_or | apply appends_raise]. Qed.

Lemma appends_get_default (step : json) (k : string) (dflt : value) :
  appends (get_default step k dflt).
Proof. destruct step; [apply appends_ret | apply appends_raise]. Qed.

Lemma appends_py_div (a b : Q) : appends (py_div a b).
Proof.
  unfold py_div. destruct (Qeq_bool b 0); [apply appends_raise | apply appends_ret].
Qed.

Create HintDb appends.
#[local] Hint Resolve appends_ret appends_raise appends_get_self appends_emit
  appends_lift_or appends_write_axis appends_sleep appends_subscript
  appends_get_default appends_py_div : appends.





(** From the startup pose to the origin at speed 2.5: 235 / 100 * (1 / 2.5)
    + 0.5 = 1.44 seconds. *)
Example movement_tc_sample :
  ∃ tc, movement_tc sample_move (init_robot_frame "Robot 1")
        = (init_robot_frame "Robot 1", Ok tc)
        ∧ (tc == 144 # 100)%Q.
Proof. eexists. split; [vm_compute; reflexivity | reflexivity]. Qed.

(** ** Reordering *)

Lemma py_insert_Permutation {A} (i : nat) (x : A) (l : list A) :
  py_insert i x l ≡ₚ x :: l.
Proof.
  unfold py_insert. rewrite <- Permutation_middle.
  by rewrite take_drop.
Qed.

Lemma py_insert_lookup {A} (i : nat) (x : A) (l : list A) :
  (i ≤ length l)%nat → py_insert i x l !! i = Some x.
Proof.
  intros Hi. unfold py_insert. apply list_lookup_middle.
  rewrite length_take. lia.
Qed.

Lemma py_insert_delete {A} (i : nat) (x : A) (l : list A) :
  (i ≤ length l)%nat → delete i (py_insert i x l) = l.
Proof.
  intros Hi. unfold py_insert.
  assert (Hl : length (take i l) = i) by (rewrite length_take; lia).
  rewrite <- Hl at 1. rewrite delete_middle. apply take_drop.
Qed.

Lemma move_spec_pop_insert {A} (steps : list A) (i j : nat) (x : A) :
  steps !! i = Some x →
  let dest := if (i <? j)%nat then (j - 1)%nat else j in
  py_pop i steps = Some (x, delete i steps)
  ∧ move_spec i j steps = Some (py_insert dest x (delete i steps)).
Proof.
  intros Hx dest. subst dest. unfold move_spec, py_pop. rewrite Hx.
  split; [reflexivity|]. destruct (i <? j)%nat; reflexivity.
Qed.

Lemma try_except_ok {A} (c : M A) (h : exn → M A) (r r' : robot) (a : A) :
  c r = (r', Ok a) → try_except c h r = (r', Ok a).
Proof. intros Hc. unfold try_except. rewrite Hc. reflexivity. Qed.

Lemma try_except_raise {A} (c : M A) (h : exn → M A) (r r' : robot) (e : exn) :
  c r = (r', Raise e) → try_except c h r = h e r'.
Proof. intros Hc. unfold try_except. rewrite Hc. reflexivity. Qed.

Lemma selected_steps_ok (r : robot) (name : value) (m : mission) :
  selected_mission r = Some name → missions r !! name = Some m →
  selected_steps r = (r, Ok (m_steps m)).
Proof.
  intros Hsel Hm. unfold selected_steps, bind, get_self.
  rewrite Hsel, Hm. reflexivity.
Qed.

(** C5. A valid drag of the step at index [i] to the drop index [j] (the
    index of the row it is dropped on, or the number of steps when it is
    dropped below the last row) replaces the steps of the selected mission
    by the list obtained by removing index [i] and inserting the step at
    [j - 1] when [j > i] and at [j] otherwise.  This is the move of the
    specification; the new list has the same steps, the moved step stands
    at that index, and the other steps keep their order. *)
Theorem on_treeview_drop_reorders (r : robot) (item i : nat)
    (drop_item : option nat) (name : value) (m : mission) (x : json) :
  dragging_item r = Some item →
  dragging_start_index r = Some i →
  selected_mission r = Some name →
  missions r !! name = Some m →
  m_steps m !! i = Some x →
  (drop_index_of (m_steps m) drop_item ≤ length (m_steps m))%nat →
  let j := drop_index_of (m_steps m) drop_item in
  let dest := if (i <? j)%nat then (j - 1)%nat else j in
  let steps' := py_insert dest x (delete i (m_steps m)) in
  let r' := fst (on_treeview_drop drop_item r) in
  missions r' !! name = Some (Mission (m_name m) (m_intro m) steps')
  ∧ move_spec i j (m_steps m) = Some steps'
  ∧ steps' ≡ₚ m_steps m
  ∧ steps' !! dest = Some x
  ∧ delete dest steps' = delete i (m_steps m)
  ∧ dragging_item r' = None
  ∧ dragging_start_index r' = None.
Proof.
  intros Hitem Hstart Hsel Hm Hx Hvalid j dest steps' r'.
  destruct (move_spec_pop_insert (m_steps m) i j x Hx) as [Hpop Hspec].
  fold dest steps' in Hspec.
  assert (Hi : (i < length (m_steps m))%nat) by (eapply lookup_lt_Some; eassumption).
  assert (Hdest : (dest ≤ length (delete i (m_steps m)))%nat).
  { rewrite length_delete by eauto. subst dest j.
    destruct (Nat.ltb_spec i (drop_index_of (m_steps m) drop_item)); lia. }
  assert (Hr' : missions r' !! name = Some (Mission (m_name m) (m_intro m) steps')
                ∧ dragging_item r' = None ∧ dragging_start_index r' = None).
  { subst r'. unfold on_treeview_drop.
    erewrite bind_ok by reflexivity. rewrite Hitem.
    erewrite bind_ok.
    2:{ apply try_except_ok.
        erewrite (bind_ok _ _ r r j).
        2:{ subst j. unfold drop_index_of. destruct drop_item as [d|]; [reflexivity|].
            erewrite bind_ok by (eapply selected_steps_ok; eassumption).
            reflexivity. }
        rewrite Hstart. erewrite bind_ok by reflexivity.
        erewrite bind_ok by (eapply selected_steps_ok; eassumption).
        rewrite Hpop. erewrite bind_ok by reflexivity.
        erewrite bind_ok; [reflexivity|].
        unfold set_selected_steps. erewrite bind_ok by reflexivity.
        rewrite Hsel, Hm. reflexivity. }
    cbn. rewrite lookup_insert_eq. repeat split. }
  destruct Hr' as (Hmis & Hd1 & Hd2).
  split; [exact Hmis|]. split; [exact Hspec|].
  split.
  { subst steps'. rewrite py_insert_Permutation.
    symmetry. by apply delete_Permutation. }
  split; [by apply py_insert_lookup|].
  split; [by apply py_insert_delete|].
  split; assumption.
Qed.

Lemma on_treeview_drop_reorders_witness :
  ∃ a b c d,
    sample_steps4 = [a; b; c; d]
    ∧ m_steps <$> missions (fst (on_treeview_drop (Some 3%nat) sample_dragging_robot))
                  !! VStr "demo"
      = Some [b; c; a; d]
    ∧ py_insert 2%nat a (delete 0%nat sample_steps4) = [b; c; a; d].
Proof.
  eexists _, _, _, _. split; [reflexivity|].
  pose proof (on_treeview_drop_reorders sample_dragging_robot 0%nat 0%nat (Some 3%nat)
                (VStr "demo") (Mission (VStr "demo") (VStr "Mission") sample_steps4)
                _ eq_refl eq_refl eq_refl ltac:(vm_compute; reflexivity) eq_refl
                ltac:(vm_compute; lia)) as (Hm & _).
  split; [|reflexivity].
  rewrite Hm. reflexivity.
Defined.

(** Moving the first of four steps to drop position 3 is removing index 0
    and inserting at index 2. *)
Example move_0_to_3 {A} (a b c d : A) :
  move_spec 0 3 [a; b; c; d] = Some [b; c; a; d]
  ∧ py_insert 2%nat a (delete 0%nat [a; b; c; d]) = [b; c; a; d].
Proof. split; reflexivity. Qed.

(** ** Cancellation *)

(** *** Executing steps leaves the missions alone *)

Lemma keeps_ret {A} (a : A) : keeps_missions (ret a).
Proof. intros r. split; reflexivity. Qed.

Lemma keeps_raise {A} (e : exn) : keeps_missions (@raise A e).
Proof. intros r. split; reflexivity. Qed.

Lemma keeps_get_self : keeps_missions get_self.
Proof. intros r. split; reflexivity. Qed.

Lemma keeps_emit (e : event) : keeps_missions (emit e).
Proof. intros r. split; reflexivity. Qed.

Lemma keeps_write_axis (axis : string) (v : value) : keeps_missions (write_axis axis v).
Proof. intros r. split; reflexivity. Qed.

Lemma keeps_bind {A B} (c : M A) (k : A → M B) :
  keeps_missions c → (∀ a, keeps_missions (k a)) → keeps_missions (bind c k).
Proof.
  intros Hc Hk r. unfold bind. destruct (Hc r) as [H1 H2].
  destruct (c r) as [r1 [a|e]]; cbn in *; [|by split].
  destruct (Hk a r1) as [H3 H4]. split; congruence.
Qed.

Lemma keeps_try_except {A} (c : M A) (h : exn → M A) :
  keeps_missions c → (∀ e, keeps_missions (h e)) → keeps_missions (try_except c h).
Proof.
  intros Hc Hh r. unfold try_except. destruct (Hc r) as [H1 H2].
  destruct (c r) as [r1 [a|e]]; cbn in *; [by split|].
  destruct (Hh e r1) as [H3 H4]. split; congruence.
Qed.

Lemma keeps_lift_or {A} (e : exn) (o : option A) : keeps_missions (lift_or e o).
Proof. destruct o; [apply keeps_ret | apply keeps_raise]. Qed.

Lemma keeps_sleep (secs : Q) : keeps_missions (sleep secs).
Proof.
  unfold sleep. destruct (Qltb secs 0); [apply keeps_raise | apply keeps_emit].
Qed.

Lemma keeps_subscript (step : json) (k : string) : keeps_missions (subscript step k).
Proof. destruct step; [apply keeps_lift_or | apply keeps_raise]. Qed.

Lemma keeps_get_default (step : json) (k : string) (dflt : value) :
  keeps_missions (get_default step k dflt).
Proof. destruct step; [apply keeps_ret | apply keeps_raise]. Qed.

Lemma keeps_py_div (a b : Q) : keeps_missions (py_div a b).
Proof.
  unfold py_div. destruct (Qeq_bool b 0); [apply keeps_raise | apply keeps_ret].
Qed.

Create HintDb keeps.
#[local] Hint Resolve keeps_ret keeps_raise keeps_get_self keeps_emit
  keeps_write_axis keeps_lift_or keeps_sleep keeps_subscript keeps_get_default
  keeps_py_div : keeps.

Ltac keeps_tac :=
  repeat first
    [ apply keeps_bind; [|intro]
    | apply keeps_try_except; [|intro]
    | progress unfold with_movement_lock, update_status_bar, update_progress_bar,
        show_error, queue_gui_update, send_command_in_thread, number
    | solve [auto with keeps] ].

Lemma keeps_movement_tc (step : json) : keeps_missions (movement_tc step).
Proof. unfold movement_tc. keeps_tac. Qed.

Lemma keeps_execute_step (step : json) : keeps_missions (execute_step step).
Proof.
  unfold execute_step. apply keeps_bind; [auto with keeps|]. intros vT.
  destruct (py_eq_int (Some vT) 104).
  { apply keeps_bind; [apply keeps_movement_tc|]. intro. keeps_tac. }
  destruct (py_eq_int (Some vT) 111); [keeps_tac|].
  destruct (_ || _); keeps_tac.
Qed.

Lemma keeps_exec_steps (total : Z) (steps : list json) (n : nat) :
  keeps_missions (exec_steps total steps n).
Proof.
  revert n. induction steps as [|stp rest IH]; intros n; cbn [exec_steps].
  - apply keeps_ret.
  - apply keeps_bind; [apply keeps_execute_step|]. intro.
    apply keeps_bind; [keeps_tac|]. intro. apply IH.
Qed.

(** *** The step count of a finished prefix *)

Lemma bind_ext {A B} (c : M A) (k1 k2 : A → M B) (r : robot) :
  (∀ a r', k1 a r' = k2 a r') → bind c k1 r = bind c k2 r.
Proof. intros Hk. unfold bind. destruct (c r) as [r' [a|e]]; auto. Qed.

Lemma bind_ext_l {A B} (c1 c2 : M A) (k : A → M B) (r : robot) :
  c1 r = c2 r → bind c1 k r = bind c2 k r.
Proof. intros Hc. unfold bind. rewrite Hc. reflexivity. Qed.

Lemma bind_assoc {A B C} (c : M A) (k : A → M B) (k' : B → M C) (r : robot) :
  bind (bind c k) k' r = bind c (λ a, bind (k a) k') r.
Proof. unfold bind. destruct (c r) as [r' [a|e]]; reflexivity. Qed.

Lemma bind_inv {A B} (c : M A) (k : A → M B) (r r' : robot) (b : B) :
  bind c k r = (r', Ok b) → ∃ r1 a, c r = (r1, Ok a) ∧ k a r1 = (r', Ok b).
Proof.
  unfold bind. destruct (c r) as [r1 [a|e]]; [eauto | discriminate].
Qed.

Lemma exec_steps_count (total : Z) (steps : list json) (n m : nat) (r r' : robot) :
  exec_steps total steps n r = (r', Ok m) → m = (n + length steps)%nat.
Proof.
  revert n r. induction steps as [|stp rest IH]; intros n r; cbn [exec_steps].
  - intros [= _ <-]. cbn. lia.
  - intros Hrun.
    apply bind_inv in Hrun as (r1 & [] & _ & Hrun).
    apply bind_inv in Hrun as (r2 & [] & _ & Hrun).
    apply IH in Hrun. cbn [length]. lia.
Qed.

Lemma exec_steps_app (total : Z) (l1 l2 : list json) (n : nat) (r : robot) :
  exec_steps total (l1 ++ l2) n r
  = bind (exec_steps total l1 n) (λ n1, exec_steps total l2 n1) r.
Proof.
  revert n r. induction l1 as [|stp rest IH]; intros n r; [reflexivity|].
  cbn [app exec_steps]. rewrite bind_assoc. apply bind_ext. intros _ r1.
  rewrite bind_assoc. apply bind_ext. intros _ r2. apply IH.
Qed.

(** *** The loops of a run, up to the first raised flag *)

Section Cancelled.

Variable stop_at : nat → bool.
Variable total : Z.

Lemma run_steps_prefix (steps : list json) (n i : nat) (r : robot) :
  (∀ j, (j < i)%nat → stop_at (n + j) = false) →
  ((i < length steps)%nat → stop_at (n + i) = true →
   run_steps stop_at total steps n r
   = bind (exec_steps total (take i steps) n) stop_report r)
  ∧ ((length steps ≤ i)%nat →
     run_steps stop_at total steps n r
     = bind (exec_steps total steps n) (λ n', ret (n', LoopDone)) r).
Proof.
  revert n i r. induction steps as [|stp rest IH]; intros n i r Hbefore.
  - split; [cbn; lia | reflexivity].
  - destruct i as [|i].
    + split; [|cbn; lia]. intros _ Hstop.
      rewrite Nat.add_0_r in Hstop. cbn [run_steps]. rewrite Hstop.
      reflexivity.
    + assert (H0 : stop_at n = false)
        by (rewrite <- (Nat.add_0_r n); apply Hbefore; lia).
      assert (Hbefore' : ∀ j, (j < i)%nat → stop_at (S n + j) = false).
      { intros j Hj. replace (S n + j)%nat with (n + S j)%nat by lia.
        apply Hbefore. lia. }
      cbn [run_steps take exec_steps length]. rewrite H0.
      split.
      * intros Hi Hstop.
        replace (n + S i)%nat with (S n + i)%nat in Hstop by lia.
        rewrite bind_assoc. apply bind_ext. intros _ r1.
        rewrite bind_assoc. apply bind_ext. intros _ r2.
        apply (IH (S n) i); [exact Hbefore' | lia | exact Hstop].
      * intros Hi.
        rewrite bind_assoc. apply bind_ext. intros _ r1.
        rewrite bind_assoc. apply bind_ext. intros _ r2.
        apply (IH (S n) i); [exact Hbefore' | lia].
Qed.

Lemma run_repetitions_prefix (name : value) (m : mission) (reps n k : nat)
    (r : robot) :
  selected_mission r = Some name →
  missions r !! name = Some m →
  (∀ j, (j < k)%nat → stop_at (n + j) = false) →
  stop_at (n + k) = true →
  (k < length (concat (replicate reps (m_steps m))))%nat →
  run_repetitions stop_at total reps n r
  = bind (exec_steps total (take k (concat (replicate reps (m_steps m)))) n)
      stop_report r.
Proof.
  revert n k r. induction reps as [|reps IH]; intros n k r Hsel Hm Hbefore Hstop Hk.
  - cbn in Hk. lia.
  - cbn [run_repetitions replicate concat] in *.
    erewrite bind_ok by (eapply selected_steps_ok; eassumption).
    destruct (run_steps_prefix (m_steps m) n k r Hbefore) as [Hin Hout].
    destruct (Nat.lt_ge_cases k (length (m_steps m))) as [Hlt|Hge].
    + rewrite take_app_le by lia.
      unfold bind at 1. rewrite (Hin Hlt Hstop).
      unfold bind, stop_report.
      destruct (exec_steps total (take k (m_steps m)) n r) as [r1 [n1|e]];
        reflexivity.
    + rewrite take_app_ge by lia.
      rewrite (bind_ext_l _ _ _ _ (exec_steps_app _ _ _ _ _)), bind_assoc.
      rewrite (bind_ext_l _ _ _ _ (Hout Hge)), bind_assoc.
      destruct (keeps_exec_steps total (m_steps m) n r) as [Hk1 Hk2].
      unfold bind at 1 3.
      destruct (exec_steps total (m_steps m) n r) as [r1 [n1|e]] eqn:Hexec;
        [|reflexivity].
      cbn [ret fst bind] in *.
      apply exec_steps_count in Hexec. subst n1.
      rewrite length_app in Hk.
      apply IH.
      * congruence.
      * congruence.
      * intros j Hj.
        replace (n + length (m_steps m) + j)%nat
          with (n + (length (m_steps m) + j))%nat by lia.
        apply Hbefore. lia.
      * replace (n + length (m_steps m) + (k - length (m_steps m)))%nat
          with (n + k)%nat by lia.
        exact Hstop.
      * lia.
Qed.

End Cancelled.

Lemma first_true (f : nat → bool) (k : nat) :
  f k = true →
  ∃ k', (k' ≤ k)%nat ∧ f k' = true ∧ ∀ j, (j < k')%nat → f j = false.
Proof.
  revert f. induction k as [|k IH]; intros f Hk.
  - exists 0%nat. split; [lia|]. split; [exact Hk|]. intros j Hj. lia.
  - destruct (f 0%nat) eqn:H0.
    + exists 0%nat. split; [lia|]. split; [exact H0|]. intros j Hj. lia.
    + destruct (IH (λ j, f (S j)) Hk) as (k' & Hle & Hk' & Hbefore).
      exists (S k'). split; [lia|]. split; [exact Hk'|].
      intros [|j] Hj; [exact H0 | apply Hbefore; lia].
Qed.

Lemma try_except_ext_l {A} (c1 c2 : M A) (h : exn → M A) (r : robot) :
  c1 r = c2 r → try_except c1 h r = try_except c2 h r.
Proof. intros Hc. unfold try_except. rewrite Hc. reflexivity. Qed.

(** C8. When the stop flag is up at the check before step number [k] of a
    run, the run is the run of a prefix of at most [k] of its steps followed
    by the report that the mission was stopped: the flag was first seen up
    at some check [k' <= k], the first [k'] steps and no other are executed,
    and the run ends as cancelled after [k'] steps, unless one of these
    steps raised, in which case it ends as failed. *)
Theorem run_mission_cancelled (stop_at : nat → bool) (times : Z) (r : robot)
    (name : value) (m : mission) (k : nat) :
  selected_mission r = Some name →
  missions r !! name = Some m →
  stop_at k = true →
  (k < length (all_steps times (m_steps m)))%nat →
  let total := Z.of_nat (length (m_steps m)) * times in
  ∃ k', (k' ≤ k)%nat
    ∧ stop_at k' = true
    ∧ (∀ j, (j < k')%nat → stop_at j = false)
    ∧ run_mission stop_at times r
      = run_prefix_then_stop total (take k' (all_steps times (m_steps m))) r
    ∧ (snd (run_mission stop_at times r) = Ok (RunCancelled k')
       ∨ ∃ e, snd (run_mission stop_at times r) = Ok (RunFailed e)
              ∧ snd (exec_steps total (take k' (all_steps times (m_steps m))) 0 r)
                = Raise e).
Proof.
  intros Hsel Hm Hstop Hk total.
  destruct (first_true stop_at k Hstop) as (k' & Hle & Hstop' & Hbefore).
  exists k'. split; [exact Hle|]. split; [exact Hstop'|]. split; [exact Hbefore|].
  assert (Hrun : run_mission stop_at times r
                 = run_prefix_then_stop total (take k' (all_steps times (m_steps m))) r).
  { unfold run_mission, run_prefix_then_stop. apply try_except_ext_l.
    erewrite bind_ok by (eapply selected_steps_ok; eassumption).
    cbv zeta. fold total.
    rewrite (bind_ext_l _ _ _ _
               (run_repetitions_prefix stop_at total name m (Z.to_nat times) 0 k' r
                  Hsel Hm Hbefore Hstop' ltac:(unfold all_steps in Hk; lia))).
    rewrite bind_assoc. apply bind_ext. intros n r'. reflexivity. }
  split; [exact Hrun|].
  rewrite Hrun. unfold run_prefix_then_stop, try_except, bind.
  destruct (exec_steps total (take k' (all_steps times (m_steps m))) 0 r)
    as [r1 [n|e]] eqn:Hexec.
  - left. apply exec_steps_count in Hexec. rewrite length_take in Hexec.
    cbn. do 2 f_equal. lia.
  - right. exists e. split; reflexivity.
Qed.

Lemma run_mission_cancelled_witness :
  ∃ k', (k' ≤ 4)%nat
    ∧ run_mission stop_from_4 3 sample_robot
      = run_prefix_then_stop 9 (take k' (all_steps 3 (m_steps sample_mission)))
          sample_robot.
Proof.
  destruct (run_mission_cancelled stop_from_4 3 sample_robot (VStr "demo")
              sample_mission 4 eq_refl ltac:(vm_compute; reflexivity) eq_refl
              ltac:(vm_compute; lia))
    as (k' & Hle & _ & _ & Hrun & _).
  exists k'. split; [exact Hle | exact Hrun].
Defined.

Example run_mission_cancelled_sample :
  snd (run_mission stop_from_4 3 sample_robot) = Ok (RunCancelled 4)
  ∧ list.last (effects (fst (run_mission stop_from_4 3 sample_robot)))
    = Some (EGui (GStatus MsgMissionStopped))
  ∧ length (filter (λ e, is_send e = true)
              (effects (fst (run_mission stop_from_4 3 sample_robot)))) = 3%nat.
Proof. vm_compute. repeat split. Qed.

(** ** Mission files *)

(** *** Lines of text *)

Lemma no_line_end_cons (c : ascii) (s : string) :
  no_line_end (String c s) ↔ (c ≠ LF ∧ c ≠ CR) ∧ no_line_end s.
Proof. unfold no_line_end. cbn. apply Forall_cons_iff. Qed.

Lemma append_cons (c : ascii) (a b : string) : String c a +:+ b = String c (a +:+ b).
Proof. reflexivity. Qed.

Lemma append_nil_l (b : string) : EmptyString +:+ b = b.
Proof. reflexivity. Qed.

Lemma append_assoc (a b c : string) : (a +:+ b) +:+ c = a +:+ (b +:+ c).
Proof.
  induction a as [|x a IH]; [reflexivity|].
  rewrite !append_cons, IH. reflexivity.
Qed.

Lemma rstrip_line (s : string) : rstrip (s +:+ String LF EmptyString) = rstrip s.
Proof.
  induction s as [|c s IH]; [reflexivity|].
  rewrite append_cons. cbn [rstrip]. rewrite IH. reflexivity.
Qed.

Lemma strip_line (s : string) : strip (s +:+ String LF EmptyString) = strip s.
Proof. unfold strip. by rewrite rstrip_line. Qed.

Lemma universal_newlines_line (l rest : string) :
  no_line_end l →
  universal_newlines (l +:+ String LF rest) = l +:+ String LF (universal_newlines rest).
Proof.
  induction l as [|c l IH]; intros Hl.
  - reflexivity.
  - apply no_line_end_cons in Hl as [[_ Hc] Hl].
    rewrite !append_cons. cbn [universal_newlines].
    apply Ascii.eqb_neq in Hc. rewrite Hc, IH by exact Hl. reflexivity.
Qed.

Lemma split_lines_line (l rest : string) :
  no_line_end l →
  split_lines (l +:+ String LF rest) = (l +:+ String LF EmptyString) :: split_lines rest.
Proof.
  induction l as [|c l IH]; intros Hl.
  - reflexivity.
  - apply no_line_end_cons in Hl as [[Hc _] Hl].
    rewrite !append_cons. cbn [split_lines].
    apply Ascii.eqb_neq in Hc. rewrite Hc, IH by exact Hl. reflexivity.
Qed.

Section FileRoundTrip.

Context `{JsonCodec}.

Lemma mission_file_content_text (data : mission) :
  mission_file_content data = file_text (saved_header data :: m_steps data).
Proof. reflexivity. Qed.

Lemma universal_newlines_file_text (js : list json) :
  universal_newlines (file_text js) = file_text js.
Proof.
  induction js as [|j js IH]; [reflexivity|].
  cbn [file_text foldr]. fold (file_text js).
  unfold write_line. rewrite append_assoc, append_cons, append_nil_l.
  rewrite universal_newlines_line by apply dumps_one_line.
  by rewrite IH.
Qed.

Lemma readlines_file_text (js : list json) :
  readlines (file_text js) = write_line <$> js.
Proof.
  unfold readlines. rewrite universal_newlines_file_text.
  induction js as [|j js IH]; [reflexivity|].
  cbn [file_text foldr fmap list_fmap]. fold (file_text js).
  unfold write_line at 1. rewrite append_assoc, append_cons, append_nil_l.
  rewrite split_lines_line by apply dumps_one_line.
  by rewrite IH.
Qed.

Lemma loads_line (j : json) : loads (strip (write_line j)) = Some j.
Proof.
  unfold write_line. rewrite strip_line, dumps_stripped. apply loads_dumps.
Qed.

Lemma load_steps_lines (js : list json) (r : robot) :
  load_steps (write_line <$> js) r = (r, Ok js).
Proof.
  induction js as [|j js IH]; [reflexivity|].
  cbn [fmap list_fmap load_steps].
  erewrite bind_ok by (unfold json_loads; rewrite loads_line; reflexivity).
  erewrite bind_ok by exact IH. reflexivity.
Qed.

End FileRoundTrip.

(** *** The numeral codec meets the contract *)

Lemma numeral_loads_dumps (j : json) : numeral_loads (numeral_dumps j) = Some j.
Proof.
  unfold numeral_loads, numeral_dumps.
  rewrite NilEmpty.usu, DecimalPos.Unsigned.of_to. apply decode_encode.
Qed.

Lemma numeral_digits (d : Decimal.uint) :
  Forall is_digit (list_ascii_of_string (NilEmpty.string_of_uint d)).
Proof.
  induction d; cbn [NilEmpty.string_of_uint list_ascii_of_string];
    [apply Forall_nil | apply Forall_cons; [reflexivity | assumption] ..].
Qed.

Lemma digit_not_line_end (c : ascii) : is_digit c → c ≠ LF ∧ c ≠ CR.
Proof.
  unfold is_digit. intros Hc. split; intros ->; vm_compute in Hc; discriminate Hc.
Qed.

Lemma digit_not_space (c : ascii) : is_digit c → is_space c = false.
Proof.
  unfold is_digit.
  destruct c as [[] [] [] [] [] [] [] []]; vm_compute;
    intros Hc; first [reflexivity | discriminate Hc].
Qed.

Lemma lstrip_digits (s : string) :
  Forall is_digit (list_ascii_of_string s) → lstrip s = s.
Proof.
  destruct s as [|c s]; [reflexivity|].
  cbn [lstrip list_ascii_of_string]. intros Hs.
  destruct (proj1 (Forall_cons_iff _ _ _) Hs) as [Hc _].
  rewrite digit_not_space by exact Hc. reflexivity.
Qed.

Lemma rstrip_digits (s : string) :
  Forall is_digit (list_ascii_of_string s) → rstrip s = s.
Proof.
  induction s as [|c s IH]; [reflexivity|].
  cbn [rstrip list_ascii_of_string]. intros Hs.
  destruct (proj1 (Forall_cons_iff _ _ _) Hs) as [Hc Hs'].
  rewrite IH by exact Hs'. rewrite digit_not_space by exact Hc.
  destruct s; reflexivity.
Qed.

Lemma numeral_dumps_one_line (j : json) : no_line_end (numeral_dumps j).
Proof.
  unfold no_line_end, numeral_dumps.
  eapply Forall_impl; [|apply numeral_digits].
  intros c Hc. by apply digit_not_line_end.
Qed.

Lemma numeral_dumps_stripped (j : json) : strip (numeral_dumps j) = numeral_dumps j.
Proof.
  unfold strip, numeral_dumps.
  rewrite rstrip_digits, lstrip_digits by apply numeral_digits. reflexivity.
Qed.

Definition numeral_codec : JsonCodec :=
  Build_JsonCodec numeral_dumps numeral_loads numeral_loads_dumps
    numeral_dumps_one_line numeral_dumps_stripped.

(** *** Loading *)

Section Loading.

Context `{JsonCodec}.

Lemma load_steps_bad (lines : list string) (r : robot) :
  (∃ l, l ∈ lines ∧ loads (strip l) = None) →
  load_steps lines r = (r, Raise JSONDecodeError).
Proof.
  induction lines as [|l0 rest IH]; intros (l & Hin & Hbad).
  - by apply elem_of_nil in Hin.
  - cbn [load_steps]. unfold json_loads.
    destruct (loads (strip l0)) as [j|] eqn:E0; [|reflexivity].
    apply elem_of_cons in Hin as [->|Hin]; [congruence|].
    erewrite bind_ok by reflexivity.
    erewrite bind_raise; [reflexivity|]. apply IH. eauto.
Qed.


(** C9. When the header line or a step line of the file is not valid
    JSON, loading fails as a whole: the failure is reported, and the
    missions, the selected mission and all the rest of the state are as
    they were. *)
Theorem load_mission_invalid_json (r : robot) (file_path : string)
    (overwrite : bool) (fs : files) (content : string) :
  file_path ≠ "" →
  fs !! file_path = Some content →
  (∃ line0, head (readlines content) = Some line0 ∧ loads (strip line0) = None)
  ∨ (∃ l, l ∈ tail (readlines content) ∧ loads (strip l) = None) →
  let r' := fst (load_mission file_path overwrite fs r) in
  missions r' = missions r
  ∧ selected_mission r' = selected_mission r
  ∧ ∃ e, r' = set_effects
                (effects r ++ [EGui (GError (ErrLoadFailed e));
                               EGui (GStatus (MsgLoadFailed e))]) r.
Proof.
  intros Hpath Hfile Hbad r'.
  assert (Hr' : ∃ e, r' = set_effects
                (effects r ++ [EGui (GError (ErrLoadFailed e));
                               EGui (GStatus (MsgLoadFailed e))]) r).
  { subst r'. unfold load_mission.
    apply String.eqb_neq in Hpath. rewrite Hpath.
    match goal with
    | |- context [try_except ?c ?h r] =>
        assert (Hbody : ∃ e, c r = (r, Raise e))
    end.
    { rewrite Hfile. erewrite bind_ok by reflexivity.
      destruct (head (readlines content)) as [line0|] eqn:Hhead.
      2:{ exists IndexError. reflexivity. }
      erewrite bind_ok by reflexivity. unfold json_loads.
      destruct (loads (strip line0)) as [header|] eqn:Hheader.
      2:{ exists JSONDecodeError. reflexivity. }
      erewrite bind_ok by reflexivity.
      destruct header as [d|v].
      2:{ exists AttributeError. reflexivity. }
      erewrite bind_ok by reflexivity.
      exists JSONDecodeError. erewrite bind_raise; [reflexivity|].
      apply load_steps_bad.
      destruct Hbad as [(line0' & Hl & Hn)|Hstep]; [congruence | exact Hstep]. }
    destruct Hbody as [e Hbody]. exists e.
    erewrite try_except_raise by exact Hbody.
    cbn. rewrite <- app_assoc. reflexivity. }
  destruct Hr' as [e ->]. repeat split. exists e. reflexivity.
Qed.

(** *** Saving and loading again *)

Lemma save_mission_file (r : robot) (name : value) (m : mission)
    (file_path : string) (fs : files) :
  no_mission_selected r = false →
  selected_mission r = Some name →
  missions r !! name = Some m →
  file_path ≠ "" →
  snd (save_mission file_path fs r)
  = Ok (<[file_path := mission_file_content m]> fs).
Proof.
  intros Hno Hsel Hm Hpath. unfold save_mission.
  erewrite bind_ok by reflexivity. rewrite Hno.
  apply String.eqb_neq in Hpath. rewrite Hpath, Hsel, Hm.
  reflexivity.
Qed.

Lemma saved_header_name (m : mission) (dflt : value) (r : robot) :
  get_default (saved_header m) "name" dflt r = (r, Ok (m_name m)).
Proof. unfold get_default, saved_header. by rewrite lookup_insert_eq. Qed.

Lemma saved_header_intro (m : mission) (dflt : value) (r : robot) :
  get_default (saved_header m) "intro" dflt r = (r, Ok (VStr "Mission")).
Proof.
  unfold get_default, saved_header.
  rewrite lookup_insert_ne by discriminate. by rewrite lookup_singleton_eq.
Qed.

Lemma load_mission_file (m : mission) (file_path : string) (fs : files)
    (r : robot) (overwrite : bool) :
  file_path ≠ "" →
  fs !! file_path = Some (mission_file_content m) →
  missions r !! m_name m = None ∨ overwrite = true →
  let r' := fst (load_mission file_path overwrite fs r) in
  missions r' !! m_name m
  = Some (Mission (m_name m) (VStr "Mission") (m_steps m))
  ∧ selected_mission r' = Some (m_name m).
Proof.
  intros Hpath Hfile How r'. subst r'. unfold load_mission.
  apply String.eqb_neq in Hpath. rewrite Hpath.
  assert (Hgo : bool_decide (is_Some (missions r !! m_name m)) && negb overwrite
                = false).
  { destruct How as [Hnone| ->].
    - rewrite Hnone. reflexivity.
    - apply andb_false_r. }
  erewrite try_except_ok.
  2:{ rewrite Hfile. erewrite bind_ok by reflexivity.
      rewrite mission_file_content_text, readlines_file_text.
      cbn [fmap list_fmap head tail].
      erewrite bind_ok by reflexivity.
      erewrite bind_ok by (unfold json_loads; rewrite loads_line; reflexivity).
      erewrite bind_ok by apply saved_header_name.
      erewrite bind_ok by apply load_steps_lines.
      erewrite bind_ok by reflexivity.
      rewrite Hgo.
      erewrite bind_ok by apply saved_header_intro.
      reflexivity. }
  cbn. rewrite lookup_insert_eq. split; reflexivity.
Qed.

(** A mission whose introduction text is the one [save_mission] writes
    comes back as it was. *)
Lemma save_load_round_trip (r : robot) (name : value) (m : mission)
    (file_path : string) (fs : files) (r2 : robot) (overwrite : bool) :
  no_mission_selected r = false →
  selected_mission r = Some name →
  missions r !! name = Some m →
  file_path ≠ "" →
  m_intro m = VStr "Mission" →
  missions r2 !! m_name m = None ∨ overwrite = true →
  ∃ fs', snd (save_mission file_path fs r) = Ok fs'
    ∧ missions (fst (load_mission file_path overwrite fs' r2)) !! m_name m
      = Some m.
Proof.
  intros Hno Hsel Hm Hpath Hintro How.
  eexists. split; [eapply save_mission_file; eassumption|].
  destruct (load_mission_file m file_path
              (<[file_path := mission_file_content m]> fs) r2 overwrite Hpath
              ltac:(apply lookup_insert_eq) How) as [Hload _].
  rewrite Hload. destruct m as [n i s]. cbn in *. by subst i.
Qed.

End Loading.

Lemma load_mission_invalid_json_witness :
  missions (fst (load_mission (H:=numeral_codec) "demo.mission" true broken_files
                   sample_robot))
  = missions sample_robot
  ∧ selected_mission (fst (load_mission (H:=numeral_codec) "demo.mission" true
                             broken_files sample_robot))
    = selected_mission sample_robot.
Proof.
  destruct (load_mission_invalid_json (H:=numeral_codec) sample_robot "demo.mission"
              true broken_files ("{name: demo" +:+ String LF EmptyString)
              ltac:(discriminate) ltac:(vm_compute; reflexivity)
              ltac:(left; eexists; split; vm_compute; reflexivity))
    as (Hm & Hs & _).
  split; [exact Hm | exact Hs].
Defined.

(** C4 fails on the code. [save_mission] writes the constant "Mission" as
    the introduction text of the header, whatever the mission holds: the
    sample mission with the text "Pick and place" is saved and loaded on
    another robot, and comes back with the text "Mission"; its name and its
    steps come back as they were. *)
Theorem save_load_drops_intro :
  ∃ fs',
    snd (save_mission (H:=numeral_codec) "demo.mission" ∅ described_robot) = Ok fs'
    ∧ missions (fst (load_mission (H:=numeral_codec) "demo.mission" true fs'
                       (init_robot_frame "Robot 2"))) !! VStr "demo"
      = Some (Mission (VStr "demo") (VStr "Mission") (m_steps described_mission))
    ∧ Mission (VStr "demo") (VStr "Mission") (m_steps described_mission)
      ≠ described_mission.
Proof.
  eexists. split.
  { apply (save_mission_file (H:=numeral_codec) described_robot (VStr "demo")
             described_mission); [reflexivity | reflexivity | | discriminate].
    vm_compute. reflexivity. }
  split; [|discriminate].
  apply (load_mission_file (H:=numeral_codec) described_mission "demo.mission"
           _ (init_robot_frame "Robot 2") true);
    [discriminate | apply lookup_insert_eq | right; reflexivity].
Qed.

(** ** Scheduler *)

Section MonitorFacts.

Context `{JsonCodec}.
Variable strptime : string → option time.
Variable basename : string → string.
Variable clock : nat → datetime.
Variable fs : files.

Lemma shown_status_set_first (t : task) (status : string) (rows : list row) :
  is_Some (head (filter (λ values, row_matches basename t values = true) rows)) →
  row_status <$> head (filter (λ values, row_matches basename t values = true)
                         (set_first_status basename t status rows))
  = Some status.
Proof.
  induction rows as [|values rest IH]; intros Hsome.
  - by apply is_Some_None in Hsome.
  - cbn [set_first_status].
    destruct (row_matches basename t values) eqn:E.
    + rewrite filter_cons_True by exact E. reflexivity.
    + rewrite filter_cons_False in * by congruence.
      apply IH, Hsome.
Qed.

Lemma shown_status_update (t : task) (status : string) (st : scheduler) :
  is_Some (shown_status basename t st) →
  shown_status basename t (update_task_status basename t status st) = Some status.
Proof.
  unfold shown_status, update_task_status. cbn [tasks_tree].
  intros Hsome. apply shown_status_set_first.
  destruct (head _); [eauto | by apply is_Some_None in Hsome].
Qed.

(** C6. A task to be run once whose time of day is earlier than the
    current time of the day on which the monitor looks at it: the monitor
    sets its status to "Time Passed" and returns; it has not slept, has
    not opened the mission file and has not called the execution engine,
    and both robots are as they were. *)
Theorem monitor_once_time_passed (fuel iteration : nat) (t : task)
    (st : scheduler) (scheduled_time : time) :
  t_recurrence t = "Once" →
  strptime (t_scheduled_time t) = Some scheduled_time →
  time_micros scheduled_time < dt_micros (clock iteration) →
  let res := monitor_task strptime basename clock fs (S fuel) iteration t st in
  res = (update_task_status basename t "Time Passed" st, MonitorReturned)
  ∧ sched_effects (fst res) = sched_effects st
  ∧ robot1 (fst res) = robot1 st
  ∧ robot2 (fst res) = robot2 st
  ∧ (is_Some (shown_status basename t st) →
     shown_status basename t (fst res) = Some "Time Passed").
Proof.
  intros Honce Htime Hpast res.
  assert (Hres : res = (update_task_status basename t "Time Passed" st,
                        MonitorReturned)).
  { subst res. cbn [monitor_task]. rewrite Htime.
    unfold next_trigger, dt_ltb, combine. cbn [dt_date dt_micros].
    rewrite Z.ltb_irrefl, Z.eqb_refl. cbn [orb andb].
    apply Z.ltb_lt in Hpast. rewrite Hpast, Honce. reflexivity. }
  rewrite Hres. repeat split.
  cbn [fst]. apply shown_status_update.
Qed.

Lemma monitor_task_unknown_robot (fuel iteration : nat) (t : task)
    (st : scheduler) (scheduled_time : time) (scheduled_datetime : datetime) :
  t_robot t ≠ "Robot 1" →
  t_robot t ≠ "Robot 2" →
  strptime (t_scheduled_time t) = Some scheduled_time →
  next_trigger (clock iteration) scheduled_time (t_recurrence t)
    = Some scheduled_datetime →
  monitor_task strptime basename clock fs (S fuel) iteration t st
  = (update_task_status basename t
       (match read_mission_name fs (t_mission_file t) with
        | Some _ => "Unknown Robot"
        | None => "Failed to Load"
        end)
       (sched_emit (SOpen (t_mission_file t))
          (update_task_status basename t "Running"
             (wait_until scheduled_datetime (clock iteration) st))),
     MonitorReturned).
Proof.
  intros H1 H2 Htime Htrigger. cbn [monitor_task].
  rewrite Htime, Htrigger.
  destruct (read_mission_name fs (t_mission_file t)); [|reflexivity].
  unfold play_on.
  apply String.eqb_neq in H1, H2. rewrite H1, H2. reflexivity.
Qed.

(** C7, as the code has it. For a task whose robot is neither "Robot 1"
    nor "Robot 2" and whose trigger is reached, the monitor waits, sets
    the status to "Running", then opens the mission file to read the name
    in its header, and only then looks at the robot: when the header was
    read it sets the status to "Unknown Robot", when it was not it sets
    the status to "Failed to Load", and in both cases it returns; the
    execution engine is not called and both robots are as they were. *)
Theorem monitor_unknown_robot (fuel iteration : nat) (t : task)
    (st : scheduler) (scheduled_time : time) (scheduled_datetime : datetime) :
  t_robot t ≠ "Robot 1" →
  t_robot t ≠ "Robot 2" →
  strptime (t_scheduled_time t) = Some scheduled_time →
  next_trigger (clock iteration) scheduled_time (t_recurrence t)
    = Some scheduled_datetime →
  let res := monitor_task strptime basename clock fs (S fuel) iteration t st in
  let running :=
    update_task_status basename t "Running"
      (wait_until scheduled_datetime (clock iteration) st) in
  let final_status :=
    match read_mission_name fs (t_mission_file t) with
    | Some _ => "Unknown Robot"
    | None => "Failed to Load"
    end in
  res = (update_task_status basename t final_status
           (sched_emit (SOpen (t_mission_file t)) running),
         MonitorReturned)
  ∧ filter (λ e, is_play e = true) (sched_effects (fst res))
    = filter (λ e, is_play e = true) (sched_effects st)
  ∧ robot1 (fst res) = robot1 st
  ∧ robot2 (fst res) = robot2 st.
Proof.
  intros H1 H2 Htime Htrigger res running final_status.
  assert (Hres : res = (update_task_status basename t final_status
                          (sched_emit (SOpen (t_mission_file t)) running),
                        MonitorReturned))
    by (eapply monitor_task_unknown_robot; eassumption).
  rewrite Hres. split; [reflexivity|].
  subst running. unfold wait_until.
  destruct (Qltb 0 _); cbn; rewrite !list.filter_app; cbn;
    rewrite ?app_nil_r; repeat split.
Qed.

End MonitorFacts.

Lemma monitor_once_time_passed_witness :
  monitor_task (H:=numeral_codec) strptime_12h (λ s, s) ten_o_clock ∅ 1 0
    past_once_task (sample_scheduler past_once_task)
  = (update_task_status (λ s, s) past_once_task "Time Passed"
       (sample_scheduler past_once_task), MonitorReturned)
  ∧ shown_status (λ s, s) past_once_task
      (fst (monitor_task (H:=numeral_codec) strptime_12h (λ s, s) ten_o_clock ∅ 1 0
              past_once_task (sample_scheduler past_once_task)))
    = Some "Time Passed".
Proof.
  destruct (monitor_once_time_passed (H:=numeral_codec) strptime_12h (λ s, s)
              ten_o_clock ∅ 0 0 past_once_task (sample_scheduler past_once_task)
              (Time 9 0 0) eq_refl ltac:(vm_compute; reflexivity) eq_refl)
    as (Hres & _ & _ & _ & Hshown).
  split; [exact Hres|].
  apply Hshown. vm_compute. eauto.
Defined.

(** The claim that an unknown robot is found before the mission file is
    touched fails: for the task on "Robot 3" the monitor sleeps for the
    hour that is left, sets "Running", opens the mission file, which is
    missing, and ends with the status "Failed to Load". *)
Lemma unknown_robot_after_file_load :
  let res := monitor_task (H:=numeral_codec) strptime_12h (λ s, s) ten_o_clock ∅
               1 0 stray_task (sample_scheduler stray_task) in
  snd res = MonitorReturned
  ∧ shown_status (λ s, s) stray_task (fst res) = Some "Failed to Load"
  ∧ ∃ secs, sched_effects (fst res) = [SSleep secs; SOpen "missing.mission"]
            ∧ (secs == 3600)%Q.
Proof.
  vm_compute. split; [reflexivity|]. split; [reflexivity|].
  eexists. split; reflexivity.
Qed.

Lemma read_mission_name_saved `{JsonCodec} (fs : files) (path : string)
    (m : mission) :
  fs !! path = Some (mission_file_content m) →
  read_mission_name fs path = Some (m_name m).
Proof.
  intros Hfile. unfold read_mission_name. rewrite Hfile. cbn [mbind option_bind].
  rewrite mission_file_content_text, readlines_file_text.
  cbn [fmap list_fmap head mbind option_bind].
  rewrite loads_line. cbn [mbind option_bind saved_header].
  by rewrite lookup_insert_eq.
Qed.

(** With the mission file in place the status does become "Unknown
    Robot", after the file was opened and read. *)
Example unknown_robot_with_file (codec : JsonCodec) :
  let fs : files := {[ "demo.mission" := mission_file_content sample_mission ]} in
  let res := monitor_task strptime_12h (λ s, s) ten_o_clock fs 1 0
               stray_task_with_file (sample_scheduler stray_task_with_file) in
  snd res = MonitorReturned
  ∧ shown_status (λ s, s) stray_task_with_file (fst res) = Some "Unknown Robot"
  ∧ list.last (sched_effects (fst res)) = Some (SOpen "demo.mission").
Proof.
  intros fs res. subst res.
  rewrite (monitor_task_unknown_robot strptime_12h (λ s, s) ten_o_clock fs 0 0
             stray_task_with_file (sample_scheduler stray_task_with_file)
             (Time 11 0 0) (DateTime 0 39600000000))
    by (discriminate || (vm_compute; reflexivity)).
  rewrite (read_mission_name_saved fs "demo.mission" sample_mission)
    by apply lookup_singleton_eq.
  vm_compute. repeat split.
Qed.

Lemma monitor_unknown_robot_witness :
  ∃ running,
    monitor_task (H:=numeral_codec) strptime_12h (λ s, s) ten_o_clock ∅ 1 0
      stray_task (sample_scheduler stray_task)
    = (update_task_status (λ s, s) stray_task "Failed to Load"
         (sched_emit (SOpen "missing.mission") running), MonitorReturned)
    ∧ filter (λ e, is_play e = true)
        (sched_effects
           (fst (monitor_task (H:=numeral_codec) strptime_12h (λ s, s) ten_o_clock
                   ∅ 1 0 stray_task (sample_scheduler stray_task))))
      = [].
Proof.
  destruct (monitor_unknown_robot (H:=numeral_codec) strptime_12h (λ s, s)
              ten_o_clock ∅ 0 0 stray_task (sample_scheduler stray_task)
              (Time 11 0 0) (DateTime 0 39600000000)
              ltac:(discriminate) ltac:(discriminate)
              ltac:(vm_compute; reflexivity) ltac:(vm_compute; reflexivity))
    as (Hres & Hplay & _).
  eexists. split; [exact Hres | exact Hplay].
Defined.

(** * Further properties of the code *)

(** ** Single steps *)

(** Run the queueing of updates and frames and the writes of the pose on a
    state given by its fields, by value, so that the state is not copied. *)
Ltac run_effects :=
  cbv beta iota zeta delta
    [bind ret raise emit modify get_self try_except lift_or with_movement_lock write_axis
     update_status_bar update_progress_bar show_error queue_gui_update
     send_command_in_thread set_effects set_current_position set_missions
     set_selected_mission set_dragging set_mission_execution fst snd
     robot_name current_position default_spd default_acc missions
     selected_mission mission_execution_thread mission_execution_stop_event
     active_runs threads_started dragging_item dragging_start_index
     speed_scale distance_scale base_delay max_delay effects
     px py pz pt String.eqb Ascii.eqb Bool.eqb andb];
  rewrite <- ?app_assoc; cbn [app].


Lemma subscript_T (d : dict) (n : Z) :
  py_eq_int (d !! "T") n = true → ∃ vT, d !! "T" = Some vT.
Proof. destruct (d !! "T"); [eauto | discriminate]. Qed.






Lemma subscript_ok (d : dict) (k : string) (v : value) (r : robot) :
  d !! k = Some v → subscript (JObj d) k r = (r, Ok v).
Proof. intros Hk. unfold subscript, lift_or. rewrite Hk. reflexivity. Qed.







Lemma movement_tc_zero_speed (d : dict) (r : robot) (mx spd : Q) :
  ¬ (distance_scale r == 0)%Q →
  max_axis_delta (current_position r) d = Some mx →
  step_spd r d = Some spd →
  (spd == 0)%Q →
  movement_tc (JObj d) r = (r, Raise ZeroDivisionError).
Proof.
  intros Hd Hmx Hspd Hzero.
  unfold max_axis_delta in Hmx. repeat option_step Hmx. some_eq Hmx.
  unfold axis_delta in *.
  repeat match goal with H : mbind _ _ = Some _ |- _ => repeat option_step H; some_eq H end.
  unfold step_spd in Hspd.
  unfold movement_tc, bind, get_self, subscript, get_default, number, lift_or, ret.
  run_known.
  rewrite py_div_ok by exact Hd. run_known.
  unfold py_div. apply Qeq_bool_iff in Hzero. rewrite Hzero. reflexivity.
Qed.

(** X4. A movement step whose speed is zero raises [ZeroDivisionError]
    while the settle time is computed: no frame has been sent, nothing was
    queued and the state is as it was. *)
Theorem execute_step_zero_speed (d : dict) (r : robot) (mx spd : Q) :
  ¬ (distance_scale r == 0)%Q →
  py_eq_int (d !! "T") 104 = true →
  max_axis_delta (current_position r) d = Some mx →
  step_spd r d = Some spd →
  (spd == 0)%Q →
  execute_step (JObj d) r = (r, Raise ZeroDivisionError).
Proof.
  intros Hd HT Hmx Hspd Hzero.
  destruct (subscript_T d 104 HT) as [vT HvT]. rewrite HvT in HT.
  unfold execute_step.
  erewrite bind_ok by (unfold subscript, lift_or; rewrite HvT; reflexivity).
  rewrite HT.
  erewrite bind_raise by (eapply movement_tc_zero_speed; eassumption).
  reflexivity.
Qed.

Lemma execute_step_zero_speed_witness :
  execute_step (JObj sample_move_zero_speed) (init_robot_frame "Robot 1")
  = (init_robot_frame "Robot 1", Raise ZeroDivisionError).
Proof.
  refine (execute_step_zero_speed sample_move_zero_speed
            (init_robot_frame "Robot 1") _ 0 _ eq_refl _ eq_refl _).
  - cbn. intros Hd. discriminate Hd.
  - vm_compute. reflexivity.
  - reflexivity.
Defined.

(** ** The lock discipline *)

Lemma writes_guarded_app (held : bool) (es1 es2 : list event) :
  writes_guarded held (es1 ++ es2)
  = writes_guarded held es1 && writes_guarded (lock_after held es1) es2.
Proof.
  revert held. induction es1 as [|e es1 IH]; intros held; [reflexivity|].
  destruct e; cbn [app writes_guarded lock_after]; rewrite ?IH;
    try reflexivity.
  by rewrite andb_assoc.
Qed.

Lemma lock_after_app (held : bool) (es1 es2 : list event) :
  lock_after held (es1 ++ es2) = lock_after (lock_after held es1) es2.
Proof.
  revert held. induction es1 as [|e es1 IH]; intros held; [reflexivity|].
  destruct e; cbn [app lock_after]; apply IH.
Qed.

Lemma no_lock_events (held : bool) (es : list event) :
  Forall no_lock_event es → lock_after held es = held.
Proof.
  induction 1 as [|e es He _ IH]; [reflexivity|].
  destruct e; cbn [lock_after]; try exact IH; destruct He.
Qed.

Lemma no_lock_events_guarded (es : list event) :
  Forall no_lock_event es → writes_guarded true es = true.
Proof.
  induction 1 as [|e es He _ IH]; [reflexivity|].
  destruct e; cbn [writes_guarded]; try exact IH; destruct He.
Qed.

Lemma plain_events_guarded (held : bool) (es : list event) :
  Forall plain_event es → writes_guarded held es = true.
Proof.
  induction 1 as [|e es He _ IH]; [reflexivity|].
  destruct e; cbn [writes_guarded]; try exact IH; destruct He.
Qed.

Lemma plain_no_lock (e : event) : plain_event e → no_lock_event e.
Proof. destruct e; cbn; auto. Qed.

(** *** What a method emits *)

Lemma emits_weaken {A} (P Q : event → Prop) (c : M A) :
  (∀ e, P e → Q e) → emits P c → emits Q c.
Proof.
  intros HPQ Hc r. destruct (Hc r) as (es & Hes & HP).
  exists es. split; [exact Hes|]. eapply Forall_impl; eauto.
Qed.

Lemma emits_ret {A} (P : event → Prop) (a : A) : emits P (ret a).
Proof. intros r. exists []. split; [cbn; by rewrite app_nil_r | constructor]. Qed.

Lemma emits_raise {A} (P : event → Prop) (e : exn) : emits P (@raise A e).
Proof. intros r. exists []. split; [cbn; by rewrite app_nil_r | constructor]. Qed.

Lemma emits_get_self (P : event → Prop) : emits P get_self.
Proof. intros r. exists []. split; [cbn; by rewrite app_nil_r | constructor]. Qed.

Lemma emits_emit (P : event → Prop) (e : event) : P e → emits P (emit e).
Proof. intros He r. exists [e]. split; [reflexivity | by constructor]. Qed.

Lemma emits_bind {A B} (P : event → Prop) (c : M A) (k : A → M B) :
  emits P c → (∀ a, emits P (k a)) → emits P (bind c k).
Proof.
  intros Hc Hk r. unfold bind. destruct (Hc r) as (es & Hes & HP).
  destruct (c r) as [r1 [a|e]]; cbn in *.
  - destruct (Hk a r1) as (es' & Hes' & HP'). exists (es ++ es').
    split; [rewrite Hes', Hes; by rewrite app_assoc | by apply Forall_app].
  - exists es. by split.
Qed.

Lemma emits_try_except {A} (P : event → Prop) (c : M A) (h : exn → M A) :
  emits P c → (∀ e, emits P (h e)) → emits P (try_except c h).
Proof.
  intros Hc Hh r. unfold try_except. destruct (Hc r) as (es & Hes & HP).
  destruct (c r) as [r1 [a|e]]; cbn in *.
  - exists es. by split.
  - destruct (Hh e r1) as (es' & Hes' & HP'). exists (es ++ es').
    split; [rewrite Hes', Hes; by rewrite app_assoc | by apply Forall_app].
Qed.

Lemma emits_lift_or {A} (P : event → Prop) (e : exn) (o : option A) :
  emits P (lift_or e o).
Proof. destruct o; [apply emits_ret | apply emits_raise]. Qed.

Lemma emits_subscript (P : event → Prop) (step : json) (k : string) :
  emits P (subscript step k).
Proof. destruct step; [apply emits_lift_or | apply emits_raise]. Qed.

Lemma emits_get_default (P : event → Prop) (step : json) (k : string)
    (dflt : value) :
  emits P (get_default step k dflt).
Proof. destruct step; [apply emits_ret | apply emits_raise]. Qed.

Lemma emits_py_div (P : event → Prop) (a b : Q) : emits P (py_div a b).
Proof.
  unfold py_div. destruct (Qeq_bool b 0); [apply emits_raise | apply emits_ret].
Qed.

Lemma emits_sleep (P : event → Prop) (secs : Q) :
  P (ESleep secs) → emits P (sleep secs).
Proof.
  intros HP. unfold sleep.
  destruct (Qltb secs 0); [apply emits_raise | by apply emits_emit].
Qed.

Lemma emits_write_axis (P : event → Prop) (axis : string) (v : value) :
  P (EPoseWrite axis v) → emits P (write_axis axis v).
Proof. intros HP r. exists [EPoseWrite axis v]. split; [reflexivity | by constructor]. Qed.

(** Decompose a method along its binds; what is left is that the events
    it emits are of the kind asked for. *)
Ltac emits_tac :=
  repeat first
    [ apply emits_bind; [|intro]
    | apply emits_try_except; [|intro]
    | apply emits_ret | apply emits_raise | apply emits_get_self
    | apply emits_lift_or | apply emits_subscript | apply emits_get_default
    | apply emits_py_div
    | apply emits_sleep; exact I
    | apply emits_write_axis; exact I
    | apply emits_emit; exact I
    | progress unfold update_status_bar, update_progress_bar, show_error,
        queue_gui_update, send_command_in_thread, number, json_loads ].

Lemma emits_movement_tc (P : event → Prop) (step : json) :
  emits P (movement_tc step).
Proof. unfold movement_tc. emits_tac. Qed.

(** *** Disciplined methods *)

Lemma disciplined_plain {A} (c : M A) : emits plain_event c → disciplined c.
Proof.
  intros Hc r. destruct (Hc r) as (es & Hes & HP). exists es.
  split; [exact Hes|]. split; [by apply plain_events_guarded|].
  apply no_lock_events. eapply Forall_impl; [|exact HP]. apply plain_no_lock.
Qed.

Lemma disciplined_bind {A B} (c : M A) (k : A → M B) :
  disciplined c → (∀ a, disciplined (k a)) → disciplined (bind c k).
Proof.
  intros Hc Hk r. unfold bind. destruct (Hc r) as (es & Hes & Hg & Hl).
  destruct (c r) as [r1 [a|e]]; cbn in *.
  - destruct (Hk a r1) as (es' & Hes' & Hg' & Hl'). exists (es ++ es').
    split; [rewrite Hes', Hes; by rewrite app_assoc|].
    rewrite writes_guarded_app, lock_after_app, Hl, Hg, Hg', Hl'. by split.
  - exists es. by split.
Qed.

Lemma disciplined_try_except {A} (c : M A) (h : exn → M A) :
  disciplined c → (∀ e, disciplined (h e)) → disciplined (try_except c h).
Proof.
  intros Hc Hh r. unfold try_except. destruct (Hc r) as (es & Hes & Hg & Hl).
  destruct (c r) as [r1 [a|e]]; cbn in *.
  - exists es. by split.
  - destruct (Hh e r1) as (es' & Hes' & Hg' & Hl'). exists (es ++ es').
    split; [rewrite Hes', Hes; by rewrite app_assoc|].
    rewrite writes_guarded_app, lock_after_app, Hl, Hg, Hg', Hl'. by split.
Qed.

Lemma disciplined_with_movement_lock {A} (c : M A) :
  emits no_lock_event c → disciplined (with_movement_lock c).
Proof.
  intros Hc r. unfold with_movement_lock.
  erewrite bind_ok by reflexivity.
  set (r0 := set_effects (effects r ++ [EAcquire]) r).
  destruct (Hc r0) as (es & Hes & HP).
  exists (EAcquire :: es ++ [ERelease]).
  assert (Heff : effects (fst (try_except
                   (a <- c ;; emit ERelease ;;; ret a)
                   (λ e, emit ERelease ;;; raise e) r0))
                 = effects r0 ++ es ++ [ERelease]).
  { unfold try_except, bind. destruct (c r0) as [r1 [a|e]]; cbn in *;
      rewrite Hes; by rewrite <- app_assoc. }
  split.
  { rewrite Heff. subst r0. cbn [effects set_effects].
    by rewrite <- app_assoc. }
  cbn [writes_guarded lock_after].
  rewrite writes_guarded_app, lock_after_app.
  rewrite (no_lock_events true es HP), (no_lock_events_guarded es HP).
  by split.
Qed.

Ltac disciplined_tac :=
  repeat first
    [ apply disciplined_with_movement_lock; solve [emits_tac]
    | apply disciplined_plain; solve [emits_tac | apply emits_movement_tc]
    | apply disciplined_bind; [|intro]
    | apply disciplined_try_except; [|intro] ].

Lemma disciplined_execute_step (step : json) : disciplined (execute_step step).
Proof.
  unfold execute_step.
  apply disciplined_bind; [disciplined_tac|]. intros vT.
  destruct (py_eq_int (Some vT) 104); [disciplined_tac|].
  destruct (py_eq_int (Some vT) 111); [disciplined_tac|].
  destruct (_ || _); disciplined_tac.
Qed.

Lemma disciplined_selected_steps : disciplined selected_steps.
Proof.
  apply disciplined_plain. unfold selected_steps.
  apply emits_bind; [apply emits_get_self|]. intros r.
  destruct (selected_mission r); [|apply emits_raise].
  destruct (missions r !! v); [apply emits_ret | apply emits_raise].
Qed.

Lemma disciplined_run_steps (stop_at : nat → bool) (total : Z)
    (steps : list json) (n : nat) :
  disciplined (run_steps stop_at total steps n).
Proof.
  revert n. induction steps as [|stp rest IH]; intros n; cbn [run_steps].
  - disciplined_tac.
  - destruct (stop_at n); [disciplined_tac|].
    apply disciplined_bind; [apply disciplined_execute_step|]. intro.
    apply disciplined_bind; [disciplined_tac|]. intro. apply IH.
Qed.

Lemma disciplined_run_repetitions (stop_at : nat → bool) (total : Z)
    (reps n : nat) :
  disciplined (run_repetitions stop_at total reps n).
Proof.
  revert n. induction reps as [|reps IH]; intros n; cbn [run_repetitions].
  - disciplined_tac.
  - apply disciplined_bind; [apply disciplined_selected_steps|]. intros steps.
    apply disciplined_bind; [apply disciplined_run_steps|]. intros [n' []].
    + apply IH.
    + disciplined_tac.
Qed.

(** X5. The pose is written only under the lock.  In the trace that a
    step, a whole mission run (whatever the stop flag does) or an inbound
    frame adds, every write of the pose lies between an acquisition of
    [movement_lock] and its release, and the lock is not held when the
    method ends, whether it returns or raises. *)
Theorem pose_writes_under_lock :
  (∀ step, disciplined (execute_step step))
  ∧ (∀ stop_at times, disciplined (run_mission stop_at times))
  ∧ (∀ data, disciplined (handle_serial_data data)).
Proof.
  split; [exact disciplined_execute_step|]. split.
  - intros stop_at times. unfold run_mission.
    apply disciplined_try_except; [|intro; disciplined_tac].
    apply disciplined_bind; [apply disciplined_selected_steps|]. intros steps.
    apply disciplined_bind; [apply disciplined_run_repetitions|].
    intros [n' []]; disciplined_tac.
  - intros data. unfold handle_serial_data.
    apply disciplined_bind.
    { destruct data; disciplined_tac. }
    intros d. destruct (py_eq_int (d !! "T") 1051); [disciplined_tac|].
    destruct (py_eq_int (d !! "T") 105); disciplined_tac.
Qed.

(** ** A run that is never stopped *)

Lemma run_repetitions_all (stop_at : nat → bool) (total : Z) (name : value)
    (m : mission) (reps n : nat) (r : robot) :
  selected_mission r = Some name →
  missions r !! name = Some m →
  (∀ j, (j < length (concat (replicate reps (m_steps m))))%nat →
        stop_at (n + j)%nat = false) →
  run_repetitions stop_at total reps n r
  = bind (exec_steps total (concat (replicate reps (m_steps m))) n)
      (λ n', ret (n', LoopDone)) r.
Proof.
  revert n r. induction reps as [|reps IH]; intros n r Hsel Hm Hnever.
  - reflexivity.
  - cbn [run_repetitions replicate concat] in *. rewrite length_app in Hnever.
    erewrite bind_ok by (eapply selected_steps_ok; eassumption).
    destruct (run_steps_prefix stop_at total (m_steps m) n (length (m_steps m)) r)
      as [_ Hout].
    { intros j Hj. apply Hnever. lia. }
    rewrite (bind_ext_l _ _ _ _ (exec_steps_app _ _ _ _ _)), bind_assoc.
    rewrite (bind_ext_l _ _ _ _ (Hout (le_n _))), bind_assoc.
    destruct (keeps_exec_steps total (m_steps m) n r) as [Hk1 Hk2].
    unfold bind at 1 3.
    destruct (exec_steps total (m_steps m) n r) as [r1 [n1|e]] eqn:Hexec;
      [|reflexivity].
    cbn [ret fst bind] in *.
    apply exec_steps_count in Hexec. subst n1.
    apply IH; [congruence | congruence |].
    intros j Hj.
    replace (n + length (m_steps m) + j)%nat
      with (n + (length (m_steps m) + j))%nat by lia.
    apply Hnever. lia.
Qed.

Lemma length_concat_replicate {A} (n : nat) (l : list A) :
  length (concat (replicate n l)) = (n * length l)%nat.
Proof.
  induction n as [|n IH]; [reflexivity|].
  cbn [replicate concat]. rewrite length_app, IH. lia.
Qed.

(** X6. A run during which the stop flag is never seen up executes every
    step of every repetition, in order, and then reports progress 100 and
    completion: it ends as completed after [times * len(steps)] steps,
    unless a step raised, in which case it ends as failed at that step. *)
Theorem run_mission_completes (stop_at : nat → bool) (times : Z) (r : robot)
    (name : value) (m : mission) :
  selected_mission r = Some name →
  missions r !! name = Some m →
  (∀ j, (j < length (all_steps times (m_steps m)))%nat → stop_at j = false) →
  let total := Z.of_nat (length (m_steps m)) * times in
  run_mission stop_at times r
  = run_to_completion total (all_steps times (m_steps m)) r
  ∧ (snd (run_mission stop_at times r)
     = Ok (RunCompleted (Z.to_nat times * length (m_steps m)))
     ∨ ∃ e, snd (run_mission stop_at times r) = Ok (RunFailed e)
            ∧ snd (exec_steps total (all_steps times (m_steps m)) 0 r) = Raise e).
Proof.
  intros Hsel Hm Hnever total.
  assert (Hrun : run_mission stop_at times r
                 = run_to_completion total (all_steps times (m_steps m)) r).
  { unfold run_mission, run_to_completion. apply try_except_ext_l.
    erewrite bind_ok by (eapply selected_steps_ok; eassumption).
    cbv zeta. fold total.
    rewrite (bind_ext_l _ _ _ _
               (run_repetitions_all stop_at total name m (Z.to_nat times) 0 r
                  Hsel Hm Hnever)).
    rewrite bind_assoc. apply bind_ext. intros n r'. reflexivity. }
  split; [exact Hrun|].
  rewrite Hrun. unfold run_to_completion, try_except, bind.
  destruct (exec_steps total (all_steps times (m_steps m)) 0 r)
    as [r1 [n|e]] eqn:Hexec.
  - left. apply exec_steps_count in Hexec. unfold all_steps in Hexec.
    rewrite length_concat_replicate in Hexec. cbn. do 2 f_equal. lia.
  - right. exists e. split; reflexivity.
Qed.

Lemma run_mission_completes_witness :
  run_mission never_stop 2 sample_robot
  = run_to_completion 6 (all_steps 2 (m_steps sample_mission)) sample_robot
  ∧ (snd (run_mission never_stop 2 sample_robot) = Ok (RunCompleted 6)
     ∨ ∃ e, snd (run_mission never_stop 2 sample_robot) = Ok (RunFailed e)
            ∧ snd (exec_steps 6 (all_steps 2 (m_steps sample_mission)) 0
                     sample_robot) = Raise e).
Proof.
  apply (run_mission_completes never_stop 2 sample_robot (VStr "demo")
           sample_mission); [reflexivity | reflexivity | reflexivity].
Defined.

Lemma run_repetitions_no_steps (stop_at : nat → bool) (total : Z) (name : value)
    (m : mission) (reps n : nat) (r : robot) :
  selected_mission r = Some name →
  missions r !! name = Some m →
  m_steps m = [] →
  run_repetitions stop_at total reps n r = (r, Ok (n, LoopDone)).
Proof.
  intros Hsel Hm Hsteps. induction reps as [|reps IH]; [reflexivity|].
  cbn [run_repetitions].
  erewrite bind_ok by (eapply selected_steps_ok; eassumption).
  rewrite Hsteps. cbn [run_steps]. erewrite bind_ok by reflexivity. exact IH.
Qed.

(** X7. A run with nothing to execute, because the number of repetitions
    is zero or negative or because the mission has no steps, reports
    progress 100 and completion and ends as completed after 0 steps,
    whatever the stop flag says: the flag is looked at only before a
    step. *)
Theorem run_mission_nothing_to_do (stop_at : nat → bool) (times : Z) (r : robot)
    (name : value) (m : mission) :
  selected_mission r = Some name →
  missions r !! name = Some m →
  times ≤ 0 ∨ m_steps m = [] →
  run_mission stop_at times r
  = (set_effects (effects r ++ [EGui (GProgress 100);
                                EGui (GStatus MsgMissionCompleted)]) r,
     Ok (RunCompleted 0)).
Proof.
  intros Hsel Hm Hnothing. unfold run_mission.
  assert (Hreps : ∀ total, run_repetitions stop_at total (Z.to_nat times) 0 r
                           = (r, Ok (0%nat, LoopDone))).
  { intros total. destruct Hnothing as [Htimes|Hsteps].
    - replace (Z.to_nat times) with 0%nat by lia. reflexivity.
    - eapply run_repetitions_no_steps; eassumption. }
  erewrite try_except_ok; [reflexivity|].
  erewrite bind_ok by (eapply selected_steps_ok; eassumption).
  cbv zeta. erewrite bind_ok by apply Hreps.
  destruct r. run_effects. reflexivity.
Qed.

Lemma run_mission_nothing_to_do_witness :
  run_mission (λ _, true) (-3) sample_robot
  = (set_effects (effects sample_robot ++ [EGui (GProgress 100);
                                           EGui (GStatus MsgMissionCompleted)])
       sample_robot,
     Ok (RunCompleted 0)).
Proof.
  apply (run_mission_nothing_to_do (λ _, true) (-3) sample_robot (VStr "demo")
           sample_mission); [reflexivity | reflexivity | left; lia].
Defined.

(** ** Mission files: what saving and loading change *)

Section SavedFiles.

Context `{JsonCodec}.








Lemma load_steps_good (lines : list string) (r : robot) :
  Forall (λ l, is_Some (loads (strip l))) lines →
  ∃ js, load_steps lines r = (r, Ok js) ∧ length js = length lines.
Proof.
  induction 1 as [|l rest [j Hj] _ (js & IH & Hlen)].
  - by exists [].
  - exists (j :: js). cbn [load_steps]. unfold json_loads. rewrite Hj.
    erewrite bind_ok by reflexivity. erewrite bind_ok by exact IH.
    split; [reflexivity | cbn; by rewrite Hlen].
Qed.



(** X10. When the file is readable, its name is already taken and the
    overwrite is declined, [load_mission] changes nothing at all: no
    mission, no selection, and no message is queued. *)
Theorem load_mission_overwrite_declined (r : robot) (file_path : string)
    (fs : files) (content line0 : string) (d : dict) :
  file_path ≠ "" →
  fs !! file_path = Some content →
  head (readlines content) = Some line0 →
  loads (strip line0) = Some (JObj d) →
  Forall (λ l, is_Some (loads (strip l))) (tail (readlines content)) →
  is_Some (missions r !! default (VStr "unnamed_mission") (d !! "name")) →
  load_mission file_path false fs r = (r, Ok tt).
Proof.
  intros Hpath Hfile Hhead Hheader Hsteps Htaken. unfold load_mission.
  apply String.eqb_neq in Hpath. rewrite Hpath.
  erewrite try_except_ok; [reflexivity|].
  rewrite Hfile. erewrite bind_ok by reflexivity.
  rewrite Hhead. erewrite bind_ok by reflexivity.
  unfold json_loads. rewrite Hheader. erewrite bind_ok by reflexivity.
  erewrite bind_ok by reflexivity.
  destruct (load_steps_good _ r Hsteps) as (js & Hjs & _).
  erewrite bind_ok by exact Hjs.
  erewrite bind_ok by reflexivity.
  by rewrite bool_decide_eq_true_2.
Qed.

(** X11. A path that names no file, or an empty file, makes [load_mission]
    report the failure ([FileNotFoundError] from [open], [IndexError]
    from [lines[0]]) as an error and as a status, and leaves everything
    else as it was. *)
Theorem load_mission_unreadable (r : robot) (file_path : string)
    (overwrite : bool) (fs : files) (e : exn) :
  file_path ≠ "" →
  (fs !! file_path = None ∧ e = FileNotFoundError)
  ∨ (fs !! file_path = Some "" ∧ e = IndexError) →
  load_mission file_path overwrite fs r
  = (set_effects (effects r ++ [EGui (GError (ErrLoadFailed e));
                                EGui (GStatus (MsgLoadFailed e))]) r,
     Ok tt).
Proof.
  intros Hpath Hfile. unfold load_mission.
  apply String.eqb_neq in Hpath. rewrite Hpath.
  destruct Hfile as [[-> ->] | [-> ->]].
  - erewrite try_except_raise by reflexivity.
    destruct r. run_effects. reflexivity.
  - erewrite try_except_raise by reflexivity.
    destruct r. run_effects. reflexivity.
Qed.


End SavedFiles.


Lemma load_mission_overwrite_declined_witness :
  load_mission (H:=numeral_codec) "demo.mission" false
    (demo_file (H:=numeral_codec)) sample_robot
  = (sample_robot, Ok tt).
Proof.
  apply (load_mission_overwrite_declined (H:=numeral_codec) sample_robot
           "demo.mission" (demo_file (H:=numeral_codec))
           (mission_file_content (H:=numeral_codec) sample_mission)
           (write_line (H:=numeral_codec) (saved_header sample_mission))
           {[ "name" := VStr "demo"; "intro" := VStr "Mission" ]}).
  - discriminate.
  - reflexivity.
  - rewrite mission_file_content_text, readlines_file_text. reflexivity.
  - apply (loads_line (H:=numeral_codec)).
  - rewrite mission_file_content_text, readlines_file_text.
    cbn [fmap list_fmap tail m_steps sample_mission].
    repeat constructor; rewrite (loads_line (H:=numeral_codec)); eauto.
  - vm_compute. eauto.
Defined.

Lemma load_mission_unreadable_witness :
  load_mission (H:=numeral_codec) "gone.mission" true ∅ sample_robot
  = (set_effects
       (effects sample_robot
        ++ [EGui (GError (ErrLoadFailed FileNotFoundError));
            EGui (GStatus (MsgLoadFailed FileNotFoundError))]) sample_robot,
     Ok tt).
Proof.
  apply (load_mission_unreadable (H:=numeral_codec) sample_robot "gone.mission"
           true ∅ FileNotFoundError); [discriminate | left; split; reflexivity].
Defined.

(** ** The scheduler: rows, triggers and monitors *)






Section ScheduleFacts.

Context `{JsonCodec}.
Variable strptime : string → option time.
Variable basename : string → string.
Variable clock : nat → datetime.
Variable fs : files.

Lemma set_first_status_none (t : task) (status : string) (rows : list row) :
  Forall (λ v, row_matches basename t v = false) rows →
  set_first_status basename t status rows = rows.
Proof.
  induction 1 as [|v rest Hv _ IH]; [reflexivity|].
  cbn [set_first_status]. rewrite Hv. by rewrite IH.
Qed.

Lemma set_first_status_first (t : task) (status : string)
    (rows1 rows2 : list row) (values : row) :
  Forall (λ v, row_matches basename t v = false) rows1 →
  row_matches basename t values = true →
  set_first_status basename t status (rows1 ++ values :: rows2)
  = rows1 ++ Row (row_robot values) (row_file values) (row_time values)
               (row_recurrence values) status :: rows2.
Proof.
  intros Hbefore Hmatch.
  induction Hbefore as [|v rest Hv _ IH]; cbn [app set_first_status].
  - by rewrite Hmatch.
  - rewrite Hv. by rewrite IH.
Qed.

Lemma set_first_status_length (t : task) (status : string) (rows : list row) :
  length (set_first_status basename t status rows) = length rows.
Proof.
  induction rows as [|v rest IH]; [reflexivity|].
  cbn [set_first_status]. destruct (row_matches basename t v); cbn; congruence.
Qed.

(** X13. [update_task_status] writes the Status column of the first row
    that shows the task and of no other row: rows before it and after it
    are as they were, also those after it that show the same task.  When
    no row shows the task nothing changes.  The number of rows, the
    robots and the scheduler's trace stay as they were. *)
Theorem update_task_status_first_row (t : task) (status : string)
    (st : scheduler) :
  (Forall (λ v, row_matches basename t v = false) (tasks_tree st) →
   update_task_status basename t status st = st)
  ∧ (∀ rows1 values rows2,
       tasks_tree st = rows1 ++ values :: rows2 →
       Forall (λ v, row_matches basename t v = false) rows1 →
       row_matches basename t values = true →
       tasks_tree (update_task_status basename t status st)
       = rows1 ++ Row (row_robot values) (row_file values) (row_time values)
                    (row_recurrence values) status :: rows2)
  ∧ length (tasks_tree (update_task_status basename t status st))
    = length (tasks_tree st)
  ∧ same_but_rows (update_task_status basename t status st) st.
Proof.
  split; [|split; [|split]].
  - intros Hnone. unfold update_task_status.
    rewrite set_first_status_none by exact Hnone. by destruct st.
  - intros rows1 values rows2 Hrows Hbefore Hmatch.
    unfold update_task_status. cbn [tasks_tree]. rewrite Hrows.
    by apply set_first_status_first.
  - apply set_first_status_length.
  - by repeat split.
Qed.

(** *** One pass of a monitor *)

Lemma same_but_rows_refl (st : scheduler) : same_but_rows st st.
Proof. by repeat split. Qed.

Lemma same_but_rows_trans (a b c : scheduler) :
  same_but_rows a b → same_but_rows b c → same_but_rows a c.
Proof. intros (?&?&?) (?&?&?). repeat split; congruence. Qed.

Lemma same_but_rows_update (t : task) (status : string) (a b : scheduler) :
  same_but_rows a b →
  same_but_rows (update_task_status basename t status a) b.
Proof. intros (?&?&?). by repeat split. Qed.

Lemma same_but_rows_update_r (t : task) (status : string) (a b : scheduler) :
  same_but_rows a b →
  same_but_rows a (update_task_status basename t status b).
Proof. intros (?&?&?). by repeat split. Qed.

Lemma same_but_rows_emit (e : sched_event) (a b : scheduler) :
  same_but_rows a b → same_but_rows (sched_emit e a) (sched_emit e b).
Proof. intros (?&?&?). repeat split; cbn; congruence. Qed.

Lemma same_but_rows_wait (d now : datetime) (a b : scheduler) :
  same_but_rows a b → same_but_rows (wait_until d now a) (wait_until d now b).
Proof.
  intros Hab. unfold wait_until.
  destruct (Qltb 0 _); [by apply same_but_rows_emit | exact Hab].
Qed.

Lemma same_but_rows_play_on (robot_id : string) (a b : scheduler) :
  same_but_rows a b →
  match play_on robot_id a, play_on robot_id b with
  | Some a', Some b' => same_but_rows a' b'
  | None, None => True
  | _, _ => False
  end.
Proof.
  intros (H1 & H2 & H3). unfold play_on.
  destruct (String.eqb robot_id "Robot 1").
  { unfold play_robot1, same_but_rows. cbn [robot1 robot2 sched_effects].
    by rewrite H1, H2, H3. }
  destruct (String.eqb robot_id "Robot 2"); [|exact I].
  unfold play_robot2, same_but_rows. cbn [robot1 robot2 sched_effects].
  by rewrite H1, H2, H3.
Qed.

(** X17. What a monitor does to the robots and to the scheduler's trace,
    and whether it returns, does not depend on the rows of the tree: the
    tree is only written.  The monitor of a task whose row was deleted
    still waits, opens the mission file and plays the mission. *)
Theorem monitor_task_ignores_rows (fuel iteration : nat) (t : task)
    (st st' : scheduler) :
  same_but_rows st st' →
  same_but_rows (fst (monitor_task strptime basename clock fs fuel iteration t st))
                (fst (monitor_task strptime basename clock fs fuel iteration t st'))
  ∧ snd (monitor_task strptime basename clock fs fuel iteration t st)
    = snd (monitor_task strptime basename clock fs fuel iteration t st').
Proof.
  revert iteration st st'.
  induction fuel as [|fuel IH]; intros iteration st st' Hsame; [by split|].
  cbn [monitor_task].
  destruct (strptime (t_scheduled_time t)) as [scheduled_time|].
  2:{ split; [|reflexivity]. cbn [fst].
      by apply same_but_rows_update, same_but_rows_update_r. }
  destruct (next_trigger _ _ _) as [scheduled_datetime|].
  2:{ split; [|reflexivity]. cbn [fst].
      by apply same_but_rows_update, same_but_rows_update_r. }
  set (a := sched_emit _ (update_task_status _ _ _ (wait_until _ _ st))).
  set (b := sched_emit _ (update_task_status _ _ _ (wait_until _ _ st'))).
  assert (Hab : same_but_rows a b).
  { apply same_but_rows_emit, same_but_rows_update, same_but_rows_update_r.
    by apply same_but_rows_wait. }
  destruct (read_mission_name fs (t_mission_file t)).
  2:{ split; [|reflexivity]. cbn [fst].
      by apply same_but_rows_update, same_but_rows_update_r. }
  pose proof (same_but_rows_play_on (t_robot t) a b Hab) as Hplay.
  destruct (play_on (t_robot t) a) as [a'|], (play_on (t_robot t) b) as [b'|];
    try contradiction.
  2:{ split; [|reflexivity]. cbn [fst].
      by apply same_but_rows_update, same_but_rows_update_r. }
  destruct (String.eqb (t_recurrence t) "Once").
  { split; [|reflexivity]. cbn [fst].
    by apply same_but_rows_update, same_but_rows_update_r. }
  apply IH.
  destruct (_ || _);
    repeat first [apply same_but_rows_update | apply same_but_rows_update_r];
    exact Hplay.
Qed.

Lemma shown_status_after_update (t : task) (status : string) (st : scheduler) :
  shown_status basename t (update_task_status basename t status st)
  = (λ _, status) <$> shown_status basename t st.
Proof.
  destruct (shown_status basename t st) as [s|] eqn:Hshown.
  - rewrite shown_status_update by (rewrite Hshown; eauto). reflexivity.
  - unfold update_task_status, shown_status in *. cbn [tasks_tree].
    rewrite set_first_status_none; [by rewrite Hshown|].
    destruct (filter _ (tasks_tree st)) as [|v rest] eqn:Hfilter;
      [|discriminate].
    apply Forall_forall. intros v Hv.
    destruct (row_matches basename t v) eqn:Hmatch; [|reflexivity].
    assert (Hin : v ∈ filter (λ values, row_matches basename t values = true)
                       (tasks_tree st))
      by (apply list_elem_of_filter; split; [exact Hmatch|];
          by apply list_elem_of_In).
    rewrite Hfilter in Hin. by apply elem_of_nil in Hin.
Qed.

Lemma play_mission_specific_keeps (times : Z) (r : robot) :
  missions (fst (play_mission_specific times r)) = missions r
  ∧ selected_mission (fst (play_mission_specific times r)) = selected_mission r
  ∧ current_position (fst (play_mission_specific times r)) = current_position r.
Proof.
  unfold play_mission_specific. erewrite bind_ok by reflexivity.
  destruct (no_mission_selected r); destruct r; run_effects; by repeat split.
Qed.

Lemma play_mission_specific_run (times : Z) (r : robot) :
  no_mission_selected r = false →
  active_runs (fst (play_mission_specific times r))
  = active_runs r ++ [RunHandle (threads_started r) times].
Proof.
  intros Hsel. unfold play_mission_specific. erewrite bind_ok by reflexivity.
  rewrite Hsel. destruct r. run_effects. reflexivity.
Qed.

Lemma next_trigger_today (now : datetime) (scheduled_time : time)
    (recurrence : string) :
  dt_micros now ≤ time_micros scheduled_time →
  next_trigger now scheduled_time recurrence
  = Some (combine (dt_date now) scheduled_time).
Proof.
  intros Hnot. unfold next_trigger, dt_ltb, combine. cbn [dt_date dt_micros].
  rewrite Z.ltb_irrefl, Z.eqb_refl. cbn [orb andb].
  by replace (time_micros scheduled_time <? dt_micros now) with false by lia.
Qed.

(** X15. A task to be run once on the first robot, whose time of day has
    not passed and whose mission file has a readable header: the monitor
    waits, sets "Running", opens the file, calls [play_mission_specific(1)]
    on the robot, sets "Completed" and returns.  Nothing of the file goes
    into the robot: its missions and its selection are as they were, so
    what runs is the mission selected on the robot.  The status is set
    to "Completed" as soon as the run thread is started: with a mission
    selected, the new run is among the active ones when the monitor
    returns. *)
Theorem monitor_once_plays (fuel iteration : nat) (t : task) (st : scheduler)
    (scheduled_time : time) (mission_name : value) :
  t_recurrence t = "Once" →
  t_robot t = "Robot 1" →
  strptime (t_scheduled_time t) = Some scheduled_time →
  dt_micros (clock iteration) ≤ time_micros scheduled_time →
  read_mission_name fs (t_mission_file t) = Some mission_name →
  let now := clock iteration in
  let waited := wait_until (combine (dt_date now) scheduled_time) now st in
  let res := monitor_task strptime basename clock fs (S fuel) iteration t st in
  res = (update_task_status basename t "Completed"
           (play_robot1
              (sched_emit (SOpen (t_mission_file t))
                 (update_task_status basename t "Running" waited))),
         MonitorReturned)
  ∧ sched_effects (fst res)
    = sched_effects waited ++ [SOpen (t_mission_file t); SPlay "Robot 1"]
  ∧ robot1 (fst res) = fst (play_mission_specific 1 (robot1 st))
  ∧ missions (robot1 (fst res)) = missions (robot1 st)
  ∧ selected_mission (robot1 (fst res)) = selected_mission (robot1 st)
  ∧ robot2 (fst res) = robot2 st
  ∧ (no_mission_selected (robot1 st) = false →
     active_runs (robot1 (fst res))
     = active_runs (robot1 st) ++ [RunHandle (threads_started (robot1 st)) 1])
  ∧ (is_Some (shown_status basename t st) →
     shown_status basename t (fst res) = Some "Completed").
Proof.
  intros Honce Hrobot Htime Hnot Hname now waited res.
  assert (Hres : res = (update_task_status basename t "Completed"
                          (play_robot1
                             (sched_emit (SOpen (t_mission_file t))
                                (update_task_status basename t "Running" waited))),
                        MonitorReturned)).
  { subst res. cbn [monitor_task]. rewrite Htime.
    rewrite (next_trigger_today _ _ _ Hnot), Hname.
    unfold play_on. rewrite Hrobot, Honce. reflexivity. }
  assert (Hwaited : robot1 waited = robot1 st ∧ robot2 waited = robot2 st
                    ∧ tasks_tree waited = tasks_tree st).
  { subst waited. unfold wait_until. by destruct (Qltb 0 _). }
  destruct Hwaited as (Hw1 & Hw2 & Hw3).
  assert (Hshow : is_Some (shown_status basename t st) →
                  shown_status basename t (fst res) = Some "Completed").
  { intros Hshown. rewrite Hres. cbn [fst].
    rewrite shown_status_after_update.
    replace (shown_status basename t (play_robot1 _))
      with (shown_status basename t
              (update_task_status basename t "Running" waited))
      by reflexivity.
    rewrite shown_status_after_update.
    replace (shown_status basename t waited) with (shown_status basename t st)
      by (unfold shown_status; by rewrite Hw3).
    by destruct Hshown as [s ->]. }
  destruct (play_mission_specific_keeps 1 (robot1 st)) as (Hm & Hs & _).
  split; [exact Hres|].
  rewrite Hres. cbn [fst update_task_status play_robot1 sched_emit robot1 robot2
                     sched_effects tasks_tree].
  rewrite Hw1, Hw2.
  split; [by rewrite <- app_assoc|].
  split; [reflexivity|].
  split; [exact Hm|]. split; [exact Hs|]. split; [reflexivity|].
  split; [apply play_mission_specific_run|].
  rewrite Hres in Hshow. exact Hshow.
Qed.

Lemma plays_emit (e : sched_event) (st' st : scheduler) :
  sched_effects st' = sched_effects st ++ [e] →
  plays st' = (plays st + if is_play e then 1 else 0)%nat.
Proof.
  intros Heff. unfold plays. rewrite Heff, list.filter_app, length_app.
  destruct e; reflexivity.
Qed.

(** X16. The monitor of a daily or weekly task on one of the two robots,
    with a time that [strptime] reads and a mission file whose header is
    readable, never returns: every pass through its loop ends with a
    call of [play_mission_specific(1)] and the next pass follows, so after
    [n] passes it has played [n] times. *)
Theorem monitor_recurring_never_returns (fuel iteration : nat) (t : task)
    (st : scheduler) (scheduled_time : time) (mission_name : value) :
  t_recurrence t = "Daily" ∨ t_recurrence t = "Weekly" →
  t_robot t = "Robot 1" ∨ t_robot t = "Robot 2" →
  strptime (t_scheduled_time t) = Some scheduled_time →
  read_mission_name fs (t_mission_file t) = Some mission_name →
  snd (monitor_task strptime basename clock fs fuel iteration t st)
  = MonitorLooping
  ∧ plays (fst (monitor_task strptime basename clock fs fuel iteration t st))
    = (plays st + fuel)%nat.
Proof.
  intros Hrec Hrobot Htime Hname. revert iteration st.
  induction fuel as [|fuel IH]; intros iteration st.
  { split; [reflexivity | cbn; lia]. }
  cbn [monitor_task]. rewrite Htime.
  assert (Htrigger : ∃ d, next_trigger (clock iteration) scheduled_time
                            (t_recurrence t) = Some d).
  { unfold next_trigger. destruct (dt_ltb _ _); [|eauto].
    destruct Hrec as [-> | ->]; cbn; eauto. }
  destruct Htrigger as [d ->]. rewrite Hname.
  assert (Honce : String.eqb (t_recurrence t) "Once" = false)
    by (destruct Hrec as [-> | ->]; reflexivity).
  assert (Hagain : String.eqb (t_recurrence t) "Daily"
                   || String.eqb (t_recurrence t) "Weekly" = true)
    by (destruct Hrec as [-> | ->]; reflexivity).
  set (running := sched_emit _ (update_task_status _ _ _ (wait_until _ _ st))).
  assert (Hplays : ∃ st1, play_on (t_robot t) running = Some st1
                          ∧ plays st1 = S (plays st)).
  { assert (Hrun : plays running = plays st).
    { subst running.
      rewrite (plays_emit (SOpen (t_mission_file t)) _
                 (wait_until d (clock iteration) st)) by reflexivity.
      unfold wait_until. destruct (Qltb 0 _); [|cbn; lia].
      rewrite (plays_emit (SSleep (total_seconds d (clock iteration))) _ st)
        by reflexivity.
      cbn. lia. }
    unfold play_on.
    destruct Hrobot as [-> | ->]; cbn [String.eqb Ascii.eqb Bool.eqb andb];
      eexists; (split; [reflexivity|]); rewrite <- Hrun;
      [rewrite (plays_emit (SPlay "Robot 1") (play_robot1 running) running)
         by reflexivity
      |rewrite (plays_emit (SPlay "Robot 2") (play_robot2 running) running)
         by reflexivity];
      cbn [is_play]; lia. }
  destruct Hplays as (st1 & -> & Hst1).
  rewrite Honce, Hagain.
  destruct (IH (S iteration)
              (update_task_status basename t "Pending"
                 (update_task_status basename t "Completed" st1))) as [Hexit Hn].
  split; [exact Hexit|]. rewrite Hn.
  replace (plays (update_task_status basename t "Pending"
                    (update_task_status basename t "Completed" st1)))
    with (plays st1) by reflexivity.
  lia.
Qed.

(** The status that the tree shows for a task whose time [strptime]
    reads is never set to "Invalid Time Format" by its monitor. *)
Lemma monitor_task_status_valid_time (fuel iteration : nat) (t : task)
    (st : scheduler) (scheduled_time : time) :
  strptime (t_scheduled_time t) = Some scheduled_time →
  shown_status basename t st ≠ Some "Invalid Time Format" →
  shown_status basename t
    (fst (monitor_task strptime basename clock fs fuel iteration t st))
  ≠ Some "Invalid Time Format".
Proof.
  intros Htime. revert iteration st.
  assert (Hset : ∀ status st, status ≠ "Invalid Time Format" →
            shown_status basename t (update_task_status basename t status st)
            ≠ Some "Invalid Time Format").
  { intros status st Hstatus. rewrite shown_status_after_update.
    destruct (shown_status basename t st); cbn; congruence. }
  induction fuel as [|fuel IH]; intros iteration st Hst; [exact Hst|].
  cbn [monitor_task]. rewrite Htime.
  destruct (next_trigger _ _ _) as [d|]; [|by apply Hset].
  destruct (read_mission_name _ _); [|by apply Hset].
  destruct (play_on _ _) as [st1|]; [|by apply Hset].
  destruct (String.eqb (t_recurrence t) "Once"); [by apply Hset|].
  apply IH. destruct (_ || _); by apply Hset.
Qed.

(** *** Adding and deleting a task *)

(** How [add_to_schedule] ends. *)
Lemma add_to_schedule_cases (sf : scheduler_frame) :
  let f := sched_form sf in
  let path := mission_path_var f in
  let scheduled_time_str :=
    hour_var f +:+ ":" +:+ minute_var f +:+ ":" +:+ second_var f +:+ " "
    +:+ am_pm_var f in
  let task := Task (robot_var f) path scheduled_time_str (recurrence_var f)
                "Pending" in
  let sf' := add_to_schedule strptime basename fs sf in
  if bool_decide (path ≠ "" ∧ is_Some (fs !! path)
                  ∧ is_Some (strptime scheduled_time_str))
  then
    ∃ values,
      tasks_tree (sched sf') = tasks_tree (sched sf) ++ [values]
      ∧ row_matches basename task values = true
      ∧ row_status values = "Pending"
      ∧ scheduled_tasks sf' = scheduled_tasks sf ++ [task]
      ∧ monitor_threads sf' = monitor_threads sf ++ [task]
      ∧ message_boxes sf' = message_boxes sf
      ∧ mission_path_var (sched_form sf') = ""
      ∧ same_but_rows (sched sf') (sched sf)
      ∧ is_Some (strptime (t_scheduled_time task))
  else
    ∃ message,
      sf' = show_message (ShowError message) sf.
Proof.
  intros f path scheduled_time_str task sf'. subst sf'.
  unfold add_to_schedule, isfile. fold f. fold path. fold scheduled_time_str.
  case_bool_decide as Hok.
  - destruct Hok as (Hpath & Hfile & Htime).
    apply String.eqb_neq in Hpath. rewrite Hpath.
    rewrite bool_decide_eq_true_2 by exact Hfile. cbn [negb orb].
    destruct (strptime scheduled_time_str) as [tm|] eqn:Hparse;
      [|by apply is_Some_None in Htime].
    eexists. cbn [sched tasks_tree scheduled_tasks monitor_threads message_boxes
                  sched_form mission_path_var].
    split; [reflexivity|].
    split.
    { unfold row_matches. cbn [row_robot row_file row_time row_recurrence
        t_robot t_mission_file t_scheduled_time t_recurrence task].
      by rewrite !String.eqb_refl. }
    repeat (split; [reflexivity|]).
    split; [by repeat split|].
    cbn [task t_scheduled_time]. rewrite Hparse. eauto.
  - destruct (String.eqb path "") eqn:Hpath; [eauto|].
    destruct (bool_decide (is_Some (fs !! path))) eqn:Hfile; cbn [negb orb];
      [|eauto].
    destruct (strptime scheduled_time_str) as [tm|] eqn:Hparse; [|eauto].
    exfalso. apply Hok. apply String.eqb_neq in Hpath.
    apply bool_decide_eq_true in Hfile. rewrite ?Hparse. eauto.
Qed.

(** X18. [add_to_schedule] refuses a form whose mission file does not
    exist or whose time [strptime] does not read, with a message box and
    nothing else.  Otherwise it appends one row and one task with the
    status "Pending", starts one monitor for the task and clears the form;
    the row is one that [update_task_status] finds for the task, and the
    monitor of the task does not end on "Invalid Time Format". *)
Theorem add_to_schedule_accepts (sf : scheduler_frame) :
  let f := sched_form sf in
  let path := mission_path_var f in
  let scheduled_time_str :=
    hour_var f +:+ ":" +:+ minute_var f +:+ ":" +:+ second_var f +:+ " "
    +:+ am_pm_var f in
  let task := Task (robot_var f) path scheduled_time_str (recurrence_var f)
                "Pending" in
  let sf' := add_to_schedule strptime basename fs sf in
  (path = "" ∨ fs !! path = None ∨ strptime scheduled_time_str = None →
   ∃ message, sf' = show_message (ShowError message) sf)
  ∧ (path ≠ "" → is_Some (fs !! path) → is_Some (strptime scheduled_time_str) →
     ∃ values,
       tasks_tree (sched sf') = tasks_tree (sched sf) ++ [values]
       ∧ row_matches basename task values = true
       ∧ row_status values = "Pending"
       ∧ scheduled_tasks sf' = scheduled_tasks sf ++ [task]
       ∧ monitor_threads sf' = monitor_threads sf ++ [task]
       ∧ message_boxes sf' = message_boxes sf
       ∧ mission_path_var (sched_form sf') = ""
       ∧ same_but_rows (sched sf') (sched sf)
       ∧ is_Some (shown_status basename task (sched sf'))
       ∧ ∀ fuel iteration st,
           shown_status basename task st ≠ Some "Invalid Time Format" →
           shown_status basename task
             (fst (monitor_task strptime basename clock fs fuel iteration task st))
           ≠ Some "Invalid Time Format").
Proof.
  intros f path scheduled_time_str task sf'.
  pose proof (add_to_schedule_cases sf) as Hadd. cbv zeta in Hadd.
  fold f path scheduled_time_str task sf' in Hadd.
  split.
  - intros Hbad. case_bool_decide as Hok; [|exact Hadd].
    destruct Hok as (Hpath & Hfile & Htime).
    destruct Hbad as [Hbad|[Hbad|Hbad]]; [contradiction | |].
    + rewrite Hbad in Hfile. by apply is_Some_None in Hfile.
    + rewrite Hbad in Htime. by apply is_Some_None in Htime.
  - intros Hpath Hfile Htime.
    rewrite bool_decide_eq_true_2 in Hadd by auto.
    destruct Hadd as (values & H1 & H2 & H3 & H4 & H5 & H6 & H7 & H8 & H9).
    exists values. repeat (split; [assumption|]).
    split.
    { unfold shown_status. rewrite H1, list.filter_app.
      rewrite (filter_cons_True _ values []) by exact H2.
      destruct (filter _ (tasks_tree (sched sf))); cbn; eauto. }
    intros fuel iteration st. destruct H9 as [tm Htm].
    by apply (monitor_task_status_valid_time _ _ _ _ tm).
Qed.

Lemma remove_first_last {A} (p : A → bool) (l : list A) (x : A) :
  Forall (λ y, p y = false) l → p x = true → remove_first p (l ++ [x]) = l.
Proof.
  intros Hl Hx. induction Hl as [|y rest Hy _ IH]; cbn [app remove_first].
  - by rewrite Hx.
  - rewrite Hy. by rewrite IH.
Qed.

(** X19. A task that was added and whose row is then deleted, when no
    earlier task of the list shows in the same way: the tree and the list
    [scheduled_tasks] are again as they were before the task was added,
    but the monitor thread that was started for the task is still there.
    Once that monitor has set the row to "Running", the row is not
    deleted. *)
Theorem add_then_delete_keeps_monitor (sf : scheduler_frame) :
  let f := sched_form sf in
  let path := mission_path_var f in
  let scheduled_time_str :=
    hour_var f +:+ ":" +:+ minute_var f +:+ ":" +:+ second_var f +:+ " "
    +:+ am_pm_var f in
  let task := Task (robot_var f) path scheduled_time_str (recurrence_var f)
                "Pending" in
  let values := Row (robot_var f) (basename path) scheduled_time_str
                  (recurrence_var f) "Pending" in
  path ≠ "" →
  is_Some (fs !! path) →
  is_Some (strptime scheduled_time_str) →
  Forall (λ t, task_of_row basename values t = false) (scheduled_tasks sf) →
  Forall (λ v, row_matches basename task v = false) (tasks_tree (sched sf)) →
  let added := add_to_schedule strptime basename fs sf in
  let i := length (tasks_tree (sched sf)) in
  let sf' := delete_selected_task basename (Some i) added in
  let running :=
    SchedulerFrame (update_task_status basename task "Running" (sched added))
      (sched_form added) (scheduled_tasks added) (monitor_threads added)
      (message_boxes added) in
  tasks_tree (sched sf') = tasks_tree (sched sf)
  ∧ scheduled_tasks sf' = scheduled_tasks sf
  ∧ monitor_threads sf' = monitor_threads sf ++ [task]
  ∧ message_boxes sf' = message_boxes sf
  ∧ delete_selected_task basename (Some i) running
    = show_message (ShowError "Cannot delete a running task.") running.
Proof.
  intros f path scheduled_time_str task values Hpath Hfile Htime Hnone Hrows
    added i sf' running.
  assert (Hadded : added
    = SchedulerFrame
        (Scheduler (tasks_tree (sched sf) ++ [values]) (robot1 (sched sf))
           (robot2 (sched sf)) (sched_effects (sched sf)))
        (ScheduleForm (robot_var f) "" "12" "00" "00" "AM" "Once")
        (scheduled_tasks sf ++ [task]) (monitor_threads sf ++ [task])
        (message_boxes sf)).
  { subst added. unfold add_to_schedule, isfile.
    fold f. fold path. fold scheduled_time_str.
    apply String.eqb_neq in Hpath. rewrite Hpath.
    rewrite bool_decide_eq_true_2 by exact Hfile. cbn [negb orb].
    destruct Htime as [tm ->]. reflexivity. }
  assert (Hmatch : row_matches basename task values = true).
  { unfold row_matches. cbn. by rewrite !String.eqb_refl. }
  assert (Htask : task_of_row basename values task = true).
  { unfold task_of_row. cbn. by rewrite !String.eqb_refl. }
  assert (Hsf' : sf'
    = SchedulerFrame
        (Scheduler (tasks_tree (sched sf)) (robot1 (sched sf))
           (robot2 (sched sf)) (sched_effects (sched sf)))
        (ScheduleForm (robot_var f) "" "12" "00" "00" "AM" "Once")
        (scheduled_tasks sf) (monitor_threads sf ++ [task]) (message_boxes sf)).
  { subst sf'. rewrite Hadded. unfold delete_selected_task.
    cbn [sched tasks_tree]. subst i.
    rewrite lookup_app_r, Nat.sub_diag by lia. cbn [lookup list_lookup].
    replace (String.eqb (row_status values) "Running") with false by reflexivity.
    cbn [sched tasks_tree robot1 robot2 sched_effects sched_form scheduled_tasks
         monitor_threads message_boxes].
    rewrite delete_middle, app_nil_r.
    by rewrite (remove_first_last _ _ _ Hnone Htask). }
  rewrite Hsf'. repeat (split; [reflexivity|]).
  subst running. rewrite Hadded. unfold delete_selected_task, update_task_status.
  cbn [sched tasks_tree]. rewrite (set_first_status_first _ _ _ _ _ Hrows Hmatch).
  subst i. rewrite lookup_app_r, Nat.sub_diag by lia. reflexivity.
Qed.

End ScheduleFacts.

Lemma monitor_once_plays_witness :
  snd (monitor_task (H:=numeral_codec) strptime_12h (λ s, s) ten_o_clock
         (demo_file (H:=numeral_codec)) 1 0 morning_task
         (sample_scheduler morning_task))
  = MonitorReturned
  ∧ missions (robot1 (fst (monitor_task (H:=numeral_codec) strptime_12h (λ s, s)
                             ten_o_clock (demo_file (H:=numeral_codec)) 1 0
                             morning_task (sample_scheduler morning_task))))
    = missions (robot1 (sample_scheduler morning_task))
  ∧ shown_status (λ s, s) morning_task
      (fst (monitor_task (H:=numeral_codec) strptime_12h (λ s, s) ten_o_clock
              (demo_file (H:=numeral_codec)) 1 0 morning_task
              (sample_scheduler morning_task)))
    = Some "Completed".
Proof.
  destruct (monitor_once_plays (H:=numeral_codec) strptime_12h (λ s, s)
              ten_o_clock (demo_file (H:=numeral_codec)) 0 0 morning_task
              (sample_scheduler morning_task) (Time 11 0 0) (VStr "demo")
              eq_refl eq_refl ltac:(vm_compute; reflexivity)
              ltac:(vm_compute; discriminate)
              ltac:(apply (read_mission_name_saved (H:=numeral_codec) _ _
                             sample_mission), lookup_singleton_eq))
    as (Hres & _ & _ & Hm & _ & _ & _ & Hshown).
  split; [by rewrite Hres|]. split; [exact Hm|].
  apply Hshown. vm_compute. eauto.
Defined.

Lemma monitor_recurring_never_returns_witness :
  snd (monitor_task (H:=numeral_codec) strptime_12h (λ s, s) ten_o_clock
         (demo_file (H:=numeral_codec)) 3 0 daily_task
         (sample_scheduler daily_task))
  = MonitorLooping
  ∧ plays (fst (monitor_task (H:=numeral_codec) strptime_12h (λ s, s) ten_o_clock
                  (demo_file (H:=numeral_codec)) 3 0 daily_task
                  (sample_scheduler daily_task)))
    = 3%nat.
Proof.
  apply (monitor_recurring_never_returns (H:=numeral_codec) strptime_12h (λ s, s)
           ten_o_clock (demo_file (H:=numeral_codec)) 3 0 daily_task
           (sample_scheduler daily_task) (Time 11 0 0) (VStr "demo")).
  - left. reflexivity.
  - left. reflexivity.
  - vm_compute. reflexivity.
  - apply (read_mission_name_saved (H:=numeral_codec) _ _ sample_mission),
      lookup_singleton_eq.
Defined.

Lemma add_then_delete_keeps_monitor_witness :
  tasks_tree (sched (delete_selected_task (λ s, s) (Some 0%nat)
                       (add_to_schedule strptime_12h (λ s, s)
                          (demo_file (H:=numeral_codec)) sample_scheduler_frame)))
  = []
  ∧ scheduled_tasks (delete_selected_task (λ s, s) (Some 0%nat)
                       (add_to_schedule strptime_12h (λ s, s)
                          (demo_file (H:=numeral_codec)) sample_scheduler_frame))
    = []
  ∧ monitor_threads (delete_selected_task (λ s, s) (Some 0%nat)
                       (add_to_schedule strptime_12h (λ s, s)
                          (demo_file (H:=numeral_codec)) sample_scheduler_frame))
    = [morning_task].
Proof.
  destruct (add_then_delete_keeps_monitor strptime_12h (λ s, s)
              (demo_file (H:=numeral_codec)) sample_scheduler_frame
              ltac:(discriminate)
              ltac:(unfold demo_file; rewrite lookup_singleton_eq; eauto)
              ltac:(vm_compute; eauto)
              ltac:(constructor) ltac:(constructor))
    as (Htree & Htasks & Hthreads & _).
  split; [exact Htree|]. split; [exact Htasks | exact Hthreads].
Defined.

Lemma monitor_task_ignores_rows_witness :
  snd (monitor_task (H:=numeral_codec) strptime_12h (λ s, s) ten_o_clock
         (demo_file (H:=numeral_codec)) 2 0 daily_task
         (sample_scheduler daily_task))
  = snd (monitor_task (H:=numeral_codec) strptime_12h (λ s, s) ten_o_clock
           (demo_file (H:=numeral_codec)) 2 0 daily_task
           (Scheduler [] (init_robot_frame "Robot 1") (init_robot_frame "Robot 2")
              [])).
Proof.
  apply (monitor_task_ignores_rows (H:=numeral_codec) strptime_12h (λ s, s)
           ten_o_clock (demo_file (H:=numeral_codec)) 2 0 daily_task
           (sample_scheduler daily_task)
           (Scheduler [] (init_robot_frame "Robot 1") (init_robot_frame "Robot 2")
              [])).
  repeat split.
Defined.

(** ** Dropping a dragged step *)


Lemma set_selected_steps_ok (r : robot) (name : value) (m : mission)
    (steps : list json) :
  selected_mission r = Some name →
  missions r !! name = Some m →
  set_selected_steps steps r
  = (set_missions (<[name := Mission (m_name m) (m_intro m) steps]> (missions r)) r,
     Ok tt).
Proof.
  intros Hsel Hm. unfold set_selected_steps.
  erewrite bind_ok by reflexivity. rewrite Hsel, Hm. reflexivity.
Qed.







(** ** Telemetry that is not a number *)

Lemma handle_serial_data_telemetry (d : dict) (r : robot) :
  py_eq_int (d !! "T") 1051 = true →
  handle_serial_data (JObj d) r
  = (set_effects
       (effects r ++
        [EAcquire;
         EPoseWrite "x" (px (telemetry_pose d (current_position r)));
         EPoseWrite "y" (py (telemetry_pose d (current_position r)));
         EPoseWrite "z" (pz (telemetry_pose d (current_position r)));
         EPoseWrite "t" (pt (telemetry_pose d (current_position r)));
         EGui (GStatus MsgPositionUpdated); ERelease])
       (set_current_position (telemetry_pose d (current_position r)) r),
     Ok tt).
Proof.
  intros HT. unfold handle_serial_data.
  erewrite bind_ok by reflexivity. rewrite HT.
  destruct r as [? [x y z t] ? ? ? ? ? ? ? ? ? ? ? ? ? ? ?].
  unfold telemetry_pose. run_effects. reflexivity.
Qed.

(** X22. A telemetry frame is stored as it comes: a reading of x, y or z
    that is not a number (null, a string) becomes the robot's pose.  From
    then on a movement step with numeric targets cannot be executed: the
    distance cannot be computed, [execute_step] raises [TypeError] before
    it sends or queues anything, and the state stays as the frame left
    it. *)
Theorem telemetry_without_number_stops_moves (d step : dict) (r : robot)
    (axis : string) (v : value) (tx ty tz : Q) :
  py_eq_int (d !! "T") 1051 = true →
  axis = "x" ∨ axis = "y" ∨ axis = "z" →
  d !! axis = Some v →
  to_num v = None →
  py_eq_int (step !! "T") 104 = true →
  (step !! "x") ≫= to_num = Some tx →
  (step !! "y") ≫= to_num = Some ty →
  (step !! "z") ≫= to_num = Some tz →
  let r1 := fst (handle_serial_data (JObj d) r) in
  pose_get axis (current_position r1) = Some v
  ∧ execute_step (JObj step) r1 = (r1, Raise TypeError).
Proof.
  intros HT Haxis Hv Hnum Hstep Hx Hy Hz r1. subst r1.
  rewrite handle_serial_data_telemetry by exact HT. cbn [fst].
  set (r1 := set_effects _ _).
  assert (Hpose : current_position r1 = telemetry_pose d (current_position r))
    by reflexivity.
  split.
  { rewrite Hpose. unfold telemetry_pose.
    destruct Haxis as [-> | [-> | ->]]; cbn; by rewrite Hv. }
  assert (Hbad : to_num (px (current_position r1)) = None
                 ∨ to_num (py (current_position r1)) = None
                 ∨ to_num (pz (current_position r1)) = None).
  { rewrite Hpose. unfold telemetry_pose.
    destruct Haxis as [-> | [-> | ->]]; cbn [px py pz]; rewrite Hv; cbn; auto. }
  destruct (subscript_T step 104 Hstep) as [vT HvT]. rewrite HvT in Hstep.
  destruct (step !! "x") as [sx|] eqn:Hsx; [|discriminate].
  destruct (step !! "y") as [sy|] eqn:Hsy; [|discriminate].
  destruct (step !! "z") as [sz|] eqn:Hsz; [|discriminate].
  cbn [mbind option_bind] in Hx, Hy, Hz.
  unfold execute_step.
  erewrite bind_ok by (by apply subscript_ok).
  rewrite Hstep.
  erewrite bind_raise; [reflexivity|].
  unfold movement_tc. erewrite bind_ok by reflexivity.
  erewrite bind_ok by (by apply subscript_ok).
  unfold number at 1.
  destruct (to_num (px (current_position r1))) as [cx|] eqn:Hcx; [|reflexivity].
  erewrite bind_ok by reflexivity.
  erewrite bind_ok by (unfold number; rewrite Hx; reflexivity).
  erewrite bind_ok by (by apply subscript_ok).
  unfold number at 1.
  destruct (to_num (py (current_position r1))) as [cy|] eqn:Hcy; [|reflexivity].
  erewrite bind_ok by reflexivity.
  erewrite bind_ok by (unfold number; rewrite Hy; reflexivity).
  erewrite bind_ok by (by apply subscript_ok).
  unfold number at 1.
  destruct (to_num (pz (current_position r1))) as [cz|] eqn:Hcz; [|reflexivity].
  destruct Hbad as [?|[?|?]]; congruence.
Qed.

Lemma telemetry_without_number_stops_moves_witness :
  pose_get "x" (current_position
                  (fst (handle_serial_data (JObj sample_null_frame) sample_robot)))
  = Some VNone
  ∧ execute_step sample_move
      (fst (handle_serial_data (JObj sample_null_frame) sample_robot))
    = (fst (handle_serial_data (JObj sample_null_frame) sample_robot),
       Raise TypeError).
Proof.
  apply (telemetry_without_number_stops_moves sample_null_frame
           sample_move_fields sample_robot "x" VNone 0 0 0);
    [reflexivity | left; reflexivity | reflexivity | reflexivity | reflexivity
    | reflexivity | reflexivity | reflexivity].
Defined.

(** ** The panel *)

Ltac run_panel :=
  cbv beta iota zeta delta
    [pbind pret on_frame notify frame notices
     bind ret raise emit modify get_self try_except lift_or with_movement_lock
     write_axis update_status_bar update_progress_bar show_error queue_gui_update
     send_command_in_thread set_effects set_current_position set_missions
     set_selected_mission set_dragging set_mission_execution set_default_spd
     fst snd
     robot_name current_position default_spd default_acc missions
     selected_mission mission_execution_thread mission_execution_stop_event
     active_runs threads_started dragging_item dragging_start_index
     speed_scale distance_scale base_delay max_delay effects
     px py pz pt String.eqb Ascii.eqb Bool.eqb andb];
  rewrite <- ?app_assoc; cbn [app].

Lemma pbind_ok {A B} (c : P A) (k : A → P B) (s s' : panel) (a : A) :
  c s = (s', Ok a) → pbind c k s = k a s'.
Proof. intros Hc. unfold pbind. by rewrite Hc. Qed.

Lemma pbind_raise {A B} (c : P A) (k : A → P B) (s s' : panel) (e : exn) :
  c s = (s', Raise e) → pbind c k s = (s', Raise e).
Proof. intros Hc. unfold pbind. by rewrite Hc. Qed.

Lemma on_frame_eq {A} (c : M A) (s : panel) (r' : robot) (x : result A) :
  c (frame s) = (r', x) → on_frame c s = (Panel r' (notices s), x).
Proof. intros Hc. unfold on_frame. by rewrite Hc. Qed.

Lemma show_steps_Forall (steps : list json) :
  show_steps steps = Ok tt ↔ Forall displayable steps.
Proof.
  unfold displayable. induction steps as [|s rest IH]; cbn [show_steps].
  - split; [constructor | reflexivity].
  - destruct (step_details s) as [[]|e] eqn:Hs.
    + rewrite IH. split; [by constructor | by inversion 1].
    + split; [discriminate | inversion 1; congruence].
Qed.

Lemma show_steps_snoc (steps : list json) (s : json) :
  displayable s → show_steps (steps ++ [s]) = show_steps steps.
Proof.
  intros Hs. induction steps as [|s0 rest IH]; cbn [app show_steps].
  - by rewrite Hs.
  - destruct (step_details s0); [exact IH | reflexivity].
Qed.

Lemma append_step_ok (cmd : json) (r : robot) (name : value) (m : mission) :
  selected_mission r = Some name →
  missions r !! name = Some m →
  append_step cmd r
  = (set_missions
       (<[name := Mission (m_name m) (m_intro m) (m_steps m ++ [cmd])]>
          (missions r)) r,
     Ok tt).
Proof.
  intros Hsel Hm. unfold append_step.
  erewrite bind_ok by (by apply (selected_steps_ok r name m)).
  by apply set_selected_steps_ok.
Qed.

Lemma steps_of_set_missions (r : robot) (name : value) (m' : mission) :
  selected_mission r = Some name →
  steps_of (set_missions (<[name := m']> (missions r)) r) = Some (m_steps m').
Proof.
  intros Hsel. unfold steps_of. cbn [selected_mission missions set_missions].
  rewrite Hsel. cbn [mbind option_bind]. by rewrite lookup_insert_eq.
Qed.

Lemma update_mission_steps_viewer_eq (r : robot) (steps : list json) :
  steps_of r = Some steps →
  update_mission_steps_viewer r = (r, show_steps steps).
Proof. intros Hsteps. unfold update_mission_steps_viewer. by rewrite Hsteps. Qed.

(** *** The device buttons *)

Lemma send_and_record_unselected (cmd : json) (status : notice) (s : panel) :
  no_mission_selected (frame s) = true →
  send_and_record cmd status s
  = (Panel (set_effects (effects (frame s) ++ [ESend cmd]) (frame s))
       (notices s ++ [status]),
     Ok tt).
Proof.
  intros Hno. unfold send_and_record.
  erewrite pbind_ok by (apply on_frame_eq; reflexivity).
  erewrite pbind_ok by reflexivity.
  erewrite pbind_ok by (apply on_frame_eq; reflexivity).
  cbn [frame]. 
  replace (no_mission_selected (set_effects _ (frame s)))
    with (no_mission_selected (frame s)) by reflexivity.
  by rewrite Hno.
Qed.

Lemma send_and_record_selected (cmd : json) (status : notice) (s : panel)
    (name : value) (m : mission) :
  no_mission_selected (frame s) = false →
  selected_mission (frame s) = Some name →
  missions (frame s) !! name = Some m →
  displayable cmd →
  send_and_record cmd status s
  = (Panel
       (set_missions
          (<[name := Mission (m_name m) (m_intro m) (m_steps m ++ [cmd])]>
             (missions (frame s)))
          (set_effects (effects (frame s) ++ [ESend cmd]) (frame s)))
       (notices s ++ [status]),
     show_steps (m_steps m)).
Proof.
  intros Hno Hsel Hm Hcmd. unfold send_and_record.
  erewrite pbind_ok by (apply on_frame_eq; reflexivity).
  erewrite pbind_ok by reflexivity.
  erewrite pbind_ok by (apply on_frame_eq; reflexivity).
  cbn [frame notices].
  replace (no_mission_selected (set_effects _ (frame s)))
    with (no_mission_selected (frame s)) by reflexivity.
  rewrite Hno.
  erewrite pbind_ok
    by (apply on_frame_eq; cbn [frame];
        apply (append_step_ok cmd _ name m); assumption).
  erewrite on_frame_eq.
  2:{ cbn [frame]. apply update_mission_steps_viewer_eq.
      by apply steps_of_set_missions. }
  cbn [notices m_steps]. by rewrite show_steps_snoc.
Qed.

Lemma execute_step_command (d : dict) (r : robot) :
  py_eq_int (d !! "T") 104 = false →
  py_eq_int (d !! "T") 111 = false →
  py_eq_int (d !! "T") 113 || py_eq_int (d !! "T") 114
  || py_eq_int (d !! "T") 210 || py_eq_int (d !! "T") 112 = true →
  execute_step (JObj d) r
  = (set_effects
       (effects r ++ [ESend (JObj d); EGui (GStatus MsgCommandExecuted)]) r,
     Ok tt).
Proof.
  intros H104 H111 Hcmd.
  assert (HT : ∃ vT, d !! "T" = Some vT).
  { destruct (d !! "T"); [eauto | discriminate]. }
  destruct HT as [vT HvT]. rewrite HvT in *.
  unfold execute_step. erewrite bind_ok by (by apply subscript_ok).
  rewrite H104, H111, Hcmd. destruct r. run_effects. reflexivity.
Qed.

(** X23. Each of the seven device buttons sends its command and queues
    its status; with a mission selected it also appends the command, as
    it was sent, to the end of the mission's steps, and then refreshes
    the viewer, which raises only if an earlier step cannot be shown.
    The recorded step is one that the viewer shows and that
    [execute_step] sends again unchanged.  None of the buttons records a
    step of the kind "relay": the command of [relay_off] has both pwm
    fields and is a "suction" step. *)
Theorem device_buttons_record (button : P unit) (cmd : json) (status : notice)
    (s : panel) :
  (button, cmd, status) ∈ device_buttons →
  (no_mission_selected (frame s) = true →
   button s
   = (Panel (set_effects (effects (frame s) ++ [ESend cmd]) (frame s))
        (notices s ++ [status]),
      Ok tt))
  ∧ (∀ name m,
       no_mission_selected (frame s) = false →
       selected_mission (frame s) = Some name →
       missions (frame s) !! name = Some m →
       button s
       = (Panel
            (set_missions
               (<[name := Mission (m_name m) (m_intro m) (m_steps m ++ [cmd])]>
                  (missions (frame s)))
               (set_effects (effects (frame s) ++ [ESend cmd]) (frame s)))
            (notices s ++ [status]),
          show_steps (m_steps m)))
  ∧ displayable cmd
  ∧ (∀ r, execute_step cmd r
          = (set_effects
               (effects r ++ [ESend cmd; EGui (GStatus MsgCommandExecuted)]) r,
             Ok tt))
  ∧ ∃ d, cmd = JObj d ∧ get_step_type d ≠ "relay".
Proof.
  intros Hin.
  assert (Hbutton : button = send_and_record cmd status
                    ∧ displayable cmd
                    ∧ ∃ d, cmd = JObj d
                           ∧ get_step_type d ≠ "relay"
                           ∧ py_eq_int (d !! "T") 104 = false
                           ∧ py_eq_int (d !! "T") 111 = false
                           ∧ py_eq_int (d !! "T") 113 || py_eq_int (d !! "T") 114
                             || py_eq_int (d !! "T") 210
                             || py_eq_int (d !! "T") 112 = true).
  { unfold device_buttons in Hin.
    repeat (apply elem_of_cons in Hin as [Hin|Hin];
            [injection Hin as -> -> ->;
             split; [reflexivity|]; split; [reflexivity|];
             eexists; split; [reflexivity|];
             split; [vm_compute; discriminate | repeat split; reflexivity]|]).
    by apply elem_of_nil in Hin. }
  destruct Hbutton as (-> & Hshow & d & -> & Hrelay & H104 & H111 & Hcmd).
  split; [apply send_and_record_unselected|].
  split; [intros name m Hno Hsel Hm; by apply send_and_record_selected|].
  split; [exact Hshow|].
  split; [intros r; by apply execute_step_command|].
  by exists d.
Qed.

Lemma device_buttons_record_witness :
  relay_off sample_panel
  = (Panel
       (set_missions
          (<[VStr "demo" := Mission (VStr "demo") (VStr "Mission")
                              (m_steps sample_mission ++ [relay_off_cmd])]>
             (missions sample_robot))
          (set_effects (effects sample_robot ++ [ESend relay_off_cmd]) sample_robot))
       [StatusRelayOff],
     Ok tt)
  ∧ ∃ d, relay_off_cmd = JObj d ∧ get_step_type d ≠ "relay".
Proof.
  destruct (device_buttons_record relay_off relay_off_cmd StatusRelayOff
              sample_panel)
    as (_ & Hsel & _ & _ & Hkind).
  { unfold device_buttons. set_solver. }
  split; [|exact Hkind].
  apply (Hsel (VStr "demo") sample_mission); reflexivity.
Defined.

(** *** Recording the pose and replaying it *)










(** *** Delays *)





(** *** Duplicating and deleting *)

Lemma selected_steps_set_missions (r : robot) (name : value) (m' : mission) :
  selected_mission r = Some name →
  selected_steps (set_missions (<[name := m']> (missions r)) r)
  = (set_missions (<[name := m']> (missions r)) r, Ok (m_steps m')).
Proof.
  intros Hsel. apply (selected_steps_ok _ name m'); [exact Hsel|].
  cbn [missions set_missions]. apply lookup_insert_eq.
Qed.

Lemma update_mission_steps_viewer_ok (r : robot) (steps : list json) :
  steps_of r = Some steps → show_steps steps = Ok tt →
  update_mission_steps_viewer r = (r, Ok tt).
Proof.
  intros Hsteps Hshown. rewrite (update_mission_steps_viewer_eq r steps Hsteps).
  by rewrite Hshown.
Qed.

Lemma update_mission_steps_viewer_state (r : robot) :
  fst (update_mission_steps_viewer r) = r.
Proof. unfold update_mission_steps_viewer. by destruct (steps_of r). Qed.

Lemma displayable_py_insert (i : nat) (x : json) (steps : list json) :
  displayable x → Forall displayable steps →
  Forall displayable (py_insert i x steps).
Proof.
  intros Hx Hsteps. unfold py_insert. apply Forall_app. split.
  - by apply Forall_take.
  - constructor; [exact Hx | by apply Forall_drop].
Qed.

(** X26. [duplicate_step] puts a copy of the selected step right after
    it, so that the step stands at its index and at the next one and the
    other steps keep their order; deleting the copy with [delete_step]
    gives back the frame as it was, with the two statuses queued. *)
Theorem duplicate_then_delete_restores (s : panel) (i : nat) (name : value)
    (m : mission) (d : dict) :
  selected_mission (frame s) = Some name →
  missions (frame s) !! name = Some m →
  m_steps m !! i = Some (JObj d) →
  Forall displayable (m_steps m) →
  let steps' := py_insert (i + 1) (JObj d) (m_steps m) in
  duplicate_step (Some i) s
  = (Panel
       (set_missions
          (<[name := Mission (m_name m) (m_intro m) steps']> (missions (frame s)))
          (frame s))
       (notices s ++ [StatusStepDuplicated (i + 1) (i + 2)]),
     Ok tt)
  ∧ steps' !! i = Some (JObj d)
  ∧ steps' !! (i + 1)%nat = Some (JObj d)
  ∧ delete (i + 1)%nat steps' = m_steps m
  ∧ pbind (duplicate_step (Some i)) (λ _, delete_step (Some (i + 1)%nat)) s
    = (Panel (frame s)
         (notices s ++ [StatusStepDuplicated (i + 1) (i + 2);
                        StatusStepDeleted (i + 1 + 1)]),
       Ok tt).
Proof.
  intros Hsel Hm Hx Hshown steps'.
  pose proof (lookup_lt_Some _ _ _ Hx) as Hi.
  assert (Hlen : (i + 1 ≤ length (m_steps m))%nat) by lia.
  assert (Hcopy : steps' !! (i + 1)%nat = Some (JObj d))
    by (by apply py_insert_lookup).
  assert (Hback : delete (i + 1)%nat steps' = m_steps m)
    by (by apply py_insert_delete).
  assert (Hshown' : show_steps steps' = Ok tt).
  { apply show_steps_Forall, displayable_py_insert; [|exact Hshown].
    eapply Forall_lookup_1; [exact Hshown | exact Hx]. }
  destruct s as [r ns]. cbn [frame notices] in *.
  set (r1 := set_missions
               (<[name := Mission (m_name m) (m_intro m) steps']> (missions r)) r).
  assert (Hdup : duplicate_step (Some i) (Panel r ns)
                 = (Panel r1 (ns ++ [StatusStepDuplicated (i + 1) (i + 2)]),
                    Ok tt)).
  { unfold duplicate_step.
    erewrite pbind_ok.
    2:{ apply on_frame_eq. cbn [frame]. unfold step_at.
        erewrite bind_ok by (by apply (selected_steps_ok r name m)).
        rewrite Hx. reflexivity. }
    erewrite pbind_ok by (apply on_frame_eq; reflexivity).
    erewrite pbind_ok
      by (apply on_frame_eq; by apply (selected_steps_ok r name m)).
    erewrite pbind_ok
      by (apply on_frame_eq; by apply (set_selected_steps_ok r name m)).
    erewrite pbind_ok.
    2:{ apply on_frame_eq. cbn [frame].
        apply (update_mission_steps_viewer_ok _ steps'); [|exact Hshown'].
        by apply steps_of_set_missions. }
    reflexivity. }
  split; [exact Hdup|].
  split.
  { subst steps'. unfold py_insert. rewrite lookup_app_l
      by (rewrite length_take; lia).
    rewrite lookup_take_lt by lia. exact Hx. }
  split; [exact Hcopy|]. split; [exact Hback|].
  erewrite pbind_ok by exact Hdup.
  unfold delete_step.
  erewrite pbind_ok
    by (apply on_frame_eq; by apply selected_steps_set_missions).
  cbn [m_steps notices frame].
  erewrite pbind_ok by (apply on_frame_eq; fold steps'; rewrite Hcopy; reflexivity).
  cbn [notices frame].
  assert (Hr1 : selected_mission r1 = Some name
                ∧ missions r1 !! name
                  = Some (Mission (m_name m) (m_intro m) steps')).
  { split; [exact Hsel | apply lookup_insert_eq]. }
  destruct Hr1 as [Hsel1 Hm1].
  erewrite pbind_ok
    by (apply on_frame_eq;
        apply (set_selected_steps_ok r1 name _ _ Hsel1 Hm1)).
  cbn [notices frame m_name m_intro]. fold steps'. rewrite Hback.
  assert (Hrestored : set_missions
            (<[name := Mission (m_name m) (m_intro m) (m_steps m)]> (missions r1))
            r1 = r).
  { subst r1. cbn [missions set_missions].
    rewrite insert_insert_eq. replace (Mission _ _ (m_steps m)) with m
      by (by destruct m).
    rewrite insert_id by exact Hm. by destruct r. }
  rewrite Hrestored.
  erewrite pbind_ok.
  2:{ apply on_frame_eq. cbn [frame].
      apply (update_mission_steps_viewer_ok _ (m_steps m));
        [|by apply show_steps_Forall].
      unfold steps_of. rewrite Hsel. cbn. by rewrite Hm. }
  unfold notify. cbn [frame notices]. by rewrite <- app_assoc.
Qed.

Lemma duplicate_then_delete_restores_witness :
  pbind (duplicate_step (Some 1%nat)) (λ _, delete_step (Some (1 + 1)%nat))
    sample_panel
  = (Panel sample_robot
       [StatusStepDuplicated (1 + 1) (1 + 2); StatusStepDeleted (1 + 1 + 1)],
     Ok tt).
Proof.
  destruct (duplicate_then_delete_restores sample_panel 1 (VStr "demo")
              sample_mission {[ "T" := VInt 111; "cmd" := VInt 500 ]}
              eq_refl eq_refl eq_refl ltac:(repeat constructor))
    as (_ & _ & _ & _ & Hboth).
  exact Hboth.
Defined.

(** *** Creating a mission *)

(** X27. [create_mission] never raises and never overwrites: a cancelled
    dialog or an empty name does nothing, a name that is taken only
    shows the error, and a new name adds an empty mission with the text
    "Mission" under that name and selects it.  Every mission that was
    there is still there, unchanged, and nothing is sent. *)
Theorem create_mission_never_overwrites (name : option string) (s : panel) :
  let s' := fst (create_mission name s) in
  snd (create_mission name s) = Ok tt
  ∧ (∀ k m, missions (frame s) !! k = Some m → missions (frame s') !! k = Some m)
  ∧ effects (frame s') = effects (frame s)
  ∧ current_position (frame s') = current_position (frame s)
  ∧ ((frame s' = frame s
      ∧ (notices s' = notices s
         ∨ ∃ n, name = Some n ∧ is_Some (missions (frame s) !! VStr n)
                ∧ notices s' = notices s ++ [ErrorMissionExists n]))
     ∨ ∃ n, name = Some n ∧ n ≠ ""
            ∧ missions (frame s) !! VStr n = None
            ∧ missions (frame s')
              = <[VStr n := Mission (VStr n) (VStr "Mission") []]>
                  (missions (frame s))
            ∧ selected_mission (frame s') = Some (VStr n)
            ∧ steps_of (frame s') = Some []
            ∧ notices s' = notices s ++ [StatusMissionCreated n]).
Proof.
  intros s'. subst s'. unfold create_mission.
  destruct name as [n|]; [|by repeat split; auto].
  destruct (String.eqb n "") eqn:Hn; [by repeat split; auto|].
  apply String.eqb_neq in Hn.
  erewrite pbind_ok by (apply on_frame_eq; reflexivity).
  cbn [frame notices].
  case_bool_decide as Htaken.
  { cbn [notify fst snd frame notices]. repeat (split; [by auto|]).
    left. split; [reflexivity|]. right. by exists n. }
  apply eq_None_not_Some in Htaken.
  erewrite pbind_ok by (apply on_frame_eq; reflexivity).
  erewrite pbind_ok by (apply on_frame_eq; reflexivity).
  cbn [frame notices fst snd modify].
  set (r2 := set_selected_mission _ (set_missions _ (frame s))).
  assert (Hsteps : steps_of r2 = Some []).
  { unfold steps_of. cbn [selected_mission r2 set_selected_mission set_missions
                            missions mbind option_bind].
    by rewrite lookup_insert_eq. }
  erewrite pbind_ok
    by (apply on_frame_eq; by apply (update_mission_steps_viewer_ok _ [])).
  cbn [show_steps notify fst snd frame notices].
  split; [reflexivity|]. split.
  { intros k m Hk. cbn [r2 missions set_selected_mission set_missions].
    rewrite lookup_insert_ne; [exact Hk | congruence]. }
  split; [reflexivity|]. split; [reflexivity|].
  right. exists n. by repeat split.
Qed.

(** *** Back to the startup pose *)

(** X28. [init_robot] assigns the startup pose without taking
    [movement_lock]: in the trace it adds, the pose is written while the
    lock is not held.  It then sends the movement to that pose with the
    default speed and acceleration and queues its status; the mission is
    touched only if one is selected, by appending that same command. *)
Theorem init_robot_writes_without_lock (s : panel) :
  let s' := fst (init_robot s) in
  let cmd :=
    pose_command (set_current_position startup_position (frame s)) in
  current_position (frame s') = startup_position
  ∧ effects (frame s')
    = effects (frame s)
      ++ [EPoseWrite "x" (px startup_position); EPoseWrite "y" (py startup_position);
          EPoseWrite "z" (pz startup_position); EPoseWrite "t" (pt startup_position);
          ESend cmd]
  ∧ writes_guarded false
      [EPoseWrite "x" (px startup_position); EPoseWrite "y" (py startup_position);
       EPoseWrite "z" (pz startup_position); EPoseWrite "t" (pt startup_position);
       ESend cmd] = false
  ∧ notices s' = notices s ++ [StatusRobotInitialized]
  ∧ (no_mission_selected (frame s) = true →
     missions (frame s') = missions (frame s)
     ∧ snd (init_robot s) = Ok tt)
  ∧ (∀ name m, no_mission_selected (frame s) = false →
       selected_mission (frame s) = Some name →
       missions (frame s) !! name = Some m →
       missions (frame s')
       = <[name := Mission (m_name m) (m_intro m) (m_steps m ++ [cmd])]>
           (missions (frame s))).
Proof.
  intros s' cmd. subst s'.
  destruct s as [r ns]. cbn [frame notices] in *.
  set (r1 := set_effects
               (effects r ++
                [EPoseWrite "x" (px startup_position);
                 EPoseWrite "y" (py startup_position);
                 EPoseWrite "z" (pz startup_position);
                 EPoseWrite "t" (pt startup_position); ESend cmd])
               (set_current_position startup_position r)).
  assert (Hhead : init_robot (Panel r ns)
                  = (if no_mission_selected r then pret tt
                     else pbind (on_frame (append_step cmd))
                            (λ _, on_frame update_mission_steps_viewer))
                      (Panel r1 (ns ++ [StatusRobotInitialized]))).
  { subst r1 cmd. destruct r as [? [x y z t] ? ? ? ? ? ? ? ? ? ? ? ? ? ? ?].
    unfold init_robot, pose_command, pose_fields. run_panel. reflexivity. }
  rewrite Hhead.
  destruct (no_mission_selected r) eqn:Hno.
  { cbn [pret fst snd frame notices].
    repeat (split; [reflexivity|]).
    split; [by split|]. intros name m Hfalse. discriminate. }
  assert (Hfst : ∀ name m, selected_mission r = Some name →
            missions r !! name = Some m →
            fst (pbind (on_frame (append_step cmd))
                   (λ _, on_frame update_mission_steps_viewer)
                   (Panel r1 (ns ++ [StatusRobotInitialized])))
            = Panel (set_missions
                       (<[name := Mission (m_name m) (m_intro m)
                                    (m_steps m ++ [cmd])]> (missions r)) r1)
                (ns ++ [StatusRobotInitialized])).
  { intros name m Hsel Hm.
    erewrite pbind_ok
      by (apply on_frame_eq; by apply (append_step_ok cmd r1 name m)).
    unfold on_frame. cbn [fst frame notices].
    by rewrite update_mission_steps_viewer_state. }
  assert (Hany : ∃ r2, fst (pbind (on_frame (append_step cmd))
                              (λ _, on_frame update_mission_steps_viewer)
                              (Panel r1 (ns ++ [StatusRobotInitialized])))
                       = Panel r2 (ns ++ [StatusRobotInitialized])
                       ∧ current_position r2 = startup_position
                       ∧ effects r2 = effects r1).
  { destruct (selected_mission r) as [name|] eqn:Hsel.
    - destruct (missions r !! name) as [m|] eqn:Hm.
      + rewrite (Hfst name m eq_refl Hm). eexists. by repeat split.
      + exists r1. split; [|by split].
        erewrite pbind_raise; [reflexivity|].
        apply on_frame_eq. unfold append_step.
        erewrite bind_raise; [reflexivity|].
        unfold selected_steps. erewrite bind_ok by reflexivity.
        cbn [frame]. 
        replace (selected_mission r1) with (selected_mission r) by reflexivity.
        replace (missions r1) with (missions r) by reflexivity.
        by rewrite Hsel, Hm.
    - unfold no_mission_selected in Hno. by rewrite Hsel in Hno. }
  destruct Hany as (r2 & Hr2 & Hpose & Heff).
  rewrite Hr2. cbn [frame notices].
  split; [exact Hpose|]. split; [by rewrite Heff|].
  split; [reflexivity|]. split; [reflexivity|].
  split; [discriminate|].
  intros name m _ Hsel Hm. rewrite (Hfst name m Hsel Hm) in Hr2.
  injection Hr2 as <-. reflexivity.
Qed.

(** *** Editing a step *)

Lemma not_positive_false (q : Q) :
  (0 < q)%Q → Qeq_bool q 0 || Qle_bool q 0 = false.
Proof.
  intros Hq. apply orb_false_iff. split; apply not_true_iff_false; intros Hbad.
  - apply Qeq_bool_iff in Hbad. lra.
  - apply Qle_bool_iff in Hbad. lra.
Qed.

Lemma not_positive_true (q : Q) :
  Qeq_bool q 0 || Qle_bool q 0 = false → (0 < q)%Q.
Proof.
  intros Hq. apply orb_false_iff in Hq as [_ Hle].
  apply not_true_iff_false in Hle. rewrite Qle_bool_iff in Hle. lra.
Qed.

Lemma replace_step_ok (r : robot) (name : value) (m : mission) (i : nat)
    (old new_step : json) :
  selected_mission r = Some name →
  missions r !! name = Some m →
  m_steps m !! i = Some old →
  replace_step i new_step r
  = (set_missions
       (<[name := Mission (m_name m) (m_intro m) (<[i := new_step]> (m_steps m))]>
          (missions r)) r,
     Ok tt).
Proof.
  intros Hsel Hm Hold. unfold replace_step.
  erewrite bind_ok by (by apply (selected_steps_ok r name m)).
  rewrite Hold. erewrite bind_ok by reflexivity.
  by apply set_selected_steps_ok.
Qed.

Ltac panel_step :=
  erewrite pbind_ok by (apply on_frame_eq; reflexivity); cbn [frame notices].

(** X21. [edit_step] writes the selected step only when all six dialogs
    were answered and the speed and the acceleration are above zero: the
    step becomes a movement with the six answers, and nothing else of
    the frame changes.  With a dialog cancelled, or a speed or an
    acceleration that is zero or negative, the frame is as it was.  A
    step written by the editor therefore never has a speed by which
    [execute_step] cannot divide. *)
Theorem edit_step_validates (s : panel) (i : nat) (x y z t spd acc : option Q)
    (name : value) (m : mission) (old : dict) :
  selected_mission (frame s) = Some name →
  missions (frame s) !! name = Some m →
  m_steps m !! i = Some (JObj old) →
  Forall displayable (m_steps m) →
  let res := edit_step (Some i) x y z t spd acc s in
  snd res = Ok tt
  ∧ (frame (fst res) = frame s
     ∨ ∃ vx vy vz vt vs va,
         x = Some vx ∧ y = Some vy ∧ z = Some vz ∧ t = Some vt
         ∧ spd = Some vs ∧ acc = Some va ∧ (0 < vs)%Q ∧ (0 < va)%Q
         ∧ res
           = (Panel
                (set_missions
                   (<[name := Mission (m_name m) (m_intro m)
                                (<[i := JObj {[ "T" := VInt 104;
                                                "x" := VFloat vx; "y" := VFloat vy;
                                                "z" := VFloat vz; "t" := VFloat vt;
                                                "spd" := VFloat vs;
                                                "acc" := VFloat va ]}]>
                                   (m_steps m))]>
                      (missions (frame s))) (frame s))
                (notices s ++ [StatusStepUpdated (i + 1)]),
              Ok tt)).
Proof.
  destruct s as [r ns]. cbn beta iota delta [frame notices].
  intros Hsel Hm Hold Hshown res. subst res.
  unfold edit_step.
  erewrite pbind_ok.
  2:{ apply on_frame_eq. cbn [frame]. unfold step_at.
      erewrite bind_ok by (by apply (selected_steps_ok r name m)).
      rewrite Hold. reflexivity. }
  cbn [frame notices]. panel_step. panel_step.
  destruct x as [vx|]; [|by split; [|left]].
  panel_step. destruct y as [vy|]; [|by split; [|left]].
  panel_step. destruct z as [vz|]; [|by split; [|left]].
  panel_step. destruct t as [vt|]; [|by split; [|left]].
  panel_step. destruct spd as [vs|]; [|by split; [|left]].
  destruct (Qeq_bool vs 0 || Qle_bool vs 0) eqn:Hvs; [by split; [|left]|].
  panel_step. destruct acc as [va|]; [|by split; [|left]].
  destruct (Qeq_bool va 0 || Qle_bool va 0) eqn:Hva; [by split; [|left]|].
  apply not_positive_true in Hvs, Hva.
  set (new_step := JObj _).
  erewrite pbind_ok
    by (apply on_frame_eq;
        by apply (replace_step_ok r name m i (JObj old) new_step)).
  cbn [frame notices].
  erewrite pbind_ok.
  2:{ apply on_frame_eq. cbn [frame].
      apply (update_mission_steps_viewer_ok _ (<[i := new_step]> (m_steps m))).
      - by apply steps_of_set_missions.
      - apply show_steps_Forall, Forall_insert; [exact Hshown | reflexivity]. }
  cbn [notify fst snd frame notices].
  split; [reflexivity|]. right.
  exists vx, vy, vz, vt, vs, va. by repeat (split; [done|]).
Qed.

Lemma edit_step_validates_witness :
  snd (edit_step (Some 0%nat) (Some 1%Q) (Some 2%Q) (Some 3%Q) (Some 0%Q)
         (Some 0%Q) (Some 10%Q) sample_panel) = Ok tt
  ∧ frame (fst (edit_step (Some 0%nat) (Some 1%Q) (Some 2%Q) (Some 3%Q)
                  (Some 0%Q) (Some 0%Q) (Some 10%Q) sample_panel))
    = sample_robot.
Proof.
  destruct (edit_step_validates sample_panel 0 (Some 1%Q) (Some 2%Q) (Some 3%Q)
              (Some 0%Q) (Some 0%Q) (Some 10%Q) (VStr "demo") sample_mission
              sample_move_fields eq_refl eq_refl eq_refl
              ltac:(repeat constructor))
    as [Hok [Hsame | (vx & vy & vz & vt & vs & va & _ & _ & _ & _ & Hs & _ & Hpos
                      & _)]].
  - split; [exact Hok | exact Hsame].
  - exfalso. injection Hs as <-. lra.
Defined.

(** ** Jogging *)





(** ** The serial listener *)

Lemma handle_serial_data_object (d : dict) (r : robot) :
  snd (handle_serial_data (JObj d) r) = Ok tt.
Proof.
  destruct (py_eq_int (d !! "T") 1051) eqn:HT.
  - by rewrite handle_serial_data_telemetry.
  - unfold handle_serial_data. erewrite bind_ok by reflexivity.
    rewrite HT. by destruct (py_eq_int (d !! "T") 105).
Qed.

Section ListenerFacts.

Context `{JsonCodec}.
Variable stop_at : nat → bool.

Lemma serial_listener_nil (n : nat) (s : panel) :
  fst (serial_listener stop_at [] n s) = s.
Proof. cbn [serial_listener]. by destruct (stop_at n). Qed.

Lemma serial_listener_passes (reads1 reads2 : list read) (n : nat) (s : panel) :
  (∀ j, (j < length reads1)%nat → stop_at (n + j)%nat = false) →
  Forall passes_listener reads1 →
  serial_listener stop_at (reads1 ++ reads2) n s
  = serial_listener stop_at reads2 (n + length reads1)
      (fst (serial_listener stop_at reads1 n s))
  ∧ notices (fst (serial_listener stop_at reads1 n s)) = notices s
  ∧ (Forall no_frame reads1 → fst (serial_listener stop_at reads1 n s) = s).
Proof.
  intros Hstop Hpass. revert n s Hstop.
  induction Hpass as [|rd rest Hrd _ IH]; intros n s Hstop.
  - rewrite serial_listener_nil, Nat.add_0_r. by repeat split.
  - assert (H0 : stop_at n = false)
      by (rewrite <- (Nat.add_0_r n); apply Hstop; cbn; lia).
    assert (Hrest : ∀ j, (j < length rest)%nat → stop_at (S n + j)%nat = false).
    { intros j Hj. replace (S n + j)%nat with (n + S j)%nat by lia.
      apply Hstop. cbn. lia. }
    replace (n + length (rd :: rest))%nat with (S n + length rest)%nat
      by (cbn; lia).
    cbn [app]. 
    assert (Hstep : ∀ l, serial_listener stop_at (rd :: l) n s
                         = match rd with
                           | ReadLine raw =>
                               if String.eqb (strip raw) "" then
                                 serial_listener stop_at l (S n) s
                               else match loads (strip raw) with
                                    | Some (JObj d) =>
                                        serial_listener stop_at l (S n)
                                          (Panel (fst (handle_serial_data (JObj d)
                                                         (frame s))) (notices s))
                                    | _ => serial_listener stop_at l (S n) s
                                    end
                           | _ => serial_listener stop_at l (S n)
                                    (Panel (fst (emit (ESleep 1) (frame s)))
                                       (notices s))
                           end).
    { intros l. destruct l; cbn [serial_listener]; rewrite H0;
        (destruct rd as [raw| | |]; try contradiction;
         [|reflexivity]);
        cbn [passes_listener] in Hrd;
        (destruct (String.eqb (strip raw) "") eqn:Hblank; [reflexivity|]);
        (destruct (loads (strip raw)) as [[d|v]|] eqn:Hloads;
         [|destruct Hrd as [Hrd|[Hrd|[d Hrd]]];
           [apply String.eqb_neq in Hblank; contradiction
           |discriminate | discriminate]
          |reflexivity]);
        unfold on_frame; cbn [frame notices];
        rewrite handle_serial_data_object; reflexivity. }
    rewrite (Hstep (rest ++ reads2)), (Hstep rest).
    destruct rd as [raw| | |]; try contradiction.
    + destruct (String.eqb (strip raw) "") eqn:Hblank.
      { destruct (IH (S n) s Hrest) as (Happ & Hn & Hsame).
        split; [exact Happ|]. split; [exact Hn|].
        intros Hno. apply Hsame. by inversion Hno. }
      destruct (loads (strip raw)) as [[d|v]|] eqn:Hloads.
      * destruct (IH (S n) (Panel (fst (handle_serial_data (JObj d) (frame s)))
                              (notices s)) Hrest) as (Happ & Hn & _).
        split; [exact Happ|]. split; [exact Hn|].
        intros Hno. inversion Hno as [|? ? Hbad]. cbn [no_frame] in Hbad.
        apply String.eqb_neq in Hblank.
        destruct Hbad as [Hbad|Hbad]; [contradiction | congruence].
      * destruct (IH (S n) s Hrest) as (Happ & Hn & Hsame).
        split; [exact Happ|]. split; [exact Hn|].
        intros Hno. apply Hsame. by inversion Hno.
      * destruct (IH (S n) s Hrest) as (Happ & Hn & Hsame).
        split; [exact Happ|]. split; [exact Hn|].
        intros Hno. apply Hsame. by inversion Hno.
    + destruct (IH (S n) (Panel (fst (emit (ESleep 1) (frame s))) (notices s))
                  Hrest) as (Happ & Hn & _).
      split; [exact Happ|]. split; [exact Hn|].
      intros Hno. by inversion Hno.
Qed.

(** X30. The listener gets over lines that are empty or not JSON, which
    change nothing, and over frames that are objects, but a line that is
    valid JSON and not an object (a number, a string, null) ends it:
    [data.get] raises [AttributeError], the error is shown and the loop
    is left.  The reads that come after it are never looked at, so no
    later telemetry reaches the pose. *)
Theorem serial_listener_ends_on_scalar (reads1 reads2 : list read)
    (raw : string) (v : value) (n : nat) (s : panel) :
  (∀ j, (j ≤ length reads1)%nat → stop_at (n + j)%nat = false) →
  Forall passes_listener reads1 →
  strip raw ≠ "" →
  loads (strip raw) = Some (JVal v) →
  let before := fst (serial_listener stop_at reads1 n s) in
  serial_listener stop_at (reads1 ++ ReadLine raw :: reads2) n s
  = (Panel (frame before) (notices s ++ [ErrorListener AttributeError]),
     Ok ListenerBroke)
  ∧ (Forall no_frame reads1 → before = s).
Proof.
  intros Hstop Hpass Hblank Hloads before.
  destruct (serial_listener_passes reads1 (ReadLine raw :: reads2) n s)
    as (Happ & Hnotices & Hsame); [intros j Hj; apply Hstop; lia | exact Hpass|].
  split; [|exact Hsame].
  rewrite Happ. fold before. cbn [serial_listener].
  rewrite (Hstop (length reads1)) by lia.
  apply String.eqb_neq in Hblank. rewrite Hblank.
  destruct reads2; rewrite Hloads; unfold on_frame, pbind, notify, pret;
    cbn [handle_serial_data bind raise fst snd frame notices];
    by rewrite <- Hnotices.
Qed.

End ListenerFacts.

Lemma serial_listener_ends_on_scalar_witness :
  serial_listener (H:=numeral_codec) (λ _, false)
    ([ReadLine "not json"; PortNotOpen]
     ++ ReadLine (numeral_dumps (JVal (VInt 5)))
        :: [ReadLine (numeral_dumps (JObj {[ "T" := VInt 1051; "x" := VInt 1 ]}))])
    0 sample_panel
  = (Panel (frame (fst (serial_listener (H:=numeral_codec) (λ _, false)
                          [ReadLine "not json"; PortNotOpen] 0 sample_panel)))
       [ErrorListener AttributeError],
     Ok ListenerBroke).
Proof.
  apply (serial_listener_ends_on_scalar (H:=numeral_codec) (λ _, false)
           [ReadLine "not json"; PortNotOpen] _ _ (VInt 5) 0 sample_panel).
  - reflexivity.
  - constructor; [right; left; vm_compute; reflexivity|].
    constructor; [exact I | constructor].
  - rewrite numeral_dumps_stripped. vm_compute. discriminate.
  - rewrite numeral_dumps_stripped. apply numeral_loads_dumps.
Defined.
